(** * The DMMC-STAMP mailbox driver (mmc-mailbox-driver.c)

    A shallow embedding of the transactional I/O engine of the driver:
    the chunk planners, the retrying transfer routines, the page-lock
    protocol, the [at24_read]/[at24_write] entry points and the power-off
    handshake.

    Conventions.
    - C integers are values of [Z]; every place where the C type can wrap
      or truncate is written out with [u32], [u64] or [s32].  The target
      is LP64 (arm64): [unsigned int] has 32 bits, [size_t] and
      [unsigned long] have 64 bits, [int] has 32 bits.
    - Everything the driver calls but does not define (the regmap bus
      primitives, the tick counter, sleeping, runtime power management)
      is an operation of the class [Kernel] on an abstract type of worlds.
    - A computation returns its result, the next world and the list of
      events it caused, in the order in which they happened.
    - The two loops of the driver are unbounded; the embedding counts
      iterations with a fuel argument and reports [OutOfFuel] when it is
      exhausted, keeping the events seen so far.
    - The one division of the driver, in [roundup], is by the page size;
      for a page size of zero the C code divides by zero, which is
      undefined (a divide error where the processor traps), so the call
      has no result.  The embedding reports [Fault] there, keeping the
      events seen so far, and likewise where the power-off handshake
      goes through a null instance. *)

From Stdlib Require Import ZArith List Bool Lia.
Import ListNotations.
Local Open Scope Z_scope.

(** ** Fixed-width integers *)

(** Conversion to [unsigned int] / [u32]. *)
Definition u32 (x : Z) : Z := x mod 4294967296.

(** Conversion to [size_t] / [unsigned long]. *)
Definition u64 (x : Z) : Z := x mod 18446744073709551616.

(** Conversion to [int]. *)
Definition s32 (x : Z) : Z := (x + 2147483648) mod 4294967296 - 2147483648.

(** Conversion to [long]. *)
Definition s64 (x : Z) : Z :=
  (x + 9223372036854775808) mod 18446744073709551616 - 9223372036854775808.

(** [time_before(a, b)] of linux/jiffies.h: [((long)((a) - (b)) < 0)] on
    two [unsigned long] tick counts. *)
Definition time_before (a b : Z) : bool := s64 (u64 (a - b)) <? 0.

(** [roundup(x, y)] of the kernel headers, [(((x) + (__y - 1)) / __y) * __y],
    at the types of its one use: [x] is an [unsigned int], [y] a [u16], so
    the sum, the quotient and the product are [unsigned int].  For [y = 0]
    the division is by zero and there is no result. *)
Definition roundup (x y : Z) : option Z :=
  if y =? 0 then None else Some (u32 (u32 (x + (y - 1)) / y * y)).

(** Error numbers (asm-generic/errno-base.h, errno.h). *)
Definition EINVAL : Z := 22.
Definition ETIMEDOUT : Z := 110.

(** ** Driver data *)

(** [struct at24_data], without the handles ([nvmem], [client], [regmap])
    and the mutex, which live in the world. *)
Record at24_data : Type := mk_at24_data {
  write_max : Z;   (* unsigned int *)
  byte_len : Z;    (* u32 *)
  page_size : Z    (* u16 *)
}.

(** The two module parameters. *)
Class ModuleParams : Type := {
  mmc_mailbox_io_limit : Z;   (* unsigned int, default 128 *)
  at24_write_timeout : Z      (* unsigned int, milliseconds, default 25 *)
}.

Definition MB_LOCK_OFFS : Z := 2047.
Definition MB_LOCK_FLAG : Z := 1.
Definition MB_FPGA_STATUS_OFFS : Z := 2046.
(** [BIT(2)] *)
Definition MB_FPGA_STATUS_SHDN_FINISHED : Z := 4.

(** ** Buffers, events and results *)

(** The two kinds of buffer the driver hands to the bus: the address of a
    local byte [tmp] holding [v], or a position inside the caller's buffer
    [val]. *)
Inductive bufptr : Type :=
| Tmp (v : Z)
| Val (cursor : Z).

(** The bytes readable at a pointer, [val] being the caller's buffer. *)
Definition load (val : list Z) (p : bufptr) (n : Z) : list Z :=
  match p with
  | Tmp v => firstn (Z.to_nat n) [v]
  | Val c => firstn (Z.to_nat n) (skipn (Z.to_nat c) val)
  end.

Inductive direction : Type := Read | Write.

Inductive event : Type :=
| EvPmGetSync (ret : Z)
| EvPmPutNoidle
| EvPmPut
| EvMutexLock
| EvMutexUnlock
(* entry into at24_regmap_read / at24_regmap_write with its arguments *)
| EvCall (d : direction) (buf : bufptr) (offset count : Z)
| EvJiffies (t : Z)
| EvBulkRead (reg : Z) (buf : bufptr) (count : Z) (data : list Z) (ret : Z)
| EvBulkWrite (reg : Z) (buf : bufptr) (count : Z) (data : list Z) (ret : Z)
| EvUsleepRange (lo hi : Z)
| EvMdelay (ms : Z)
| EvDevErr
| EvDevInfo
| EvWarnOn.

Inductive outcome (A : Type) : Type :=
| Done (a : A)
| OutOfFuel
(* undefined in C: a division by zero, a null pointer dereference *)
| Fault.
Arguments Done {A} a.
Arguments OutOfFuel {A}.
Arguments Fault {A}.

(** How a chunk loop ends: it ran to [count == 0], or its body returned
    from the enclosing function with [ret]. *)
Inductive loop_exit : Type :=
| LoopDone
| LoopReturn (ret : Z).

(** ** The kernel interface *)

Class Kernel (World : Type) : Type := {
  (* the tick counter, an unsigned long *)
  jiffies : World -> Z;
  msecs_to_jiffies : Z -> Z;
  (* regmap_bulk_read(regmap, reg, buf, count): the int result and the
     bytes stored at buf *)
  regmap_bulk_read : Z -> Z -> World -> Z * list Z * World;
  (* regmap_bulk_write(regmap, reg, buf, count), with the bytes at buf *)
  regmap_bulk_write : Z -> list Z -> Z -> World -> Z * World;
  usleep_range : Z -> Z -> World -> World;
  mdelay : Z -> World -> World;
  pm_runtime_get_sync : World -> Z * World;
  pm_runtime_put_noidle : World -> World;
  pm_runtime_put : World -> World
}.

Section Driver.

Context {World : Type} {K : Kernel World} {P : ModuleParams}.

(** ** Computations *)

Definition M (A : Type) : Type := World -> outcome A * World * list event.

Definition ret {A : Type} (a : A) : M A := fun w => (Done a, w, []).

Definition bind {A B : Type} (m : M A) (f : A -> M B) : M B :=
  fun w =>
    match m w with
    | (Done a, w1, t1) =>
        match f a w1 with
        | (o, w2, t2) => (o, w2, t1 ++ t2)
        end
    | (OutOfFuel, w1, t1) => (OutOfFuel, w1, t1)
    | (Fault, w1, t1) => (Fault, w1, t1)
    end.

Definition out_of_fuel {A : Type} : M A := fun w => (OutOfFuel, w, []).

Definition fault {A : Type} : M A := fun w => (Fault, w, []).

Definition emit (e : event) : M unit := fun w => (Done tt, w, [e]).

Definition read_jiffies : M Z :=
  fun w => (Done (jiffies w), w, [EvJiffies (jiffies w)]).

Definition bulk_read (reg : Z) (buf : bufptr) (count : Z) : M Z :=
  fun w =>
    match regmap_bulk_read reg count w with
    | (r, data, w') => (Done r, w', [EvBulkRead reg buf count data r])
    end.

Definition bulk_write (val : list Z) (reg : Z) (buf : bufptr) (count : Z)
  : M Z :=
  fun w =>
    match regmap_bulk_write reg (load val buf count) count w with
    | (r, w') => (Done r, w', [EvBulkWrite reg buf count (load val buf count) r])
    end.

Definition do_usleep_range (lo hi : Z) : M unit :=
  fun w => (Done tt, usleep_range lo hi w, [EvUsleepRange lo hi]).

Definition do_mdelay (ms : Z) : M unit :=
  fun w => (Done tt, mdelay ms w, [EvMdelay ms]).

Definition do_pm_runtime_get_sync : M Z :=
  fun w =>
    match pm_runtime_get_sync w with
    | (r, w') => (Done r, w', [EvPmGetSync r])
    end.

Definition do_pm_runtime_put_noidle : M unit :=
  fun w => (Done tt, pm_runtime_put_noidle w, [EvPmPutNoidle]).

Definition do_pm_runtime_put : M unit :=
  fun w => (Done tt, pm_runtime_put w, [EvPmPut]).

Definition mutex_lock : M unit := emit EvMutexLock.
Definition mutex_unlock : M unit := emit EvMutexUnlock.

Notation "x <- m ;; k" := (bind m (fun x => k))
  (at level 61, m at next level, right associativity).
Notation "m ;;; k" := (bind m (fun _ => k))
  (at level 61, right associativity).

(** ** Chunk planners *)

(** lines 87-95 *)
Definition at24_adjust_read_count (mmc_mailbox : at24_data)
  (offset count : Z) : Z :=
  if count >? mmc_mailbox_io_limit then mmc_mailbox_io_limit else count.

(** lines 140-156.  [offset + 1] and [next_page - offset] are
    [unsigned int]; [offset + count] is a [size_t].  There is no result
    where [roundup] divides by zero. *)
Definition at24_adjust_write_count (mmc_mailbox : at24_data)
  (offset count : Z) : option Z :=
  let count :=
    if count >? write_max mmc_mailbox then write_max mmc_mailbox else count in
  match roundup (u32 (offset + 1)) (page_size mmc_mailbox) with
  | None => None
  | Some next_page =>
      Some (if u64 (offset + count) >? next_page then u32 (next_page - offset)
            else count)
  end.

(** ** Retrying transfers *)

(** The do-while loop of lines 113-128.  The [dev_dbg] line has no effect
    on the transfer and is left out. *)
Fixpoint at24_regmap_read_loop (fuel : nat) (timeout : Z)
  (buf : bufptr) (offset count : Z) : M Z :=
  match fuel with
  | O => out_of_fuel
  | S fuel' =>
      read_time <- read_jiffies ;;
      r <- bulk_read offset buf count ;;
      if r =? 0 then ret count
      else
        do_usleep_range 1000 1500 ;;;
        if time_before read_time timeout
        then at24_regmap_read_loop fuel' timeout buf offset count
        else ret (- ETIMEDOUT)
  end.

(** lines 97-129.  The first event records the call and its arguments;
    it stands for no statement of the routine. *)
Definition at24_regmap_read (fuel : nat) (mmc_mailbox : at24_data)
  (buf : bufptr) (offset count : Z) : M Z :=
  emit (EvCall Read buf offset count) ;;;
  let count := at24_adjust_read_count mmc_mailbox offset count in
  now <- read_jiffies ;;
  let timeout := u64 (now + msecs_to_jiffies at24_write_timeout) in
  at24_regmap_read_loop fuel timeout buf offset count.

(** The do-while loop of lines 173-188, again without its [dev_dbg]. *)
Fixpoint at24_regmap_write_loop (fuel : nat) (timeout : Z)
  (val : list Z) (buf : bufptr) (offset count : Z) : M Z :=
  match fuel with
  | O => out_of_fuel
  | S fuel' =>
      write_time <- read_jiffies ;;
      r <- bulk_write val offset buf count ;;
      if r =? 0 then ret count
      else
        do_usleep_range 1000 1500 ;;;
        if time_before write_time timeout
        then at24_regmap_write_loop fuel' timeout val buf offset count
        else ret (- ETIMEDOUT)
  end.

(** lines 158-189, with the same first event.  The planner is called
    before the deadline is computed; where it divides by zero the call
    ends there. *)
Definition at24_regmap_write (fuel : nat) (mmc_mailbox : at24_data)
  (val : list Z) (buf : bufptr) (offset count : Z) : M Z :=
  emit (EvCall Write buf offset count) ;;;
  match at24_adjust_write_count mmc_mailbox offset count with
  | None => fault
  | Some count =>
      now <- read_jiffies ;;
      let timeout := u64 (now + msecs_to_jiffies at24_write_timeout) in
      at24_regmap_write_loop fuel timeout val buf offset count
  end.

(** ** Page lock *)

(** lines 198-209; the result of the write is dropped. *)
Definition lock_if_multiple (fuel : nat) (mmc_mailbox : at24_data)
  (count : Z) : M bool :=
  if count <=? 1 then ret false
  else
    at24_regmap_write fuel mmc_mailbox [] (Tmp MB_LOCK_FLAG) MB_LOCK_OFFS 1 ;;;
    ret true.

(** lines 211-221 *)
Definition unlock_if_locked (fuel : nat) (mmc_mailbox : at24_data)
  (locked : bool) : M unit :=
  if negb locked then ret tt
  else
    at24_regmap_write fuel mmc_mailbox [] (Tmp 0) MB_LOCK_OFFS 1 ;;;
    ret tt.

(** ** Entry points *)

(** The while loop of lines 254-264: [ret] is an [int], [off] an
    [unsigned int], [count] a [size_t]; [buf] is the position in the
    caller's buffer. *)
Fixpoint at24_read_loop (fuel n : nat) (mmc_mailbox : at24_data)
  (buf off count : Z) : M loop_exit :=
  if count =? 0 then ret LoopDone
  else
    match n with
    | O => out_of_fuel
    | S n' =>
        r <- at24_regmap_read fuel mmc_mailbox (Val buf) off count ;;
        let ret_ := s32 r in
        if ret_ <? 0 then
          mutex_unlock ;;;
          do_pm_runtime_put ;;;
          ret (LoopReturn ret_)
        else
          at24_read_loop fuel n' mmc_mailbox
            (buf + ret_) (u32 (off + ret_)) (u64 (count - ret_))
    end.

(** lines 223-272 *)
Definition at24_read (fuel : nat) (mmc_mailbox : at24_data)
  (off count : Z) : M Z :=
  if count =? 0 then ret (s32 count)
  else if u64 (off + count) >? byte_len mmc_mailbox then ret (- EINVAL)
  else
    r <- do_pm_runtime_get_sync ;;
    if r <? 0 then
      do_pm_runtime_put_noidle ;;;
      ret r
    else
      mutex_lock ;;;
      locked <- lock_if_multiple fuel mmc_mailbox count ;;
      e <- at24_read_loop fuel fuel mmc_mailbox 0 off count ;;
      match e with
      | LoopReturn r' => ret r'
      | LoopDone =>
          unlock_if_locked fuel mmc_mailbox locked ;;;
          mutex_unlock ;;;
          do_pm_runtime_put ;;;
          ret 0
      end.

(** The while loop of lines 305-315. *)
Fixpoint at24_write_loop (fuel n : nat) (mmc_mailbox : at24_data)
  (val : list Z) (buf off count : Z) : M loop_exit :=
  if count =? 0 then ret LoopDone
  else
    match n with
    | O => out_of_fuel
    | S n' =>
        r <- at24_regmap_write fuel mmc_mailbox val (Val buf) off count ;;
        let ret_ := s32 r in
        if ret_ <? 0 then
          mutex_unlock ;;;
          do_pm_runtime_put ;;;
          ret (LoopReturn ret_)
        else
          at24_write_loop fuel n' mmc_mailbox val
            (buf + ret_) (u32 (off + ret_)) (u64 (count - ret_))
    end.

(** lines 274-323 *)
Definition at24_write (fuel : nat) (mmc_mailbox : at24_data)
  (off : Z) (val : list Z) (count : Z) : M Z :=
  if count =? 0 then ret (- EINVAL)
  else if u64 (off + count) >? byte_len mmc_mailbox then ret (- EINVAL)
  else
    r <- do_pm_runtime_get_sync ;;
    if r <? 0 then
      do_pm_runtime_put_noidle ;;;
      ret r
    else
      mutex_lock ;;;
      locked <- lock_if_multiple fuel mmc_mailbox count ;;
      e <- at24_write_loop fuel fuel mmc_mailbox val 0 off count ;;
      match e with
      | LoopReturn r' => ret r'
      | LoopDone =>
          unlock_if_locked fuel mmc_mailbox locked ;;;
          mutex_unlock ;;;
          do_pm_runtime_put ;;;
          ret 0
      end.

(** ** Power-off handshake *)

(** lines 327-344, [mmc_mb_pwroff_inst] being the registered instance.
    The write is a direct [regmap_bulk_write]; its result is dropped.
    After [WARN_ON(1)] the function returns to its caller.  Without an
    instance the code forms the device of its report through the null
    instance, a null pointer dereference, so the call has no result. *)
Definition mmc_mailbox_do_poweroff (mmc_mb_pwroff_inst : option at24_data)
  : M unit :=
  let stat := MB_FPGA_STATUS_SHDN_FINISHED in
  match mmc_mb_pwroff_inst with
  | None => fault
  | Some _ =>
      emit EvDevInfo ;;;
      bulk_write [] MB_FPGA_STATUS_OFFS (Tmp stat) 1 ;;;
      do_mdelay 1000 ;;;
      emit EvWarnOn
  end.

End Driver.

(** ** Observations on a run *)

Definition result_of {A W : Type} (x : outcome A * W * list event)
  : outcome A := fst (fst x).

Definition world_of {A W : Type} (x : outcome A * W * list event)
  : W := snd (fst x).

Definition trace_of {A W : Type} (x : outcome A * W * list event)
  : list event := snd x.

Definition is_call (e : event) : bool :=
  match e with
  | EvCall _ _ _ _ => true
  | _ => false
  end.

(** A call of the raw transport primitive. *)
Definition is_transport (e : event) : bool :=
  match e with
  | EvBulkRead _ _ _ _ _ | EvBulkWrite _ _ _ _ _ => true
  | _ => false
  end.

(** The calls of the retrying transfer routines, in order. *)
Definition calls (tr : list event) : list event := filter is_call tr.

(** The calls of the raw transport primitive, in order. *)
Definition transport_calls (tr : list event) : list event :=
  filter is_transport tr.

(** A raw transfer that succeeded. *)
Definition is_success (e : event) : bool :=
  match e with
  | EvBulkRead _ _ _ _ r | EvBulkWrite _ _ _ _ r => r =? 0
  | _ => false
  end.

(** The two control writes of the page-lock protocol, as calls of the
    retrying write routine. *)
Definition lock_set : event := EvCall Write (Tmp MB_LOCK_FLAG) MB_LOCK_OFFS 1.
Definition lock_clear : event := EvCall Write (Tmp 0) MB_LOCK_OFFS 1.

(** The least multiple of [y] that is at least [x], over the integers. *)
Definition round_up (x y : Z) : Z := (x + y - 1) / y * y.

(** What the write planner is expected to return for a request of [count]
    bytes at [offset]. *)
Definition write_plan_ok (mmc_mailbox : at24_data) (offset count L : Z)
  : Prop :=
  0 < L /\
  L <= round_up (offset + 1) (page_size mmc_mailbox) - offset /\
  L <= Z.min count (write_max mmc_mailbox) /\
  offset / page_size mmc_mailbox = (offset + L - 1) / page_size mmc_mailbox.

(** [e] is the raw transfer of one attempt, with result [r]. *)
Definition is_attempt (d : direction) (val : list Z) (reg : Z) (buf : bufptr)
  (count : Z) (e : event) (r : Z) : Prop :=
  match d with
  | Read => exists data, e = EvBulkRead reg buf count data r
  | Write => e = EvBulkWrite reg buf count (load val buf count) r
  end.

(** The retry discipline in the words of the design: an attempt samples
    the time and then transfers; a success ends the loop with the chunk
    length; a failure is followed by a backoff sleep and, if the sampled
    time was before the deadline, by another attempt, otherwise by a
    timeout.  The index counts the attempts the fuel allows. *)
Inductive retry_trace (att : event -> Z -> Prop) (deadline len : Z)
  : nat -> list event -> outcome Z -> Prop :=
| rt_out_of_fuel :
    retry_trace att deadline len O [] OutOfFuel
| rt_success n t e :
    att e 0 ->
    retry_trace att deadline len (S n) [EvJiffies t; e] (Done len)
| rt_retry n t e r tr o :
    att e r -> r <> 0 ->
    time_before t deadline = true ->
    retry_trace att deadline len n tr o ->
    retry_trace att deadline len (S n)
      (EvJiffies t :: e :: EvUsleepRange 1000 1500 :: tr) o
| rt_timeout n t e r :
    att e r -> r <> 0 ->
    time_before t deadline = false ->
    retry_trace att deadline len (S n)
      [EvJiffies t; e; EvUsleepRange 1000 1500] (Done (- ETIMEDOUT)).

(** A run of a retrying transfer routine, with result [o] and events
    [tr0], follows the discipline: it was entered with these arguments,
    read the tick count [now] for the deadline, went through the retry
    loop with the planned length, and, if it finished, returned
    [-ETIMEDOUT] exactly when no attempt succeeded and the planned length
    exactly when one did. *)
Definition follows_retry_discipline (d : direction) (val : list Z)
  (buf : bufptr) (offset count planned now deadline : Z) (fuel : nat)
  (o : outcome Z) (tr0 : list event) : Prop :=
  exists tr,
    tr0 = EvCall d buf offset count :: EvJiffies now :: tr /\
    retry_trace (is_attempt d val offset buf planned) deadline planned
      fuel tr o /\
    (forall r, o = Done r ->
       (r = - ETIMEDOUT <-> existsb is_success tr = false) /\
       (r = planned <-> existsb is_success tr = true)).

(** A data chunk stays inside the request [off0, off0 + count0): at each
    call of a transfer routine on the caller's buffer the offset and the
    remaining count add up to the end of the request and the buffer
    position is the distance from its start; each raw transfer on the
    caller's buffer is non-empty and lies inside the request. *)
Definition chunk_in_range (off0 count0 : Z) (e : event) : bool :=
  match e with
  | EvCall _ (Val c) off cnt =>
      (off0 <=? off) && (off + cnt =? off0 + count0) && (c =? off - off0)
  | EvBulkRead reg (Val c) n _ _ | EvBulkWrite reg (Val c) n _ _ =>
      (off0 <=? reg) && (reg + n <=? off0 + count0) && (c =? reg - off0)
      && (0 <? n)
  | _ => true
  end.

(** The call came back to its caller. *)
Definition returns {A : Type} (o : outcome A) : Prop := exists a, o = Done a.

(** ** A simulated bus

    A world for running the driver: a tick counter that advances by one
    on every backoff sleep (HZ = 1000), a script of results for the
    successive raw transfers (an exhausted script means success), and the
    result of the runtime-PM resume. *)
Module Sim.

Record sim : Type := mk_sim {
  clock : Z;
  bus : list Z;
  pm : Z
}.

Definition next_transfer (w : sim) : Z * sim :=
  (hd 0 (bus w), mk_sim (clock w) (tl (bus w)) (pm w)).

Definition kernel : Kernel sim := {|
  jiffies w := u64 (clock w);
  msecs_to_jiffies m := m;
  regmap_bulk_read reg count w :=
    (fst (next_transfer w),
     if fst (next_transfer w) =? 0 then repeat 170 (Z.to_nat count) else [],
     snd (next_transfer w));
  regmap_bulk_write reg data count w := next_transfer w;
  usleep_range lo hi w := mk_sim (clock w + 1) (bus w) (pm w);
  mdelay ms w := mk_sim (clock w + ms) (bus w) (pm w);
  pm_runtime_get_sync w := (pm w, w);
  pm_runtime_put_noidle w := w;
  pm_runtime_put w := w
|}.

Definition params : ModuleParams := {|
  mmc_mailbox_io_limit := 128;
  at24_write_timeout := 25
|}.

(** The same with a write timeout of zero. *)
Definition impatient : ModuleParams := {|
  mmc_mailbox_io_limit := 128;
  at24_write_timeout := 0
|}.

(** The mailbox as probed with the default properties. *)
Definition mailbox : at24_data := mk_at24_data 16 2048 16.

(** An instance whose size property spans the whole 32-bit offset space. *)
Definition wide : at24_data := mk_at24_data 16 4294967295 16.

(** A bus on which every transfer succeeds. *)
Definition healthy : sim := mk_sim 1000 [] 0.

(** A bus on which the first transfer succeeds and the following fail. *)
Definition failing_after_one : sim := mk_sim 1000 (0 :: repeat (-5) 64) 0.

(** A bus on which the first two transfers fail. *)
Definition flaky : sim := mk_sim 1000 [-5; -5] 0.

Definition read (fuel : nat) (m : at24_data) (off count : Z) (w : sim) :=
  @at24_read sim kernel params fuel m off count w.

Definition write (fuel : nat) (m : at24_data) (off : Z) (val : list Z)
  (count : Z) (w : sim) :=
  @at24_write sim kernel params fuel m off val count w.

Definition regmap_read (fuel : nat) (m : at24_data) (buf : bufptr)
  (offset count : Z) (w : sim) :=
  @at24_regmap_read sim kernel params fuel m buf offset count w.

Definition regmap_write (fuel : nat) (m : at24_data) (val : list Z)
  (buf : bufptr) (offset count : Z) (w : sim) :=
  @at24_regmap_write sim kernel params fuel m val buf offset count w.

Definition poweroff (inst : option at24_data) (w : sim) :=
  @mmc_mailbox_do_poweroff sim kernel inst w.

End Sim.


(** ** Further observations on a run *)

(** The events of the retrying transfer routines: everything that happens
    on or around the bus. *)
Definition is_bus_event (e : event) : bool :=
  match e with
  | EvCall _ _ _ _ | EvJiffies _ | EvBulkRead _ _ _ _ _
  | EvBulkWrite _ _ _ _ _ | EvUsleepRange _ _ => true
  | _ => false
  end.

(** A raw transfer on the caller's buffer that succeeded. *)
Definition is_data_success (e : event) : bool :=
  match e with
  | EvBulkRead _ (Val _) _ _ r | EvBulkWrite _ (Val _) _ _ r => r =? 0
  | _ => false
  end.

Definition data_successes (tr : list event) : list event :=
  filter is_data_success tr.

(** The stretch of the device covered by a list of raw transfers in
    direction [d] that starts at offset [off] with buffer position [c]:
    each transfer is non-empty and starts, on the device and in the
    buffer, where the one before it ended.  The result is the offset
    after the last transfer. *)
Fixpoint covered (d : direction) (off c : Z) (l : list event) : option Z :=
  match l with
  | [] => Some off
  | EvBulkRead reg (Val c') n _ _ :: l' =>
      match d with
      | Read =>
          if (reg =? off) && (c' =? c) && (0 <? n)
          then covered d (off + n) (c + n) l' else None
      | Write => None
      end
  | EvBulkWrite reg (Val c') n _ _ :: l' =>
      match d with
      | Write =>
          if (reg =? off) && (c' =? c) && (0 <? n)
          then covered d (off + n) (c + n) l' else None
      | Read => None
      end
  | _ :: _ => None
  end.

(** The size limits of a raw transfer on the caller's buffer: a write is
    at most [write_max] bytes long and lies on one page, a read is at most
    [io_limit] bytes long. *)
Definition chunk_within_limits (mmc_mailbox : at24_data) (io_limit : Z)
  (e : event) : bool :=
  match e with
  | EvBulkWrite reg (Val _) n _ _ =>
      (n <=? write_max mmc_mailbox) &&
      (reg / page_size mmc_mailbox =? (reg + n - 1) / page_size mmc_mailbox)
  | EvBulkRead _ (Val _) n _ _ => n <=? io_limit
  | _ => true
  end.

(** The shape of the events of a finished call of an entry point: nothing
    at all (the request was rejected or empty), a failed runtime-PM resume
    with its [pm_runtime_put_noidle], or a resume, the mutex taken, bus
    events only, the mutex released and [pm_runtime_put]. *)
Definition critical_section (r : Z) (tr : list event) : Prop :=
  tr = [] \/
  (exists e, e < 0 /\ r = e /\ tr = [EvPmGetSync e; EvPmPutNoidle]) \/
  (exists e body,
     0 <= e /\
     tr = EvPmGetSync e :: EvMutexLock :: body ++ [EvMutexUnlock; EvPmPut] /\
     forallb is_bus_event body = true).

(** A run of an entry point asked for [count] bytes at [off], with result
    [o] and events [tr]: the successful raw transfers on the caller's
    buffer cover a stretch that starts at [off] and ends at some [e] inside
    the request, and a finished run returns 0 exactly when the stretch is
    the whole request. *)
Definition covers_request (d : direction) (off count : Z) (o : outcome Z)
  (tr : list event) : Prop :=
  exists e,
    covered d off 0 (data_successes tr) = Some e /\
    off <= e <= off + count /\
    (forall r, o = Done r -> (r = 0 <-> e = off + count)).

(** ** Module initialisation, probing and removal *)

(** Conversion to [u16]. *)
Definition u16 (x : Z) : Z := x mod 65536.

(** [rounddown_pow_of_two(n)] of linux/log2.h for [n <> 0],
    [1UL << (fls_long(n) - 1)]: one shifted to the highest set bit. *)
Definition rounddown_pow_of_two (n : Z) : Z := Z.shiftl 1 (Z.log2 n).

Definition ENOMEM : Z := 12.
Definition ENODEV : Z := 19.
Definition I2C_SMBUS_BLOCK_MAX : Z := 32.
Definition I2C_FUNC_I2C : Z := 1.
Definition I2C_FUNC_SMBUS_WRITE_I2C_BLOCK : Z := 134217728.

(** [struct at24_chip_data] and the one chip the two match tables name. *)
Record at24_chip_data : Type := mk_at24_chip_data {
  chip_byte_len : Z
}.

Definition at24_data_dmmc_stamp_mailbox : at24_chip_data :=
  mk_at24_chip_data (16384 / 8).

(** The two device properties the probe reads. *)
Inductive property : Type := Pagesize | Size.

(** The value of the kernel's [pm_power_off] pointer: null, this driver's
    [mmc_mailbox_do_poweroff], or some other function. *)
Inductive hook : Type := NoHook | MailboxHook | OtherHook.

(** The two globals the probe and the removal work on. *)
Record globals : Type := mk_globals {
  pm_power_off : hook;
  mmc_mb_pwroff_inst : option at24_data
}.

(** What the probe, the removal and the module entry points call.  A
    pointer result is given as 0 for a valid pointer and as the negative
    error number for an error pointer. *)
Class Platform (World : Type) : Type := {
  i2c_add_driver : World -> Z * World;
  i2c_del_driver : World -> World;
  i2c_check_functionality : Z -> World -> bool;
  (* i2c_match_id(mmc_mailbox_ids, client) is not null *)
  i2c_match_id : World -> bool;
  (* of_node && of_match_device(mmc_mailbox_of_match, dev) *)
  of_match : World -> bool;
  of_device_get_match_data : World -> option at24_chip_data;
  (* None for a non-zero result *)
  device_property_read_u32 : property -> World -> option Z;
  devm_regmap_init_i2c : World -> Z * World;
  (* the allocation succeeded *)
  devm_kzalloc : World -> bool * World;
  (* with the size of nvmem_config, an int *)
  devm_nvmem_register : Z -> World -> Z * World;
  i2c_set_clientdata : at24_data -> World -> World;
  pm_runtime_set_active : World -> World;
  pm_runtime_enable : World -> World;
  pm_runtime_idle : World -> World;
  pm_runtime_disable : World -> World;
  pm_runtime_set_suspended : World -> World
}.

Section Lifecycle.

Context {World : Type} {K : Kernel World} {F : Platform World}
  {P : ModuleParams}.

Notation "x <- m ;; k" := (bind m (fun x => k))
  (at level 61, m at next level, right associativity).
Notation "m ;;; k" := (bind m (fun _ => k))
  (at level 61, right associativity).

(** A question to the world, a call that changes it, and a call without
    result; none of them is recorded as an event. *)
Definition query {A : Type} (f : World -> A) : M A :=
  fun w => (Done (f w), w, []).

Definition call {A : Type} (f : World -> A * World) : M A :=
  fun w => match f w with (a, w') => (Done a, w', []) end.

Definition step (f : World -> World) : M unit :=
  fun w => (Done tt, f w, []).

(** lines 346-370: the chip data, or the error number of the error
    pointer. *)
Definition at24_get_chip_data : M (Z + at24_chip_data) :=
  id <- query i2c_match_id ;;
  m <- query of_match ;;
  cdata <- (if m then query of_device_get_match_data
            else if id then ret (Some at24_data_dmmc_stamp_mailbox)
            else ret None) ;;
  match cdata with
  | None => ret (inl (- ENODEV))
  | Some c => ret (inr c)
  end.

(** lines 372-483.  The result is the return value, the globals and the
    instance handed to [i2c_set_clientdata], if that point is reached.
    [page_size] is a [u32] here and a [u16] in the instance.  The
    [dev_warn] about a page size that is no power of two is left out; the
    allocation asks for the size of a pointer, which does not show in
    this embedding. *)
Definition mmc_mailbox_probe (fuel : nat) (g : globals)
  : M (Z * globals * option at24_data) :=
  i2c_fn_i2c <- query (i2c_check_functionality I2C_FUNC_I2C) ;;
  i2c_fn_block <-
    query (i2c_check_functionality I2C_FUNC_SMBUS_WRITE_I2C_BLOCK) ;;
  cd <- at24_get_chip_data ;;
  match cd with
  | inl err => ret (err, g, None)
  | inr cdata =>
      ps <- query (device_property_read_u32 Pagesize) ;;
      let page_size := match ps with Some v => v | None => 16 end in
      sz <- query (device_property_read_u32 Size) ;;
      let byte_len :=
        match sz with Some v => v | None => chip_byte_len cdata end in
      let page_size :=
        if negb i2c_fn_i2c && negb i2c_fn_block then 1 else page_size in
      if page_size =? 0 then
        emit EvDevErr ;;;
        ret (- EINVAL, g, None)
      else
        r <- call devm_regmap_init_i2c ;;
        if r <? 0 then ret (r, g, None)
        else
          ok <- call devm_kzalloc ;;
          if negb ok then ret (- ENOMEM, g, None)
          else
            let write_max := Z.min (u32 page_size) (u32 mmc_mailbox_io_limit) in
            let write_max :=
              if negb i2c_fn_i2c && (write_max >? I2C_SMBUS_BLOCK_MAX)
              then I2C_SMBUS_BLOCK_MAX else write_max in
            let mmc_mailbox :=
              mk_at24_data write_max byte_len (u16 page_size) in
            r <- call (devm_nvmem_register (s32 byte_len)) ;;
            if r <? 0 then ret (r, g, None)
            else
              step (i2c_set_clientdata mmc_mailbox) ;;;
              step pm_runtime_set_active ;;;
              step pm_runtime_enable ;;;
              err <- at24_read fuel mmc_mailbox 0 1 ;;
              step pm_runtime_idle ;;;
              if negb (err =? 0) then
                step pm_runtime_disable ;;;
                ret (- ENODEV, g, Some mmc_mailbox)
              else
                emit EvDevInfo ;;;
                match pm_power_off g with
                | NoHook =>
                    ret (0, mk_globals MailboxHook (Some mmc_mailbox),
                         Some mmc_mailbox)
                | _ =>
                    emit EvDevErr ;;;
                    ret (0, g, Some mmc_mailbox)
                end
  end.

(** lines 485-493 *)
Definition mmc_mailbox_remove (g : globals) : M globals :=
  step pm_runtime_disable ;;;
  step pm_runtime_set_suspended ;;;
  match pm_power_off g with
  | MailboxHook => ret (mk_globals NoHook (mmc_mb_pwroff_inst g))
  | _ => ret g
  end.

(** lines 506-515: the return value and the module parameters after the
    call.  The [pr_err] is left out. *)
Definition mmc_mailbox_init : M (Z * ModuleParams) :=
  if mmc_mailbox_io_limit =? 0 then ret (- EINVAL, P)
  else
    let P' := {|
      mmc_mailbox_io_limit := u32 (rounddown_pow_of_two mmc_mailbox_io_limit);
      at24_write_timeout := at24_write_timeout
    |} in
    r <- call i2c_add_driver ;;
    ret (r, P').

(** lines 518-521 *)
Definition mmc_mailbox_exit : M unit := step i2c_del_driver.

End Lifecycle.

(** The globals never name this driver's hook without an instance for
    it. *)
Definition hook_has_instance (g : globals) : Prop :=
  pm_power_off g = MailboxHook -> mmc_mb_pwroff_inst g <> None.

(** What the probe may do on the bus: read one byte at offset 0 into the
    caller's byte, and nothing else. *)
Definition probe_event_ok (e : event) : bool :=
  match e with
  | EvCall Read (Val c) off n => (c =? 0) && (off =? 0) && (n =? 1)
  | EvCall _ _ _ _ => false
  | EvBulkRead reg (Val c) n _ _ => (c =? 0) && (reg =? 0) && (n =? 1)
  | EvBulkRead _ _ _ _ _ => false
  | EvBulkWrite _ _ _ _ _ => false
  | _ => true
  end.

(** A platform for the simulated bus: an I2C adapter with full
    functionality, a device matched through the I2C id table, no device
    properties, and calls that succeed. *)
Module SimPlatform.

Definition platform : Platform Sim.sim := {|
  i2c_add_driver w := (0, w);
  i2c_del_driver w := w;
  i2c_check_functionality flag w := true;
  i2c_match_id w := true;
  of_match w := false;
  of_device_get_match_data w := None;
  device_property_read_u32 p w := None;
  devm_regmap_init_i2c w := (0, w);
  devm_kzalloc w := (true, w);
  devm_nvmem_register size w := (0, w);
  i2c_set_clientdata m w := w;
  pm_runtime_set_active w := w;
  pm_runtime_enable w := w;
  pm_runtime_idle w := w;
  pm_runtime_disable w := w;
  pm_runtime_set_suspended w := w
|}.

(** A module parameter that is no power of two. *)
Definition odd_params : ModuleParams := {|
  mmc_mailbox_io_limit := 100;
  at24_write_timeout := 25
|}.

Definition unclaimed : globals := mk_globals NoHook None.

(** A kernel on which every transfer fails. *)
Definition dead_kernel : Kernel Sim.sim := {|
  jiffies w := u64 (Sim.clock w);
  msecs_to_jiffies m := m;
  regmap_bulk_read reg count w := (-5, [], w);
  regmap_bulk_write reg data count w := (-5, w);
  usleep_range lo hi w :=
    Sim.mk_sim (Sim.clock w + 1) (Sim.bus w) (Sim.pm w);
  mdelay ms w := Sim.mk_sim (Sim.clock w + ms) (Sim.bus w) (Sim.pm w);
  pm_runtime_get_sync w := (Sim.pm w, w);
  pm_runtime_put_noidle w := w;
  pm_runtime_put w := w
|}.

(** An adapter that only does SMBus block writes, with a device that
    carries both properties: pages of 64 bytes, 4096 bytes in all. *)
Definition smbus_platform : Platform Sim.sim := {|
  i2c_add_driver w := (0, w);
  i2c_del_driver w := w;
  i2c_check_functionality flag w := flag =? I2C_FUNC_SMBUS_WRITE_I2C_BLOCK;
  i2c_match_id w := true;
  of_match w := false;
  of_device_get_match_data w := None;
  device_property_read_u32 p w :=
    Some (match p with Pagesize => 64 | Size => 4096 end);
  devm_regmap_init_i2c w := (0, w);
  devm_kzalloc w := (true, w);
  devm_nvmem_register size w := (0, w);
  i2c_set_clientdata m w := w;
  pm_runtime_set_active w := w;
  pm_runtime_enable w := w;
  pm_runtime_idle w := w;
  pm_runtime_disable w := w;
  pm_runtime_set_suspended w := w
|}.

Definition probe (fuel : nat) (g : globals) (w : Sim.sim) :=
  @mmc_mailbox_probe Sim.sim Sim.kernel platform Sim.params fuel g w.

End SimPlatform.

(** ** The bytes of a write *)

(** The bytes handed to the bus by a raw write. *)
Definition payload (e : event) : list Z :=
  match e with
  | EvBulkWrite _ _ _ data _ => data
  | _ => []
  end.

(** The bytes of the successful raw writes on the caller's buffer, in the
    order they were sent. *)
Definition bytes_written (tr : list event) : list Z :=
  flat_map payload (data_successes tr).

(** A raw write on the caller's buffer [val] hands over the bytes found
    at its buffer position. *)
Definition sends_from (val : list Z) (e : event) : bool :=
  match e with
  | EvBulkWrite _ (Val c) n data _ =>
      if list_eq_dec Z.eq_dec data (load val (Val c) n) then true else false
  | _ => true
  end.

(** ** What the events did to the world *)

Section Replay.

Context {World : Type} {K : Kernel World}.

(** The world after the kernel operations named by a list of events have
    been carried out in order from [w], provided every tick count, result
    and list of bytes in the events is what the kernel gave at that point;
    [None] otherwise.  The events that name no operation of the class
    [Kernel] leave the world as it is. *)
Fixpoint replay (tr : list event) (w : World) : option World :=
  match tr with
  | [] => Some w
  | EvJiffies t :: tr' =>
      if t =? jiffies w then replay tr' w else None
  | EvBulkRead reg _ n data r :: tr' =>
      match regmap_bulk_read reg n w with
      | (r', data', w') =>
          if (r =? r') &&
             (if list_eq_dec Z.eq_dec data data' then true else false)
          then replay tr' w' else None
      end
  | EvBulkWrite reg _ n data r :: tr' =>
      match regmap_bulk_write reg data n w with
      | (r', w') => if r =? r' then replay tr' w' else None
      end
  | EvUsleepRange lo hi :: tr' => replay tr' (usleep_range lo hi w)
  | EvMdelay ms :: tr' => replay tr' (mdelay ms w)
  | EvPmGetSync r :: tr' =>
      match pm_runtime_get_sync w with
      | (r', w') => if r =? r' then replay tr' w' else None
      end
  | EvPmPutNoidle :: tr' => replay tr' (pm_runtime_put_noidle w)
  | EvPmPut :: tr' => replay tr' (pm_runtime_put w)
  | _ :: tr' => replay tr' w
  end.

(** The events of a run started in [w] are what happened: carrying them
    out on the kernel gives the results they record and the world the run
    ended in. *)
Definition performed {A : Type} (x : outcome A * World * list event)
  (w : World) : Prop :=
  replay (trace_of x) w = Some (world_of x).

End Replay.

(** ** The page-lock protocol on the bus *)

(** What the driver does on the bus, in order: the calls of the retrying
    transfer routines and the raw transfers. *)
Definition is_action (e : event) : bool := is_call e || is_transport e.

Definition actions (tr : list event) : list event := filter is_action tr.

(** A call or a raw transfer on the caller's buffer. *)
Definition on_callers_buffer (e : event) : bool :=
  match e with
  | EvCall _ (Val _) _ _ | EvBulkRead _ (Val _) _ _ _
  | EvBulkWrite _ (Val _) _ _ _ => true
  | _ => false
  end.

(** The other events. *)
Definition off_callers_buffer (e : event) : bool :=
  negb (on_callers_buffer e).

(** A raw write of the one byte [v] to [MB_LOCK_OFFS]. *)
Definition is_lock_write (v : Z) (e : event) : bool :=
  match e with
  | EvBulkWrite reg (Tmp v') n data _ =>
      (reg =? MB_LOCK_OFFS) && (v' =? v) && (n =? 1) &&
      (if list_eq_dec Z.eq_dec data [v] then true else false)
  | _ => false
  end.

(** The actions of one control write of [v] to [MB_LOCK_OFFS]: one call
    of the retrying write routine with the local byte, followed by its raw
    writes of that byte, at least one, of which only the last can have
    succeeded. *)
Definition control_write (v : Z) (acts : list event) : Prop :=
  exists raws,
    acts = EvCall Write (Tmp v) MB_LOCK_OFFS 1 :: raws /\
    raws <> [] /\
    forallb (is_lock_write v) raws = true /\
    existsb is_success (removelast raws) = false.

(** The page-lock bracket on the bus, for one call of [at24_read] or
    [at24_write] asked for [count] bytes, with result [o] and events [tr]:
    for [count > 1] the actions are one control write of [MB_LOCK_FLAG],
    then actions on the caller's buffer only, then nothing or one control
    write of 0, the latter whenever the result is 0; for [count <= 1] all
    actions are on the caller's buffer. *)
Definition page_lock_bracket (count : Z) (o : outcome Z) (tr : list event)
  : Prop :=
  (1 < count ->
     exists set data clear,
       actions tr = set ++ data ++ clear /\
       control_write MB_LOCK_FLAG set /\
       forallb on_callers_buffer data = true /\
       (clear = [] \/ control_write 0 clear) /\
       (o = Done 0 -> control_write 0 clear)) /\
  (count <= 1 -> forallb on_callers_buffer (actions tr) = true).

(** ** The pending transfer of a chunk loop *)

(** The events of a chunk loop that starts with buffer position [buf],
    offset [off] and remaining count [count]: every call of a transfer
    routine on the caller's buffer is made with exactly the current three,
    and every successful raw transfer of [n] bytes on the caller's buffer
    moves the buffer position and the offset forward by [n] and takes [n]
    off the remaining count. *)
Fixpoint advances (buf off count : Z) (tr : list event) : bool :=
  match tr with
  | [] => true
  | EvCall _ (Val c) o n :: tr' =>
      (c =? buf) && (o =? off) && (n =? count) && advances buf off count tr'
  | EvBulkRead _ (Val _) n _ r :: tr' | EvBulkWrite _ (Val _) n _ r :: tr' =>
      if r =? 0 then advances (buf + n) (off + n) (count - n) tr'
      else advances buf off count tr'
  | _ :: tr' => advances buf off count tr'
  end.

(** * Proofs *)

(** ** Fixed-width arithmetic *)

Lemma u32_small (x : Z) : 0 <= x < 4294967296 -> u32 x = x.
Proof. intros H. unfold u32. apply Z.mod_small. exact H. Qed.

Lemma u64_small (x : Z) : 0 <= x < 18446744073709551616 -> u64 x = x.
Proof. intros H. unfold u64. apply Z.mod_small. exact H. Qed.

Lemma u32_range (x : Z) : 0 <= u32 x < 4294967296.
Proof. unfold u32. apply Z.mod_pos_bound. lia. Qed.

Lemma s32_small (x : Z) : -2147483648 <= x < 2147483648 -> s32 x = x.
Proof. intros H. unfold s32. rewrite Z.mod_small; lia. Qed.

Lemma s32_nonneg_id (x : Z) :
  0 <= x < 4294967296 -> 0 <= s32 x -> s32 x = x.
Proof.
  intros Hx Hs. unfold s32 in *.
  destruct (Z_lt_le_dec x 2147483648) as [Hlt | Hge].
  - rewrite Z.mod_small; lia.
  - replace (x + 2147483648) with (x - 2147483648 + 1 * 4294967296) in Hs by lia.
    rewrite Z.mod_add in Hs by lia.
    rewrite Z.mod_small in Hs; lia.
Qed.

(** ** The round-up *)

Lemma round_up_next_page (x y : Z) :
  0 < y -> round_up (x + 1) y = (x / y + 1) * y.
Proof.
  intros Hy. unfold round_up.
  replace (x + 1 + y - 1) with (x + 1 * y) by lia.
  rewrite Z.div_add by lia. reflexivity.
Qed.

Lemma round_up_bounds (x y : Z) :
  0 < y -> x + 1 <= round_up (x + 1) y <= x + y.
Proof.
  intros Hy. rewrite round_up_next_page by exact Hy.
  pose proof (Z.div_mod x y ltac:(lia)) as Hdm.
  pose proof (Z.mod_pos_bound x y Hy) as Hm.
  nia.
Qed.

Lemma roundup_no_wrap (x y : Z) :
  0 <= x -> 0 < y -> x + y < 4294967296 ->
  roundup (u32 (x + 1)) y = Some (round_up (x + 1) y).
Proof.
  intros Hx Hy Hlt. unfold roundup.
  replace (y =? 0) with false by lia. f_equal.
  rewrite (u32_small (x + 1)) by lia.
  replace (x + 1 + (y - 1)) with (x + 1 + y - 1) by lia.
  rewrite (u32_small (x + 1 + y - 1)) by lia.
  fold (round_up (x + 1) y).
  pose proof (round_up_bounds x y Hy) as Hb.
  apply u32_small. lia.
Qed.

(** ** The planners *)

Lemma adjust_write_count_plan (mmc_mailbox : at24_data)
  (offset count : Z) :
  0 <= offset ->
  offset + page_size mmc_mailbox < 4294967296 ->
  0 < count ->
  0 < page_size mmc_mailbox ->
  0 < write_max mmc_mailbox < 4294967296 ->
  exists L,
    at24_adjust_write_count mmc_mailbox offset count = Some L /\
    write_plan_ok mmc_mailbox offset count L.
Proof.
  intros Hoff Hwrap Hcount Hps Hwm.
  unfold write_plan_ok, at24_adjust_write_count.
  rewrite roundup_no_wrap by lia.
  eexists. split; [reflexivity | ].
  pose proof (round_up_bounds offset (page_size mmc_mailbox) Hps) as Hb.
  pose proof (round_up_next_page offset (page_size mmc_mailbox) Hps) as Hnp.
  set (np := round_up (offset + 1) (page_size mmc_mailbox)) in *.
  set (c := if count >? write_max mmc_mailbox
            then write_max mmc_mailbox else count).
  assert (Hc : c = Z.min count (write_max mmc_mailbox)).
  { unfold c. destruct (count >? write_max mmc_mailbox) eqn:E; lia. }
  assert (Hc0 : 0 < c <= write_max mmc_mailbox) by lia.
  rewrite (u64_small (offset + c)) by lia.
  assert (Hpage : forall L, 0 < L -> offset + L <= np ->
            offset / page_size mmc_mailbox =
            (offset + L - 1) / page_size mmc_mailbox).
  { intros L HL HLnp.
    pose proof (Z.div_mod offset (page_size mmc_mailbox) ltac:(lia)) as Hdm.
    pose proof (Z.mod_pos_bound offset (page_size mmc_mailbox) Hps) as Hm.
    apply (Z.div_unique_pos (offset + L - 1) (page_size mmc_mailbox)
             (offset / page_size mmc_mailbox)
             (offset + L - 1
              - page_size mmc_mailbox * (offset / page_size mmc_mailbox)));
      nia. }
  destruct (offset + c >? np) eqn:E.
  - rewrite (u32_small (np - offset)) by lia.
    repeat split; try lia. apply Hpage; lia.
  - repeat split; try lia. apply Hpage; lia.
Qed.

(** The control writes of the page-lock protocol are planned as one
    byte. *)
Lemma lock_write_is_one_byte (mmc_mailbox : at24_data) :
  0 < page_size mmc_mailbox < 65536 ->
  0 < write_max mmc_mailbox < 4294967296 ->
  at24_adjust_write_count mmc_mailbox MB_LOCK_OFFS 1 = Some 1.
Proof.
  intros Hps Hwm.
  destruct (adjust_write_count_plan mmc_mailbox MB_LOCK_OFFS 1)
    as (L & HL & H1 & _ & H2 & _); unfold MB_LOCK_OFFS in *; try lia.
  rewrite HL. f_equal. lia.
Qed.

(** The planner has a result exactly when the page size is not zero. *)
Lemma at24_adjust_write_count_defined (mmc_mailbox : at24_data)
  (offset count : Z) :
  (page_size mmc_mailbox = 0 ->
   at24_adjust_write_count mmc_mailbox offset count = None) /\
  (page_size mmc_mailbox <> 0 ->
   exists L, at24_adjust_write_count mmc_mailbox offset count = Some L).
Proof.
  unfold at24_adjust_write_count, roundup. split; intros H.
  - rewrite H. reflexivity.
  - replace (page_size mmc_mailbox =? 0) with false by lia.
    eexists. reflexivity.
Qed.

(** C7.  The read planner returns the smaller of the requested count and
    the module-wide I/O limit, whatever the offset and whatever the
    instance. *)
Theorem at24_adjust_read_count_is_min `{P : ModuleParams}
  (mmc_mailbox mmc_mailbox' : at24_data) (offset offset' count : Z) :
  at24_adjust_read_count mmc_mailbox offset count
    = Z.min count mmc_mailbox_io_limit /\
  at24_adjust_read_count mmc_mailbox' offset' count
    = at24_adjust_read_count mmc_mailbox offset count.
Proof.
  unfold at24_adjust_read_count.
  destruct (count >? mmc_mailbox_io_limit) eqn:E; split; lia || reflexivity.
Qed.

(** C3, as amended.  When the 32-bit round-up cannot wrap, that is for
    [offset + page_size < 2^32], the write planner returns a length
    [L] with [0 < L <= round_up (offset + 1) page_size - offset] and
    [L <= min count write_max], so that the chunk stays on the page of
    [offset]. *)
Theorem at24_adjust_write_count_within_page
  (mmc_mailbox : at24_data) (offset count : Z) :
  0 <= offset ->
  offset + page_size mmc_mailbox < 4294967296 ->
  0 < count ->
  0 < page_size mmc_mailbox ->
  0 < write_max mmc_mailbox < 4294967296 ->
  exists L,
    at24_adjust_write_count mmc_mailbox offset count = Some L /\
    write_plan_ok mmc_mailbox offset count L.
Proof. apply adjust_write_count_plan. Qed.

Lemma at24_adjust_write_count_within_page_witness :
  exists L,
    at24_adjust_write_count Sim.mailbox 10 12 = Some L /\
    write_plan_ok Sim.mailbox 10 12 L.
Proof.
  apply (at24_adjust_write_count_within_page Sim.mailbox 10 12);
    simpl; lia.
Defined.

(** C3, as stated, fails in the last page of the 32-bit offset space:
    with pages of 16 bytes, at offset [2^32 - 16] a request for 2 bytes is
    planned as 16 bytes. *)
Lemma at24_adjust_write_count_wraps :
  0 <= 4294967280 /\ 0 < 2 /\ 0 < page_size Sim.wide /\
  0 < write_max Sim.wide /\
  at24_adjust_write_count Sim.wide 4294967280 2 = Some 16 /\
  ~ write_plan_ok Sim.wide 4294967280 2 16.
Proof.
  split; [lia | split; [lia | split; [reflexivity | ]]].
  split; [reflexivity | split; [reflexivity | ]].
  unfold write_plan_ok. intros (_ & _ & H & _).
  vm_compute in H. apply H. reflexivity.
Qed.

(** ** Traces of the retry discipline *)

Lemma retry_trace_result (att : event -> Z -> Prop) (deadline len : Z)
  (n : nat) (tr : list event) (o : outcome Z) :
  retry_trace att deadline len n tr o ->
  o = OutOfFuel \/ o = Done len \/ o = Done (- ETIMEDOUT).
Proof. induction 1; auto. Qed.

Lemma retry_trace_no_fault (att : event -> Z -> Prop) (deadline len : Z)
  (n : nat) (tr : list event) (o : outcome Z) :
  retry_trace att deadline len n tr o -> o <> Fault.
Proof.
  intros H. destruct (retry_trace_result _ _ _ _ _ _ H) as [-> | [-> | ->]];
    discriminate.
Qed.

Lemma retry_trace_forallb (f : event -> bool) (att : event -> Z -> Prop)
  (deadline len : Z) (n : nat) (tr : list event) (o : outcome Z) :
  (forall e r, att e r -> f e = true) ->
  (forall t, f (EvJiffies t) = true) ->
  f (EvUsleepRange 1000 1500) = true ->
  retry_trace att deadline len n tr o ->
  forallb f tr = true.
Proof.
  intros Hatt Hj Hs. induction 1; cbn [forallb].
  - reflexivity.
  - rewrite Hj, (Hatt e 0) by assumption. reflexivity.
  - rewrite Hj, (Hatt e r), Hs by assumption. assumption.
  - rewrite Hj, (Hatt e r), Hs by assumption. reflexivity.
Qed.




Lemma retry_trace_success (att : event -> Z -> Prop) (deadline len : Z)
  (n : nat) (tr : list event) (o : outcome Z) :
  (forall e r, att e r -> is_success e = (r =? 0)) ->
  retry_trace att deadline len n tr o ->
  forall x, o = Done x ->
    (existsb is_success tr = true /\ x = len) \/
    (existsb is_success tr = false /\ x = - ETIMEDOUT).
Proof.
  intros Hatt. induction 1; intros x Hx; cbn [existsb is_success].
  - discriminate.
  - injection Hx as <-. left. rewrite (Hatt e 0) by assumption.
    split; reflexivity.
  - rewrite (Hatt e r) by assumption.
    replace (r =? 0) with false by lia. cbn [orb]. apply IHretry_trace.
    exact Hx.
  - injection Hx as <-. right. rewrite (Hatt e r) by assumption.
    replace (r =? 0) with false by lia. split; reflexivity.
Qed.



Lemma is_attempt_success (d : direction) (val : list Z) (reg : Z)
  (buf : bufptr) (count : Z) (e : event) (r : Z) :
  is_attempt d val reg buf count e r -> is_success e = (r =? 0).
Proof. destruct d; cbn; [intros [data ->] | intros ->]; reflexivity. Qed.

Lemma is_attempt_tmp_in_range (off0 count0 : Z) (d : direction)
  (val : list Z) (reg v count : Z) (e : event) (r : Z) :
  is_attempt d val reg (Tmp v) count e r ->
  chunk_in_range off0 count0 e = true.
Proof. destruct d; cbn; [intros [data ->] | intros ->]; reflexivity. Qed.

Lemma is_attempt_val_in_range (off0 count0 : Z) (d : direction)
  (val : list Z) (reg c count : Z) (e : event) (r : Z) :
  off0 <= reg -> reg + count <= off0 + count0 -> c = reg - off0 ->
  0 < count ->
  is_attempt d val reg (Val c) count e r ->
  chunk_in_range off0 count0 e = true.
Proof.
  intros H1 H2 H3 H4.
  destruct d; cbn; [intros [data ->] | intros ->]; cbn;
    repeat (apply andb_true_intro; split); lia.
Qed.

Section Proofs.

Context {World : Type} {K : Kernel World} {P : ModuleParams}.

(** ** Runs of composed computations *)

Lemma trace_bind {A B : Type} (m : M A) (f : A -> M B) (w : World) :
  trace_of (bind m f w) =
  trace_of (m w) ++
  match result_of (m w) with
  | Done a => trace_of (f a (world_of (m w)))
  | _ => []
  end.
Proof.
  unfold bind, trace_of, result_of, world_of.
  destruct (m w) as [[[a| |] w1] t1]; cbn.
  - destruct (f a w1) as [[o w2] t2]. reflexivity.
  - symmetry. apply app_nil_r.
  - symmetry. apply app_nil_r.
Qed.

Lemma result_bind {A B : Type} (m : M A) (f : A -> M B) (w : World) :
  result_of (bind m f w) =
  match result_of (m w) with
  | Done a => result_of (f a (world_of (m w)))
  | OutOfFuel => OutOfFuel
  | Fault => Fault
  end.
Proof.
  unfold bind, trace_of, result_of, world_of.
  destruct (m w) as [[[a| |] w1] t1]; cbn.
  - destruct (f a w1) as [[o w2] t2]. reflexivity.
  - reflexivity.
  - reflexivity.
Qed.

Lemma world_bind {A B : Type} (m : M A) (f : A -> M B) (w : World) :
  world_of (bind m f w) =
  match result_of (m w) with
  | Done a => world_of (f a (world_of (m w)))
  | _ => world_of (m w)
  end.
Proof.
  unfold bind, trace_of, result_of, world_of.
  destruct (m w) as [[[a| |] w1] t1]; cbn.
  - destruct (f a w1) as [[o w2] t2]. reflexivity.
  - reflexivity.
  - reflexivity.
Qed.

(** ** Events and the world *)

Lemma replay_app (t1 t2 : list event) (w : World) :
  replay (t1 ++ t2) w =
  match replay t1 w with
  | Some w1 => replay t2 w1
  | None => None
  end.
Proof.
  revert w. induction t1 as [|e t1 IH]; intros w; [reflexivity | ].
  destruct e as [r0| | | | | |t|reg buf n data r0|reg buf n data r0| | | | | ];
    cbn [app replay]; try apply IH.
  - destruct (pm_runtime_get_sync w) as [r' w'].
    destruct (r0 =? r'); [apply IH | reflexivity].
  - destruct (t =? jiffies w); [apply IH | reflexivity].
  - destruct (regmap_bulk_read reg n w) as [[r' data'] w'].
    destruct ((r0 =? r') && _); [apply IH | reflexivity].
  - destruct (regmap_bulk_write reg data n w) as [r' w'].
    destruct (r0 =? r'); [apply IH | reflexivity].
Qed.

Lemma performed_bind {A B : Type} (m : M A) (f : A -> M B) (w : World) :
  performed (m w) w ->
  (forall a w', performed (f a w') w') ->
  performed (bind m f w) w.
Proof.
  unfold performed. intros Hm Hf.
  rewrite trace_bind, world_bind, replay_app, Hm.
  destruct (result_of (m w)) as [a| |].
  - apply Hf.
  - reflexivity.
  - reflexivity.
Qed.

Lemma performed_ret {A : Type} (a : A) (w : World) : performed (ret a w) w.
Proof. reflexivity. Qed.

Lemma performed_read_jiffies (w : World) : performed (read_jiffies w) w.
Proof.
  unfold performed, read_jiffies. cbn. rewrite Z.eqb_refl. reflexivity.
Qed.

Lemma performed_bulk_read (reg : Z) (buf : bufptr) (count : Z) (w : World) :
  performed (bulk_read reg buf count w) w.
Proof.
  unfold performed, bulk_read.
  destruct (regmap_bulk_read reg count w) as [[r data] w'] eqn:E.
  cbn. rewrite E, Z.eqb_refl.
  destruct (list_eq_dec Z.eq_dec data data); [reflexivity | contradiction].
Qed.

Lemma performed_bulk_write (val : list Z) (reg : Z) (buf : bufptr)
  (count : Z) (w : World) :
  performed (bulk_write val reg buf count w) w.
Proof.
  unfold performed, bulk_write.
  destruct (regmap_bulk_write reg (load val buf count) count w)
    as [r w'] eqn:E.
  cbn. rewrite E, Z.eqb_refl. reflexivity.
Qed.

Lemma performed_pm_runtime_get_sync (w : World) :
  performed (do_pm_runtime_get_sync w) w.
Proof.
  unfold performed, do_pm_runtime_get_sync.
  destruct (pm_runtime_get_sync w) as [r w'] eqn:E.
  cbn. rewrite E, Z.eqb_refl. reflexivity.
Qed.

(** ** The retry loops *)

Lemma at24_regmap_read_loop_trace (fuel : nat) (timeout : Z) (val : list Z)
  (buf : bufptr) (offset count : Z) (w : World) :
  retry_trace (is_attempt Read val offset buf count) timeout count fuel
    (trace_of (at24_regmap_read_loop fuel timeout buf offset count w))
    (result_of (at24_regmap_read_loop fuel timeout buf offset count w)).
Proof.
  revert w. induction fuel as [|fuel IH]; intros w.
  - apply rt_out_of_fuel.
  - cbn [at24_regmap_read_loop].
    unfold bind, read_jiffies, bulk_read, do_usleep_range, ret.
    destruct (regmap_bulk_read offset count w) as [[r data] w1].
    destruct (r =? 0) eqn:Er.
    + apply Z.eqb_eq in Er. subst r. apply rt_success. exists data.
      reflexivity.
    + apply Z.eqb_neq in Er.
      destruct (time_before (jiffies w) timeout) eqn:Et.
      * specialize (IH (usleep_range 1000 1500 w1)).
        destruct (at24_regmap_read_loop fuel timeout buf offset count
                    (usleep_range 1000 1500 w1)) as [[o w2] t2].
        apply rt_retry with (r := r); try assumption.
        exists data. reflexivity.
      * apply rt_timeout with (r := r); try assumption.
        exists data. reflexivity.
Qed.

Lemma at24_regmap_write_loop_trace (fuel : nat) (timeout : Z) (val : list Z)
  (buf : bufptr) (offset count : Z) (w : World) :
  retry_trace (is_attempt Write val offset buf count) timeout count fuel
    (trace_of (at24_regmap_write_loop fuel timeout val buf offset count w))
    (result_of (at24_regmap_write_loop fuel timeout val buf offset count w)).
Proof.
  revert w. induction fuel as [|fuel IH]; intros w.
  - apply rt_out_of_fuel.
  - cbn [at24_regmap_write_loop].
    unfold bind, read_jiffies, bulk_write, do_usleep_range, ret.
    destruct (regmap_bulk_write offset (load val buf count) count w)
      as [r w1].
    destruct (r =? 0) eqn:Er.
    + apply Z.eqb_eq in Er. subst r. apply rt_success. reflexivity.
    + apply Z.eqb_neq in Er.
      destruct (time_before (jiffies w) timeout) eqn:Et.
      * specialize (IH (usleep_range 1000 1500 w1)).
        destruct (at24_regmap_write_loop fuel timeout val buf offset count
                    (usleep_range 1000 1500 w1)) as [[o w2] t2].
        apply rt_retry with (r := r); try assumption. reflexivity.
      * apply rt_timeout with (r := r); try assumption. reflexivity.
Qed.

(** ** The retrying transfer routines *)

Lemma at24_regmap_read_run (fuel : nat) (mmc_mailbox : at24_data)
  (val : list Z) (buf : bufptr) (offset count : Z) (w : World) :
  exists tr,
    trace_of (at24_regmap_read fuel mmc_mailbox buf offset count w) =
      EvCall Read buf offset count :: EvJiffies (jiffies w) :: tr /\
    retry_trace
      (is_attempt Read val offset buf
         (at24_adjust_read_count mmc_mailbox offset count))
      (u64 (jiffies w + msecs_to_jiffies at24_write_timeout))
      (at24_adjust_read_count mmc_mailbox offset count) fuel tr
      (result_of (at24_regmap_read fuel mmc_mailbox buf offset count w)).
Proof.
  pose proof (at24_regmap_read_loop_trace fuel
    (u64 (jiffies w + msecs_to_jiffies at24_write_timeout)) val buf offset
    (at24_adjust_read_count mmc_mailbox offset count) w) as H.
  unfold at24_regmap_read, bind, emit, read_jiffies.
  destruct (at24_regmap_read_loop fuel _ buf offset _ w) as [[o w2] t2].
  exists t2. split; [reflexivity | exact H].
Qed.

Lemma at24_regmap_write_run (fuel : nat) (mmc_mailbox : at24_data)
  (val : list Z) (buf : bufptr) (offset count L : Z) (w : World) :
  at24_adjust_write_count mmc_mailbox offset count = Some L ->
  exists tr,
    trace_of (at24_regmap_write fuel mmc_mailbox val buf offset count w) =
      EvCall Write buf offset count :: EvJiffies (jiffies w) :: tr /\
    retry_trace (is_attempt Write val offset buf L)
      (u64 (jiffies w + msecs_to_jiffies at24_write_timeout)) L fuel tr
      (result_of (at24_regmap_write fuel mmc_mailbox val buf offset count w)).
Proof.
  intros HL.
  pose proof (at24_regmap_write_loop_trace fuel
    (u64 (jiffies w + msecs_to_jiffies at24_write_timeout)) val buf offset
    L w) as H.
  unfold at24_regmap_write. rewrite HL.
  unfold bind, emit, read_jiffies.
  destruct (at24_regmap_write_loop fuel _ val buf offset _ w) as [[o w2] t2].
  exists t2. split; [reflexivity | exact H].
Qed.

Lemma at24_regmap_write_forallb (f : event -> bool) (fuel : nat)
  (mmc_mailbox : at24_data) (val : list Z) (buf : bufptr)
  (offset count : Z) (w : World) :
  f (EvCall Write buf offset count) = true ->
  (forall t, f (EvJiffies t) = true) ->
  f (EvUsleepRange 1000 1500) = true ->
  (forall L r,
     at24_adjust_write_count mmc_mailbox offset count = Some L ->
     f (EvBulkWrite offset buf L (load val buf L) r) = true) ->
  forallb f
    (trace_of (at24_regmap_write fuel mmc_mailbox val buf offset count w))
  = true.
Proof.
  intros Hc Hj Hs Hw.
  destruct (at24_adjust_write_count mmc_mailbox offset count) as [L|] eqn:HL.
  - destruct (at24_regmap_write_run fuel mmc_mailbox val buf offset count L w
                HL) as (tr & -> & Hrt).
    cbn [forallb]. rewrite Hc, Hj. cbn [andb].
    eapply retry_trace_forallb; [ | exact Hj | exact Hs | exact Hrt].
    intros e r ->. apply Hw. reflexivity.
  - unfold at24_regmap_write. rewrite HL. cbn. rewrite Hc. reflexivity.
Qed.

(** Where the planner divides by zero the call ends after its entry. *)
Lemma at24_regmap_write_fault (fuel : nat) (mmc_mailbox : at24_data)
  (val : list Z) (buf : bufptr) (offset count : Z) (w : World) :
  at24_adjust_write_count mmc_mailbox offset count = None ->
  at24_regmap_write fuel mmc_mailbox val buf offset count w
    = (Fault, w, [EvCall Write buf offset count]).
Proof. intros HL. unfold at24_regmap_write. rewrite HL. reflexivity. Qed.

(** The events of the retrying transfer routines are what happened on the
    kernel. *)
Lemma at24_regmap_read_loop_performed (fuel : nat) (timeout : Z)
  (buf : bufptr) (offset count : Z) (w : World) :
  performed (at24_regmap_read_loop fuel timeout buf offset count w) w.
Proof.
  revert w. induction fuel as [|fuel IH]; intros w; [reflexivity | ].
  cbn [at24_regmap_read_loop].
  apply performed_bind; [apply performed_read_jiffies | ]. intros t w1.
  apply performed_bind; [apply performed_bulk_read | ]. intros r w2.
  destruct (r =? 0); [apply performed_ret | ].
  apply performed_bind; [reflexivity | ]. intros [] w3.
  destruct (time_before t timeout); [apply IH | apply performed_ret].
Qed.

Lemma at24_regmap_write_loop_performed (fuel : nat) (timeout : Z)
  (val : list Z) (buf : bufptr) (offset count : Z) (w : World) :
  performed (at24_regmap_write_loop fuel timeout val buf offset count w) w.
Proof.
  revert w. induction fuel as [|fuel IH]; intros w; [reflexivity | ].
  cbn [at24_regmap_write_loop].
  apply performed_bind; [apply performed_read_jiffies | ]. intros t w1.
  apply performed_bind; [apply performed_bulk_write | ]. intros r w2.
  destruct (r =? 0); [apply performed_ret | ].
  apply performed_bind; [reflexivity | ]. intros [] w3.
  destruct (time_before t timeout); [apply IH | apply performed_ret].
Qed.

Lemma at24_regmap_read_performed (fuel : nat) (mmc_mailbox : at24_data)
  (buf : bufptr) (offset count : Z) (w : World) :
  performed (at24_regmap_read fuel mmc_mailbox buf offset count w) w.
Proof.
  unfold at24_regmap_read.
  apply performed_bind; [reflexivity | ]. intros [] w1.
  apply performed_bind; [apply performed_read_jiffies | ]. intros t w2.
  apply at24_regmap_read_loop_performed.
Qed.

Lemma at24_regmap_write_performed (fuel : nat) (mmc_mailbox : at24_data)
  (val : list Z) (buf : bufptr) (offset count : Z) (w : World) :
  performed (at24_regmap_write fuel mmc_mailbox val buf offset count w) w.
Proof.
  unfold at24_regmap_write.
  apply performed_bind; [reflexivity | ]. intros [] w1.
  destruct (at24_adjust_write_count mmc_mailbox offset count);
    [ | reflexivity].
  apply performed_bind; [apply performed_read_jiffies | ]. intros t w2.
  apply at24_regmap_write_loop_performed.
Qed.

(** The first attempt of a retry loop that is allowed one: the sample of
    the tick count and the raw transfer with what the kernel gave. *)
Lemma at24_regmap_read_loop_first (fuel : nat) (timeout : Z) (buf : bufptr)
  (offset count : Z) (w : World) :
  exists rest,
    trace_of (at24_regmap_read_loop (S fuel) timeout buf offset count w) =
      EvJiffies (jiffies w)
      :: EvBulkRead offset buf count
           (snd (fst (regmap_bulk_read offset count w)))
           (fst (fst (regmap_bulk_read offset count w)))
      :: rest.
Proof.
  cbn [at24_regmap_read_loop].
  unfold bind at 1. unfold read_jiffies at 1.
  unfold bind at 1. unfold bulk_read at 1.
  destruct (regmap_bulk_read offset count w) as [[r data] w1].
  cbn [fst snd].
  destruct ((if r =? 0 then ret count else _) w1) as [[o w2] t2].
  exists t2. reflexivity.
Qed.

Lemma at24_regmap_write_loop_first (fuel : nat) (timeout : Z)
  (val : list Z) (buf : bufptr) (offset count : Z) (w : World) :
  exists rest,
    trace_of (at24_regmap_write_loop (S fuel) timeout val buf offset count w)
    = EvJiffies (jiffies w)
      :: EvBulkWrite offset buf count (load val buf count)
           (fst (regmap_bulk_write offset (load val buf count) count w))
      :: rest.
Proof.
  cbn [at24_regmap_write_loop].
  unfold bind at 1. unfold read_jiffies at 1.
  unfold bind at 1. unfold bulk_write at 1.
  destruct (regmap_bulk_write offset (load val buf count) count w)
    as [r w1].
  cbn [fst snd].
  destruct ((if r =? 0 then ret count else _) w1) as [[o w2] t2].
  exists t2. reflexivity.
Qed.

(** C6.  Every call of a retrying transfer routine first computes the
    deadline from the tick count at entry and the write timeout, and then
    follows the retry discipline [retry_trace] with the planned chunk
    length: each attempt samples the tick count and then calls the raw
    primitive for the planned length; the first success returns that
    length at once; a failure is followed by the backoff sleep and by
    another attempt exactly when the sampled tick count was before the
    deadline; and a finished call returns [-ETIMEDOUT] exactly when none
    of its attempts succeeded.  The events are what happened: every tick
    count and every result in them is the one the kernel gave, in this
    order, and the world after the call is the one these operations
    leave.  For the write routine this holds for a page size other than
    zero, where the planner has a result. *)
Theorem retrying_transfer_discipline (fuel : nat) (mmc_mailbox : at24_data)
  (val : list Z) (buf : bufptr) (offset count : Z) (w : World) :
  0 <= count ->
  0 <= mmc_mailbox_io_limit ->
  0 <= write_max mmc_mailbox ->
  let deadline := u64 (jiffies w + msecs_to_jiffies at24_write_timeout) in
  let rd := at24_regmap_read fuel mmc_mailbox buf offset count w in
  let wr := at24_regmap_write fuel mmc_mailbox val buf offset count w in
  (follows_retry_discipline Read val buf offset count
     (at24_adjust_read_count mmc_mailbox offset count)
     (jiffies w) deadline fuel (result_of rd) (trace_of rd) /\
   performed rd w) /\
  (0 < page_size mmc_mailbox ->
   exists planned,
     at24_adjust_write_count mmc_mailbox offset count = Some planned /\
     follows_retry_discipline Write val buf offset count planned
       (jiffies w) deadline fuel (result_of wr) (trace_of wr) /\
     performed wr w).
Proof.
  intros Hcount Hlimit Hwm deadline rd wr.
  set (planned_rd := at24_adjust_read_count mmc_mailbox offset count).
  unfold follows_retry_discipline.
  assert (Hprd : 0 <= planned_rd).
  { unfold planned_rd, at24_adjust_read_count.
    destruct (count >? mmc_mailbox_io_limit); lia. }
  assert (Hne : forall len x tr,
            0 <= len ->
            (existsb is_success tr = true /\ x = len) \/
            (existsb is_success tr = false /\ x = - ETIMEDOUT) ->
            (x = - ETIMEDOUT <-> existsb is_success tr = false) /\
            (x = len <-> existsb is_success tr = true)).
  { intros len x tr Hlen [[Hs ->] | [Hs ->]]; rewrite Hs;
      unfold ETIMEDOUT; split; split; intros; try reflexivity;
      try discriminate; lia. }
  split.
  - split; [ | apply at24_regmap_read_performed].
    destruct (at24_regmap_read_run fuel mmc_mailbox val buf offset count w)
      as (tr & Htr & Hrt).
    exists tr. split; [exact Htr | split; [exact Hrt | ]].
    intros r Hr. apply Hne; [exact Hprd | ].
    eapply retry_trace_success; [ | exact Hrt | exact Hr].
    intros e r0. apply is_attempt_success.
  - intros Hps.
    assert (Hps' : page_size mmc_mailbox <> 0) by lia.
    destruct (proj2 (at24_adjust_write_count_defined mmc_mailbox offset count)
                Hps') as [planned HL].
    exists planned. split; [exact HL | ].
    split; [ | apply at24_regmap_write_performed].
    assert (Hpwr : 0 <= planned).
    { unfold at24_adjust_write_count in HL.
      destruct (roundup _ _) as [np|]; [ | discriminate].
      injection HL as <-. destruct (u64 _ >? np).
      - apply u32_range.
      - destruct (count >? write_max mmc_mailbox); lia. }
    destruct (at24_regmap_write_run fuel mmc_mailbox val buf offset count
                planned w HL) as (tr & Htr & Hrt).
    exists tr. split; [exact Htr | split; [exact Hrt | ]].
    intros r Hr. apply Hne; [exact Hpwr | ].
    eapply retry_trace_success; [ | exact Hrt | exact Hr].
    intros e r0. apply is_attempt_success.
Qed.

(** C10.  A call of a retrying transfer routine that starts its loop at
    all calls the raw transport primitive before anything else in the
    loop: after the tick count read for the deadline come the sample of
    the first attempt and the first raw transfer, for the planned length
    and with the result the kernel gave, whatever the timeout and whatever
    the clock; the events are what happened on the kernel; and a call that
    finishes has made at least one raw transfer.  For the write routine
    this holds for a page size other than zero, where the planner has a
    result. *)
Theorem transfer_attempted_at_least_once (fuel : nat)
  (mmc_mailbox : at24_data) (val : list Z) (buf : bufptr)
  (offset count : Z) (w : World) :
  let rd1 := at24_regmap_read (S fuel) mmc_mailbox buf offset count w in
  let wr1 := at24_regmap_write (S fuel) mmc_mailbox val buf offset count w in
  let rd := at24_regmap_read fuel mmc_mailbox buf offset count w in
  let wr := at24_regmap_write fuel mmc_mailbox val buf offset count w in
  let planned_rd := at24_adjust_read_count mmc_mailbox offset count in
  ((exists rest,
      trace_of rd1 =
        EvCall Read buf offset count :: EvJiffies (jiffies w)
          :: EvJiffies (jiffies w)
          :: EvBulkRead offset buf planned_rd
               (snd (fst (regmap_bulk_read offset planned_rd w)))
               (fst (fst (regmap_bulk_read offset planned_rd w)))
          :: rest) /\
   performed rd1 w /\ performed rd w /\
   (result_of rd = OutOfFuel \/
    (1 <= length (transport_calls (trace_of rd)))%nat)) /\
  (0 < page_size mmc_mailbox ->
   exists planned_wr,
     at24_adjust_write_count mmc_mailbox offset count = Some planned_wr /\
     (exists rest,
        trace_of wr1 =
          EvCall Write buf offset count :: EvJiffies (jiffies w)
            :: EvJiffies (jiffies w)
            :: EvBulkWrite offset buf planned_wr (load val buf planned_wr)
                 (fst (regmap_bulk_write offset (load val buf planned_wr)
                         planned_wr w))
            :: rest) /\
     performed wr1 w /\ performed wr w /\
     (result_of wr = OutOfFuel \/
      (1 <= length (transport_calls (trace_of wr)))%nat)).
Proof.
  intros rd1 wr1 rd wr planned_rd.
  assert (Hrd : forall n, exists rest,
     trace_of (at24_regmap_read (S n) mmc_mailbox buf offset count w) =
       EvCall Read buf offset count :: EvJiffies (jiffies w)
         :: EvJiffies (jiffies w)
         :: EvBulkRead offset buf planned_rd
              (snd (fst (regmap_bulk_read offset planned_rd w)))
              (fst (fst (regmap_bulk_read offset planned_rd w)))
         :: rest).
  { intros n. unfold at24_regmap_read.
    rewrite trace_bind. cbn [emit result_of trace_of world_of fst snd app].
    rewrite trace_bind.
    cbn [read_jiffies result_of trace_of world_of fst snd app].
    destruct (at24_regmap_read_loop_first n
                (u64 (jiffies w + msecs_to_jiffies at24_write_timeout)) buf
                offset planned_rd w) as [rest Hrest].
    exists rest. fold planned_rd. rewrite Hrest. reflexivity. }
  split.
  - split; [apply Hrd | ].
    split; [apply at24_regmap_read_performed | ].
    split; [apply at24_regmap_read_performed | ].
    subst rd. destruct fuel as [|n].
    + left. reflexivity.
    + right. destruct (Hrd n) as (rest & Htr).
      rewrite Htr. unfold transport_calls.
      cbn [filter is_transport length]. lia.
  - intros Hps.
    assert (Hps' : page_size mmc_mailbox <> 0) by lia.
    destruct (proj2 (at24_adjust_write_count_defined mmc_mailbox offset count)
                Hps') as [planned_wr HL].
    exists planned_wr. split; [exact HL | ].
    assert (Hwr : forall n, exists rest,
       trace_of (at24_regmap_write (S n) mmc_mailbox val buf offset count w) =
         EvCall Write buf offset count :: EvJiffies (jiffies w)
           :: EvJiffies (jiffies w)
           :: EvBulkWrite offset buf planned_wr (load val buf planned_wr)
                (fst (regmap_bulk_write offset (load val buf planned_wr)
                        planned_wr w))
           :: rest).
    { intros n. unfold at24_regmap_write. rewrite HL.
      rewrite trace_bind. cbn [emit result_of trace_of world_of fst snd app].
      rewrite trace_bind.
      cbn [read_jiffies result_of trace_of world_of fst snd app].
      destruct (at24_regmap_write_loop_first n
                  (u64 (jiffies w + msecs_to_jiffies at24_write_timeout)) val
                  buf offset planned_wr w) as [rest Hrest].
      exists rest. rewrite Hrest. reflexivity. }
    split; [apply Hwr | ].
    split; [apply at24_regmap_write_performed | ].
    split; [apply at24_regmap_write_performed | ].
    subst wr. destruct fuel as [|n].
    + left. unfold at24_regmap_write. rewrite HL. reflexivity.
    + right. destruct (Hwr n) as (rest & Htr).
      rewrite Htr. unfold transport_calls.
      cbn [filter is_transport length]. lia.
Qed.

(** C5.  A write of zero bytes is rejected with [-EINVAL], a read of zero
    bytes succeeds, and neither causes any event, for every instance,
    offset, buffer and world. *)
Theorem zero_length_asymmetry (fuel : nat) (mmc_mailbox : at24_data)
  (off : Z) (val : list Z) (w : World) :
  at24_write fuel mmc_mailbox off val 0 w = (Done (- EINVAL), w, []) /\
  at24_read fuel mmc_mailbox off 0 w = (Done 0, w, []) /\
  transport_calls (trace_of (at24_write fuel mmc_mailbox off val 0 w)) = [] /\
  transport_calls (trace_of (at24_read fuel mmc_mailbox off 0 w)) = [].
Proof. repeat split. Qed.

Lemma out_of_range_read (fuel : nat) (mmc_mailbox : at24_data)
  (off count : Z) (w : World) :
  count <> 0 ->
  byte_len mmc_mailbox < u64 (off + count) ->
  at24_read fuel mmc_mailbox off count w = (Done (- EINVAL), w, []).
Proof.
  intros Hc Hb. unfold at24_read.
  replace (count =? 0) with false by lia.
  replace (u64 (off + count) >? byte_len mmc_mailbox) with true by lia.
  reflexivity.
Qed.

Lemma out_of_range_write (fuel : nat) (mmc_mailbox : at24_data)
  (off : Z) (val : list Z) (count : Z) (w : World) :
  byte_len mmc_mailbox < u64 (off + count) ->
  at24_write fuel mmc_mailbox off val count w = (Done (- EINVAL), w, []).
Proof.
  intros Hb. unfold at24_write.
  destruct (count =? 0); [reflexivity | ].
  replace (u64 (off + count) >? byte_len mmc_mailbox) with true by lia.
  reflexivity.
Qed.

(** C4, as amended.  For every offset and every count other than zero
    whose sum is representable in [size_t] and exceeds [byte_len], both
    entry points return [-EINVAL] without causing any event, so without
    any transport call. *)
Theorem out_of_range_rejected (fuel : nat) (mmc_mailbox : at24_data)
  (off : Z) (val : list Z) (count : Z) (w : World) :
  0 <= off ->
  0 < count ->
  off + count < 18446744073709551616 ->
  byte_len mmc_mailbox < off + count ->
  at24_read fuel mmc_mailbox off count w = (Done (- EINVAL), w, []) /\
  at24_write fuel mmc_mailbox off val count w = (Done (- EINVAL), w, []).
Proof.
  intros Hoff Hcount Hsum Hlen.
  assert (Hu : u64 (off + count) = off + count) by (apply u64_small; lia).
  split.
  - apply out_of_range_read; lia.
  - apply out_of_range_write; lia.
Qed.

(** ** Actions of the transfer routines and the chunk loops *)

Lemma actions_app (a b : list event) :
  actions (a ++ b) = actions a ++ actions b.
Proof. apply filter_app. Qed.

Lemma retry_trace_actions (f : event -> bool) (att : event -> Z -> Prop)
  (deadline len : Z) (n : nat) (tr : list event) (o : outcome Z) :
  (forall e r, att e r ->
     is_action e = true /\ f e = true /\ is_success e = (r =? 0)) ->
  retry_trace att deadline len n tr o ->
  forallb f (actions tr) = true /\
  existsb is_success (removelast (actions tr)) = false /\
  (n <> O -> actions tr <> []).
Proof.
  intros Hatt. unfold actions.
  induction 1 as [ |n t e He|n t e r tr o He Hr Ht Hrt IH|n t e r He Hr Ht];
    cbn [filter];
    try change (is_action (EvJiffies t)) with false;
    try change (is_action (EvUsleepRange 1000 1500)) with false;
    cbn iota.
  - split; [reflexivity | split; [reflexivity | ]]. intros H. contradiction.
  - destruct (Hatt e 0 He) as (Ha & Hf & _). rewrite Ha.
    cbn [forallb removelast existsb]. rewrite Hf.
    split; [reflexivity | split; [reflexivity | discriminate]].
  - destruct (Hatt e r He) as (Ha & Hf & Hs). rewrite Ha.
    destruct IH as (IH1 & IH2 & _).
    cbn [forallb]. rewrite Hf, IH1.
    split; [reflexivity | split; [ | discriminate]].
    cbn [removelast]. destruct (filter is_action tr) as [|a l];
      [reflexivity | ].
    cbn [existsb]. rewrite Hs, IH2.
    replace (r =? 0) with false by lia. reflexivity.
  - destruct (Hatt e r He) as (Ha & Hf & _). rewrite Ha.
    cbn [forallb removelast existsb]. rewrite Hf.
    split; [reflexivity | split; [reflexivity | discriminate]].
Qed.

Lemma is_attempt_action (d : direction) (val : list Z) (reg : Z)
  (buf : bufptr) (count : Z) (e : event) (r : Z) :
  is_attempt d val reg buf count e r ->
  is_action e = true /\ is_success e = (r =? 0).
Proof.
  destruct d; cbn; [intros [data ->] | intros ->]; split; reflexivity.
Qed.

Lemma is_attempt_on_callers_buffer (d : direction) (val : list Z) (reg c : Z)
  (count : Z) (e : event) (r : Z) :
  is_attempt d val reg (Val c) count e r -> on_callers_buffer e = true.
Proof. destruct d; cbn; [intros [data ->] | intros ->]; reflexivity. Qed.

Lemma is_attempt_lock_write (val : list Z) (v : Z) (e : event) (r : Z) :
  is_attempt Write val MB_LOCK_OFFS (Tmp v) 1 e r ->
  is_lock_write v e = true.
Proof.
  cbn [is_attempt]. intros ->. cbn [is_lock_write].
  change (load val (Tmp v) 1) with [v].
  rewrite !Z.eqb_refl.
  destruct (list_eq_dec Z.eq_dec [v] [v]); [reflexivity | contradiction].
Qed.

(** One control write of the page-lock protocol. *)
Lemma at24_regmap_write_control (fuel : nat) (mmc_mailbox : at24_data)
  (val : list Z) (v : Z) (w : World) :
  fuel <> O ->
  0 < page_size mmc_mailbox < 65536 ->
  0 < write_max mmc_mailbox < 4294967296 ->
  let x := at24_regmap_write fuel mmc_mailbox val (Tmp v) MB_LOCK_OFFS 1 w in
  control_write v (actions (trace_of x)) /\ result_of x <> Fault.
Proof.
  intros Hfuel Hps Hwm x. subst x.
  pose proof (lock_write_is_one_byte mmc_mailbox Hps Hwm) as HL.
  destruct (at24_regmap_write_run fuel mmc_mailbox val (Tmp v) MB_LOCK_OFFS 1
              1 w HL) as (tr & Htr & Hrt).
  split; [ | exact (retry_trace_no_fault _ _ _ _ _ _ Hrt)].
  rewrite Htr.
  destruct (retry_trace_actions (is_lock_write v) _ _ _ _ _ _
              (fun e r H =>
                 conj (proj1 (is_attempt_action _ _ _ _ _ _ _ H))
                   (conj (is_attempt_lock_write val v e r H)
                      (proj2 (is_attempt_action _ _ _ _ _ _ _ H))))
              Hrt) as (Hall & Hlast & Hne).
  exists (actions tr).
  split; [reflexivity | split; [exact (Hne Hfuel) | split; assumption]].
Qed.

Lemma at24_regmap_read_data_actions (fuel : nat) (mmc_mailbox : at24_data)
  (c off count : Z) (w : World) :
  forallb on_callers_buffer
    (actions (trace_of (at24_regmap_read fuel mmc_mailbox (Val c) off count w)))
  = true.
Proof.
  destruct (at24_regmap_read_run fuel mmc_mailbox [] (Val c) off count w)
    as (tr & -> & Hrt).
  destruct (retry_trace_actions on_callers_buffer
              (is_attempt Read [] off (Val c)
                 (at24_adjust_read_count mmc_mailbox off count)) _ _ _ _ _
              (fun e r H =>
                 conj (proj1 (is_attempt_action _ _ _ _ _ _ _ H))
                   (conj (is_attempt_on_callers_buffer _ _ _ _ _ _ _ H)
                      (proj2 (is_attempt_action _ _ _ _ _ _ _ H))))
              Hrt) as (Hall & _ & _).
  exact Hall.
Qed.

Lemma at24_regmap_write_data_actions (fuel : nat) (mmc_mailbox : at24_data)
  (val : list Z) (c off count : Z) (w : World) :
  forallb on_callers_buffer
    (actions (trace_of (at24_regmap_write fuel mmc_mailbox val (Val c) off
                          count w))) = true.
Proof.
  destruct (at24_adjust_write_count mmc_mailbox off count) as [L|] eqn:HL.
  - destruct (at24_regmap_write_run fuel mmc_mailbox val (Val c) off count L
                w HL) as (tr & -> & Hrt).
    destruct (retry_trace_actions on_callers_buffer
                (is_attempt Write val off (Val c) L) _ _ _ _ _
                (fun e r H =>
                   conj (proj1 (is_attempt_action _ _ _ _ _ _ _ H))
                     (conj (is_attempt_on_callers_buffer _ _ _ _ _ _ _ H)
                        (proj2 (is_attempt_action _ _ _ _ _ _ _ H))))
                Hrt) as (Hall & _ & _).
    exact Hall.
  - rewrite at24_regmap_write_fault by exact HL. reflexivity.
Qed.

Lemma at24_read_loop_actions (fuel n : nat) (mmc_mailbox : at24_data)
  (buf off count : Z) (w : World) :
  forallb on_callers_buffer
    (actions (trace_of (at24_read_loop fuel n mmc_mailbox buf off count w)))
  = true /\
  (forall r,
     result_of (at24_read_loop fuel n mmc_mailbox buf off count w)
       = Done (LoopReturn r) -> r < 0).
Proof.
  revert buf off count w.
  induction n as [|n IH]; intros buf off count w; cbn [at24_read_loop];
    destruct (count =? 0);
    try (split; [reflexivity | intros r Hr; discriminate]).
  rewrite trace_bind, result_bind, actions_app, forallb_app,
    at24_regmap_read_data_actions.
  cbn [andb].
  destruct (result_of (at24_regmap_read fuel mmc_mailbox (Val buf) off count w))
    as [r| |].
  - destruct (s32 r <? 0) eqn:Eneg.
    + split; [reflexivity | ].
      intros r' Hr'. cbn in Hr'. injection Hr' as <-. lia.
    + apply IH.
  - split; [reflexivity | intros r Hr; discriminate].
  - split; [reflexivity | intros r Hr; discriminate].
Qed.

Lemma at24_write_loop_actions (fuel n : nat) (mmc_mailbox : at24_data)
  (val : list Z) (buf off count : Z) (w : World) :
  forallb on_callers_buffer
    (actions
       (trace_of (at24_write_loop fuel n mmc_mailbox val buf off count w)))
  = true /\
  (forall r,
     result_of (at24_write_loop fuel n mmc_mailbox val buf off count w)
       = Done (LoopReturn r) -> r < 0).
Proof.
  revert buf off count w.
  induction n as [|n IH]; intros buf off count w; cbn [at24_write_loop];
    destruct (count =? 0);
    try (split; [reflexivity | intros r Hr; discriminate]).
  rewrite trace_bind, result_bind, actions_app, forallb_app,
    at24_regmap_write_data_actions.
  cbn [andb].
  destruct (result_of (at24_regmap_write fuel mmc_mailbox val (Val buf) off
                         count w)) as [r| |].
  - destruct (s32 r <? 0) eqn:Eneg.
    + split; [reflexivity | ].
      intros r' Hr'. cbn in Hr'. injection Hr' as <-. lia.
    + apply IH.
  - split; [reflexivity | intros r Hr; discriminate].
  - split; [reflexivity | intros r Hr; discriminate].
Qed.

(** ** The page-lock bracket *)

Lemma lock_if_multiple_actions (fuel : nat) (mmc_mailbox : at24_data)
  (count : Z) (w : World) :
  fuel <> O ->
  0 < page_size mmc_mailbox < 65536 ->
  0 < write_max mmc_mailbox < 4294967296 ->
  let x := lock_if_multiple fuel mmc_mailbox count w in
  (count <= 1 -> trace_of x = [] /\ result_of x = Done false) /\
  (1 < count ->
   control_write MB_LOCK_FLAG (actions (trace_of x)) /\
   (result_of x = Done true \/ result_of x = OutOfFuel)).
Proof.
  intros Hfuel Hps Hwm x. subst x. unfold lock_if_multiple.
  destruct (count <=? 1) eqn:E1.
  - split; [ | intros; lia]. intros _. split; reflexivity.
  - split; [intros; lia | ]. intros _.
    destruct (at24_regmap_write_control fuel mmc_mailbox [] MB_LOCK_FLAG w
                Hfuel Hps Hwm) as [Hcw Hnf].
    rewrite trace_bind, result_bind.
    destruct (result_of (at24_regmap_write fuel mmc_mailbox []
                (Tmp MB_LOCK_FLAG) MB_LOCK_OFFS 1 w)) as [r| |].
    + cbn [ret trace_of result_of fst snd]. rewrite app_nil_r.
      split; [exact Hcw | left; reflexivity].
    + rewrite app_nil_r. split; [exact Hcw | right; reflexivity].
    + contradiction.
Qed.

Lemma unlock_if_locked_actions (fuel : nat) (mmc_mailbox : at24_data)
  (w : World) :
  fuel <> O ->
  0 < page_size mmc_mailbox < 65536 ->
  0 < write_max mmc_mailbox < 4294967296 ->
  unlock_if_locked fuel mmc_mailbox false w = (Done tt, w, []) /\
  control_write 0
    (actions (trace_of (unlock_if_locked fuel mmc_mailbox true w))) /\
  result_of (unlock_if_locked fuel mmc_mailbox true w) <> Fault.
Proof.
  intros Hfuel Hps Hwm. split; [reflexivity | ].
  unfold unlock_if_locked. cbn [negb].
  destruct (at24_regmap_write_control fuel mmc_mailbox [] 0 w Hfuel Hps Hwm)
    as [Hcw Hnf].
  rewrite trace_bind, result_bind.
  destruct (result_of (at24_regmap_write fuel mmc_mailbox [] (Tmp 0)
              MB_LOCK_OFFS 1 w)) as [r| |].
  - cbn [ret trace_of result_of fst snd]. rewrite app_nil_r.
    split; [exact Hcw | discriminate].
  - rewrite app_nil_r. split; [exact Hcw | discriminate].
  - contradiction.
Qed.

Lemma transaction_actions (fuel : nat) (mmc_mailbox : at24_data)
  (count : Z) (loop : M loop_exit) (w : World) :
  fuel <> O ->
  0 < page_size mmc_mailbox < 65536 ->
  0 < write_max mmc_mailbox < 4294967296 ->
  (forall w',
     forallb on_callers_buffer (actions (trace_of (loop w'))) = true /\
     (forall r, result_of (loop w') = Done (LoopReturn r) -> r < 0)) ->
  let x :=
    bind mutex_lock (fun _ =>
    bind (lock_if_multiple fuel mmc_mailbox count) (fun locked =>
    bind loop (fun e =>
      match e with
      | LoopReturn r' => ret r'
      | LoopDone =>
          bind (unlock_if_locked fuel mmc_mailbox locked) (fun _ =>
          bind mutex_unlock (fun _ =>
          bind do_pm_runtime_put (fun _ => ret 0)))
      end))) w in
  page_lock_bracket count (result_of x) (trace_of x) /\
  (1 < count -> forall r, result_of x = Done r -> r <> 0 ->
     exists set data,
       actions (trace_of x) = set ++ data /\
       control_write MB_LOCK_FLAG set /\
       forallb on_callers_buffer data = true).
Proof.
  intros Hfuel Hps Hwm Hloop x. subst x.
  rewrite trace_bind, result_bind.
  cbn [mutex_lock emit result_of trace_of world_of fst snd].
  rewrite trace_bind, result_bind.
  destruct (lock_if_multiple_actions fuel mmc_mailbox count w Hfuel Hps Hwm)
    as [Hsingle Hmulti].
  unfold page_lock_bracket.
  rewrite !actions_app.
  change (actions [EvMutexLock]) with (@nil event). cbn [app].
  destruct (Z_le_gt_dec count 1) as [H1 | H1].
  - (* no page lock *)
    destruct (Hsingle H1) as [Htr Hres]. rewrite Htr, Hres.
    cbn [app actions filter].
    split; [split | ]; try (intros; lia). intros _.
    destruct (Hloop w) as [Hc Hr].
    assert (Hw : world_of (lock_if_multiple fuel mmc_mailbox count w) = w).
    { unfold lock_if_multiple. replace (count <=? 1) with true by lia.
      reflexivity. }
    rewrite Hw.
    rewrite trace_bind, actions_app, forallb_app, Hc. cbn [andb].
    destruct (result_of (loop w)) as [[|r']| |]; reflexivity.
  - (* the page lock is taken *)
    assert (H1' : 1 < count) by lia.
    destruct (Hmulti H1') as [Hset [Hres | Hres]]; rewrite Hres.
    + set (w1 := world_of (lock_if_multiple fuel mmc_mailbox count w)).
      destruct (Hloop w1) as [Hc Hr].
      rewrite trace_bind, result_bind, actions_app.
      destruct (result_of (loop w1)) as [[|r']| |] eqn:El.
      * destruct (unlock_if_locked_actions fuel mmc_mailbox
                    (world_of (loop w1)) Hfuel Hps Hwm) as (_ & Hclr & Hnf).
        rewrite trace_bind, result_bind, actions_app.
        assert (Hrest :
          actions
            (match result_of (unlock_if_locked fuel mmc_mailbox true
                                (world_of (loop w1))) with
             | Done a =>
                 trace_of
                   (bind mutex_unlock (fun _ =>
                    bind do_pm_runtime_put (fun _ => ret 0))
                      (world_of (unlock_if_locked fuel mmc_mailbox true
                                   (world_of (loop w1)))))
             | _ => []
             end) = []).
        { destruct (result_of (unlock_if_locked _ _ _ _)); reflexivity. }
        rewrite Hrest, app_nil_r.
        split; [split | ]; try (intros; lia).
        -- intros _.
           exists (actions (trace_of (lock_if_multiple fuel mmc_mailbox count
                                        w))),
             (actions (trace_of (loop w1))),
             (actions (trace_of (unlock_if_locked fuel mmc_mailbox true
                                   (world_of (loop w1))))).
           split; [reflexivity | split; [exact Hset | ]].
           split; [exact Hc | split; [right; exact Hclr | ]].
           intros _. exact Hclr.
        -- intros _ r Hr0 Hne. exfalso.
           destruct (result_of (unlock_if_locked fuel mmc_mailbox true
                                  (world_of (loop w1)))) as [[]| |];
             cbn in Hr0; try discriminate.
           injection Hr0 as <-. contradiction.
      * cbn [ret trace_of result_of fst snd]. rewrite !app_nil_r.
        specialize (Hr r' eq_refl).
        split; [split | ]; try (intros; lia).
        -- intros _.
           exists (actions (trace_of (lock_if_multiple fuel mmc_mailbox count
                                        w))),
             (actions (trace_of (loop w1))), [].
           rewrite app_nil_r.
           split; [reflexivity | split; [exact Hset | ]].
           split; [exact Hc | split; [left; reflexivity | ]].
           intros H0. injection H0 as ->. lia.
        -- intros _ r Hr0 Hne.
           exists (actions (trace_of (lock_if_multiple fuel mmc_mailbox count
                                        w))),
             (actions (trace_of (loop w1))).
           split; [reflexivity | split; [exact Hset | exact Hc]].
      * rewrite !app_nil_r.
        split; [split | ]; try (intros; lia).
        -- intros _.
           exists (actions (trace_of (lock_if_multiple fuel mmc_mailbox count
                                        w))),
             (actions (trace_of (loop w1))), [].
           rewrite app_nil_r.
           split; [reflexivity | split; [exact Hset | ]].
           split; [exact Hc | split; [left; reflexivity | ]].
           intros H0. discriminate.
        -- intros _ r Hr0. discriminate.
      * rewrite !app_nil_r.
        split; [split | ]; try (intros; lia).
        -- intros _.
           exists (actions (trace_of (lock_if_multiple fuel mmc_mailbox count
                                        w))),
             (actions (trace_of (loop w1))), [].
           rewrite app_nil_r.
           split; [reflexivity | split; [exact Hset | ]].
           split; [exact Hc | split; [left; reflexivity | ]].
           intros H0. discriminate.
        -- intros _ r Hr0. discriminate.
    + rewrite app_nil_r.
      split; [split | ]; try (intros; lia).
      * intros _.
        exists (actions (trace_of (lock_if_multiple fuel mmc_mailbox count w))),
          [], [].
        rewrite !app_nil_r.
        split; [reflexivity | split; [exact Hset | ]].
        split; [reflexivity | split; [left; reflexivity | ]].
        intros H0. discriminate.
      * intros _ r Hr0. discriminate.
Qed.

Lemma page_lock_bracket_actions_eq (count : Z) (o : outcome Z)
  (tr tr' : list event) :
  actions tr' = actions tr ->
  page_lock_bracket count o tr -> page_lock_bracket count o tr'.
Proof. unfold page_lock_bracket. intros ->. exact (fun H => H). Qed.

Lemma at24_read_bracket (fuel : nat) (mmc_mailbox : at24_data)
  (off count : Z) (w : World) :
  fuel <> O ->
  0 < page_size mmc_mailbox < 65536 ->
  0 < write_max mmc_mailbox < 4294967296 ->
  u64 (off + count) <= byte_len mmc_mailbox ->
  0 <= fst (pm_runtime_get_sync w) ->
  let x := at24_read fuel mmc_mailbox off count w in
  page_lock_bracket count (result_of x) (trace_of x) /\
  (1 < count -> forall r, result_of x = Done r -> r <> 0 ->
     exists set data,
       actions (trace_of x) = set ++ data /\
       control_write MB_LOCK_FLAG set /\
       forallb on_callers_buffer data = true).
Proof.
  intros Hfuel Hps Hwm Hb Hpm x. subst x. unfold at24_read.
  destruct (count =? 0) eqn:E0.
  - apply Z.eqb_eq in E0. cbn. split; [split | ]; intros H1; try lia.
    reflexivity.
  - replace (u64 (off + count) >? byte_len mmc_mailbox) with false by lia.
    rewrite trace_bind, result_bind. unfold do_pm_runtime_get_sync.
    destruct (pm_runtime_get_sync w) as [r w1].
    cbn [result_of trace_of world_of fst snd] in *.
    replace (r <? 0) with false by lia.
    pose proof (transaction_actions fuel mmc_mailbox count
                  (at24_read_loop fuel fuel mmc_mailbox 0 off count) w1
                  Hfuel Hps Hwm
                  (fun w' => at24_read_loop_actions fuel fuel mmc_mailbox 0 off
                               count w')) as [Hbr Herr].
    split.
    + eapply page_lock_bracket_actions_eq; [ | exact Hbr]. reflexivity.
    + exact Herr.
Qed.

Lemma at24_write_bracket (fuel : nat) (mmc_mailbox : at24_data)
  (off : Z) (val : list Z) (count : Z) (w : World) :
  fuel <> O ->
  0 < page_size mmc_mailbox < 65536 ->
  0 < write_max mmc_mailbox < 4294967296 ->
  u64 (off + count) <= byte_len mmc_mailbox ->
  0 <= fst (pm_runtime_get_sync w) ->
  let x := at24_write fuel mmc_mailbox off val count w in
  page_lock_bracket count (result_of x) (trace_of x) /\
  (1 < count -> forall r, result_of x = Done r -> r <> 0 ->
     exists set data,
       actions (trace_of x) = set ++ data /\
       control_write MB_LOCK_FLAG set /\
       forallb on_callers_buffer data = true).
Proof.
  intros Hfuel Hps Hwm Hb Hpm x. subst x. unfold at24_write.
  destruct (count =? 0) eqn:E0.
  - apply Z.eqb_eq in E0. cbn. split; [split | ]; intros H1; try lia.
    reflexivity.
  - replace (u64 (off + count) >? byte_len mmc_mailbox) with false by lia.
    rewrite trace_bind, result_bind. unfold do_pm_runtime_get_sync.
    destruct (pm_runtime_get_sync w) as [r w1].
    cbn [result_of trace_of world_of fst snd] in *.
    replace (r <? 0) with false by lia.
    pose proof (transaction_actions fuel mmc_mailbox count
                  (at24_write_loop fuel fuel mmc_mailbox val 0 off count) w1
                  Hfuel Hps Hwm
                  (fun w' => at24_write_loop_actions fuel fuel mmc_mailbox val
                               0 off count w')) as [Hbr Herr].
    split.
    + eapply page_lock_bracket_actions_eq; [ | exact Hbr]. reflexivity.
    + exact Herr.
Qed.

(** ** The events of the entry points are what happened *)

Lemma lock_if_multiple_performed (fuel : nat) (mmc_mailbox : at24_data)
  (count : Z) (w : World) :
  performed (lock_if_multiple fuel mmc_mailbox count w) w.
Proof.
  unfold lock_if_multiple. destruct (count <=? 1); [reflexivity | ].
  apply performed_bind; [apply at24_regmap_write_performed | ].
  intros r w1. reflexivity.
Qed.

Lemma unlock_if_locked_performed (fuel : nat) (mmc_mailbox : at24_data)
  (locked : bool) (w : World) :
  performed (unlock_if_locked fuel mmc_mailbox locked w) w.
Proof.
  unfold unlock_if_locked. destruct (negb locked); [reflexivity | ].
  apply performed_bind; [apply at24_regmap_write_performed | ].
  intros r w1. reflexivity.
Qed.

Lemma at24_read_loop_performed (fuel n : nat) (mmc_mailbox : at24_data)
  (buf off count : Z) (w : World) :
  performed (at24_read_loop fuel n mmc_mailbox buf off count w) w.
Proof.
  revert buf off count w.
  induction n as [|n IH]; intros buf off count w; cbn [at24_read_loop];
    destruct (count =? 0); try reflexivity.
  apply performed_bind; [apply at24_regmap_read_performed | ].
  intros r w1. destruct (s32 r <? 0); [reflexivity | apply IH].
Qed.

Lemma at24_write_loop_performed (fuel n : nat) (mmc_mailbox : at24_data)
  (val : list Z) (buf off count : Z) (w : World) :
  performed (at24_write_loop fuel n mmc_mailbox val buf off count w) w.
Proof.
  revert buf off count w.
  induction n as [|n IH]; intros buf off count w; cbn [at24_write_loop];
    destruct (count =? 0); try reflexivity.
  apply performed_bind; [apply at24_regmap_write_performed | ].
  intros r w1. destruct (s32 r <? 0); [reflexivity | apply IH].
Qed.

Lemma transaction_performed (fuel : nat) (mmc_mailbox : at24_data)
  (count : Z) (loop : M loop_exit) (w : World) :
  (forall w', performed (loop w') w') ->
  performed
    (bind mutex_lock (fun _ =>
     bind (lock_if_multiple fuel mmc_mailbox count) (fun locked =>
     bind loop (fun e =>
       match e with
       | LoopReturn r' => ret r'
       | LoopDone =>
           bind (unlock_if_locked fuel mmc_mailbox locked) (fun _ =>
           bind mutex_unlock (fun _ =>
           bind do_pm_runtime_put (fun _ => ret 0)))
       end))) w) w.
Proof.
  intros Hloop.
  apply performed_bind; [reflexivity | ]. intros [] w1.
  apply performed_bind; [apply lock_if_multiple_performed | ].
  intros locked w2.
  apply performed_bind; [apply Hloop | ]. intros [|r'] w3; [ | reflexivity].
  apply performed_bind; [apply unlock_if_locked_performed | ].
  intros [] w4. reflexivity.
Qed.

Lemma at24_read_performed (fuel : nat) (mmc_mailbox : at24_data)
  (off count : Z) (w : World) :
  performed (at24_read fuel mmc_mailbox off count w) w.
Proof.
  unfold at24_read. destruct (count =? 0); [reflexivity | ].
  destruct (u64 (off + count) >? byte_len mmc_mailbox); [reflexivity | ].
  apply performed_bind; [apply performed_pm_runtime_get_sync | ].
  intros r w1. destruct (r <? 0); [reflexivity | ].
  apply transaction_performed. intros w'. apply at24_read_loop_performed.
Qed.

Lemma at24_write_performed (fuel : nat) (mmc_mailbox : at24_data)
  (off : Z) (val : list Z) (count : Z) (w : World) :
  performed (at24_write fuel mmc_mailbox off val count w) w.
Proof.
  unfold at24_write. destruct (count =? 0); [reflexivity | ].
  destruct (u64 (off + count) >? byte_len mmc_mailbox); [reflexivity | ].
  apply performed_bind; [apply performed_pm_runtime_get_sync | ].
  intros r w1. destruct (r <? 0); [reflexivity | ].
  apply transaction_performed. intros w'. apply at24_write_loop_performed.
Qed.


(** What the code does on the error path of a locked transaction: one
    control write of [MB_LOCK_FLAG], then actions on the caller's buffer,
    and no control write of 0. *)
Lemma failed_transaction_keeps_page_locked (fuel : nat)
  (mmc_mailbox : at24_data) (off : Z) (val : list Z) (count : Z)
  (w : World) (r : Z) :
  fuel <> O ->
  0 < page_size mmc_mailbox < 65536 ->
  0 < write_max mmc_mailbox < 4294967296 ->
  u64 (off + count) <= byte_len mmc_mailbox ->
  0 <= fst (pm_runtime_get_sync w) ->
  1 < count ->
  r <> 0 ->
  (result_of (at24_read fuel mmc_mailbox off count w) = Done r ->
   ~ In lock_clear (trace_of (at24_read fuel mmc_mailbox off count w))) /\
  (result_of (at24_write fuel mmc_mailbox off val count w) = Done r ->
   ~ In lock_clear (trace_of (at24_write fuel mmc_mailbox off val count w))).
Proof.
  intros Hfuel Hps Hwm Hb Hpm Hc Hr.
  assert (Hno : forall tr set data,
            actions tr = set ++ data ->
            control_write MB_LOCK_FLAG set ->
            forallb on_callers_buffer data = true ->
            ~ In lock_clear tr).
  { intros tr set data Hacts (raws & -> & _ & Hraws & _) Hdata Hin.
    assert (Hin' : In lock_clear (actions tr)).
    { unfold actions. apply filter_In. split; [exact Hin | reflexivity]. }
    rewrite Hacts in Hin'. cbn [app] in Hin'.
    destruct Hin' as [Heq | Hin']; [discriminate | ].
    apply in_app_or in Hin'. destruct Hin' as [Hin' | Hin'].
    - rewrite forallb_forall in Hraws. specialize (Hraws _ Hin').
      discriminate.
    - rewrite forallb_forall in Hdata. specialize (Hdata _ Hin').
      discriminate. }
  split; intros Hres.
  - destruct (at24_read_bracket fuel mmc_mailbox off count w Hfuel Hps Hwm Hb
                Hpm) as [_ Herr].
    destruct (Herr Hc r Hres Hr) as (set & data & Hacts & Hset & Hdata).
    eapply Hno; eassumption.
  - destruct (at24_write_bracket fuel mmc_mailbox off val count w Hfuel Hps
                Hwm Hb Hpm) as [_ Herr].
    destruct (Herr Hc r Hres Hr) as (set & data & Hacts & Hset & Hdata).
    eapply Hno; eassumption.
Qed.

(** ** Data chunks stay inside the request *)

Lemma read_plan_bounds (mmc_mailbox : at24_data) (offset count : Z) :
  0 < mmc_mailbox_io_limit -> 0 < count ->
  0 < at24_adjust_read_count mmc_mailbox offset count <= count.
Proof.
  intros Hl Hc. unfold at24_adjust_read_count.
  destruct (count >? mmc_mailbox_io_limit) eqn:E; lia.
Qed.

Lemma at24_regmap_read_in_range (off0 count0 : Z) (fuel : nat)
  (mmc_mailbox : at24_data) (c off count : Z) (w : World) :
  0 < mmc_mailbox_io_limit ->
  off0 <= off -> 0 < count -> off + count = off0 + count0 ->
  c = off - off0 ->
  forallb (chunk_in_range off0 count0)
    (trace_of (at24_regmap_read fuel mmc_mailbox (Val c) off count w)) = true.
Proof.
  intros Hl H1 H2 H3 H4.
  pose proof (read_plan_bounds mmc_mailbox off count Hl H2) as Hp.
  destruct (at24_regmap_read_run fuel mmc_mailbox [] (Val c) off count w)
    as (tr & -> & Hrt).
  assert (Htr : forallb (chunk_in_range off0 count0) tr = true).
  { eapply retry_trace_forallb; [ | | | exact Hrt]; try reflexivity.
    intros e r. apply is_attempt_val_in_range; lia. }
  cbn [forallb chunk_in_range]. rewrite Htr.
  repeat (apply andb_true_intro; split); lia.
Qed.

Lemma at24_regmap_write_in_range (off0 count0 : Z) (fuel : nat)
  (mmc_mailbox : at24_data) (val : list Z) (c off count : Z) (w : World) :
  0 < page_size mmc_mailbox ->
  0 < write_max mmc_mailbox < 4294967296 ->
  0 <= off -> off + page_size mmc_mailbox < 4294967296 ->
  off0 <= off -> 0 < count -> off + count = off0 + count0 ->
  c = off - off0 ->
  forallb (chunk_in_range off0 count0)
    (trace_of (at24_regmap_write fuel mmc_mailbox val (Val c) off count w))
  = true.
Proof.
  intros Hps Hwm Hoff Hwrap H1 H2 H3 H4.
  destruct (adjust_write_count_plan mmc_mailbox off count Hoff Hwrap H2 Hps Hwm)
    as (L & HL & Hp1 & _ & Hp2 & _).
  destruct (at24_regmap_write_run fuel mmc_mailbox val (Val c) off count L w
              HL) as (tr & -> & Hrt).
  assert (Htr : forallb (chunk_in_range off0 count0) tr = true).
  { eapply retry_trace_forallb; [ | | | exact Hrt]; try reflexivity.
    intros e r. apply is_attempt_val_in_range; lia. }
  cbn [forallb chunk_in_range]. rewrite Htr.
  repeat (apply andb_true_intro; split); lia.
Qed.

Lemma at24_regmap_write_tmp_in_range (off0 count0 : Z) (fuel : nat)
  (mmc_mailbox : at24_data) (val : list Z) (v off count : Z) (w : World) :
  forallb (chunk_in_range off0 count0)
    (trace_of (at24_regmap_write fuel mmc_mailbox val (Tmp v) off count w))
  = true.
Proof.
  destruct (at24_adjust_write_count mmc_mailbox off count) as [L|] eqn:HL.
  - destruct (at24_regmap_write_run fuel mmc_mailbox val (Tmp v) off count L
                w HL) as (tr & -> & Hrt).
    cbn [forallb chunk_in_range andb].
    eapply retry_trace_forallb; [ | | | exact Hrt]; try reflexivity.
    intros e r. apply is_attempt_tmp_in_range.
  - rewrite at24_regmap_write_fault by exact HL. reflexivity.
Qed.

Lemma s32_timeout_negative : (s32 (- ETIMEDOUT) <? 0) = true.
Proof. reflexivity. Qed.

Lemma at24_read_loop_in_range (off0 count0 : Z) (fuel n : nat)
  (mmc_mailbox : at24_data) (buf off count : Z) (w : World) :
  0 < mmc_mailbox_io_limit ->
  0 <= off0 -> off0 <= off -> 0 <= count ->
  off + count = off0 + count0 ->
  off0 + count0 < 4294967296 ->
  buf = off - off0 ->
  forallb (chunk_in_range off0 count0)
    (trace_of (at24_read_loop fuel n mmc_mailbox buf off count w)) = true.
Proof.
  intros Hl H0. revert buf off count w.
  induction n as [|n IH]; intros buf off count w H1 H2 H3 H4 H5;
    cbn [at24_read_loop]; destruct (count =? 0) eqn:E0; try reflexivity.
  apply Z.eqb_neq in E0.
  rewrite trace_bind, forallb_app.
  rewrite at24_regmap_read_in_range by lia. cbn [andb].
  pose proof (read_plan_bounds mmc_mailbox off count Hl ltac:(lia)) as Hp.
  destruct (at24_regmap_read_run fuel mmc_mailbox [] (Val buf) off count w)
    as (tr & _ & Hrt).
  destruct (retry_trace_result _ _ _ _ _ _ Hrt) as [Ho | [Ho | Ho]];
    rewrite Ho.
  - reflexivity.
  - set (L := at24_adjust_read_count mmc_mailbox off count) in *.
    destruct (s32 L <? 0) eqn:Es; [reflexivity | ].
    rewrite (s32_nonneg_id L) by lia.
    rewrite (u32_small (off + L)), (u64_small (count - L)) by lia.
    apply IH; lia.
  - rewrite s32_timeout_negative. reflexivity.
Qed.

Lemma at24_write_loop_in_range (off0 count0 : Z) (fuel n : nat)
  (mmc_mailbox : at24_data) (val : list Z) (buf off count : Z) (w : World) :
  0 < page_size mmc_mailbox ->
  0 < write_max mmc_mailbox < 4294967296 ->
  0 <= off0 -> off0 <= off -> 0 <= count ->
  off + count = off0 + count0 ->
  off0 + count0 + page_size mmc_mailbox <= 4294967296 ->
  buf = off - off0 ->
  forallb (chunk_in_range off0 count0)
    (trace_of (at24_write_loop fuel n mmc_mailbox val buf off count w)) = true.
Proof.
  intros Hps Hwm H0. revert buf off count w.
  induction n as [|n IH]; intros buf off count w H1 H2 H3 H4 H5;
    cbn [at24_write_loop]; destruct (count =? 0) eqn:E0; try reflexivity.
  apply Z.eqb_neq in E0.
  rewrite trace_bind, forallb_app.
  rewrite at24_regmap_write_in_range by lia. cbn [andb].
  destruct (adjust_write_count_plan mmc_mailbox off count ltac:(lia)
              ltac:(lia) ltac:(lia) Hps Hwm) as (L & HL & Hp1 & _ & Hp2 & _).
  destruct (at24_regmap_write_run fuel mmc_mailbox val (Val buf) off count L w
              HL) as (tr & _ & Hrt).
  destruct (retry_trace_result _ _ _ _ _ _ Hrt) as [Ho | [Ho | Ho]];
    rewrite Ho.
  - reflexivity.
  - destruct (s32 L <? 0) eqn:Es; [reflexivity | ].
    rewrite (s32_nonneg_id L) by lia.
    rewrite (u32_small (off + L)), (u64_small (count - L)) by lia.
    apply IH; lia.
  - rewrite s32_timeout_negative. reflexivity.
Qed.

Lemma transaction_in_range (off0 count0 : Z) (fuel : nat)
  (mmc_mailbox : at24_data) (count : Z) (loop : M loop_exit) (w : World) :
  (forall w', forallb (chunk_in_range off0 count0) (trace_of (loop w')) = true)
  ->
  forallb (chunk_in_range off0 count0)
    (trace_of
       (bind mutex_lock (fun _ =>
        bind (lock_if_multiple fuel mmc_mailbox count) (fun locked =>
        bind loop (fun e =>
          match e with
          | LoopReturn r' => ret r'
          | LoopDone =>
              bind (unlock_if_locked fuel mmc_mailbox locked) (fun _ =>
              bind mutex_unlock (fun _ =>
              bind do_pm_runtime_put (fun _ => ret 0)))
          end))) w)) = true.
Proof.
  intros Hloop.
  assert (Hlock : forall w',
            forallb (chunk_in_range off0 count0)
              (trace_of (lock_if_multiple fuel mmc_mailbox count w')) = true).
  { intros w'. unfold lock_if_multiple. destruct (count <=? 1);
      [reflexivity | ].
    rewrite trace_bind, forallb_app, at24_regmap_write_tmp_in_range.
    destruct (result_of _); reflexivity. }
  assert (Hunlock : forall locked w',
            forallb (chunk_in_range off0 count0)
              (trace_of (unlock_if_locked fuel mmc_mailbox locked w')) = true).
  { intros locked w'. unfold unlock_if_locked. destruct (negb locked);
      [reflexivity | ].
    rewrite trace_bind, forallb_app, at24_regmap_write_tmp_in_range.
    destruct (result_of _); reflexivity. }
  rewrite trace_bind.
  cbn [mutex_lock emit result_of trace_of world_of fst snd app forallb
       chunk_in_range andb].
  rewrite trace_bind, forallb_app, Hlock. cbn [andb].
  destruct (result_of (lock_if_multiple fuel mmc_mailbox count w))
    as [locked| |]; [ | reflexivity | reflexivity].
  rewrite trace_bind, forallb_app, Hloop. cbn [andb].
  destruct (result_of (loop _)) as [[|r']| |]; try reflexivity.
  rewrite trace_bind, forallb_app, Hunlock. cbn [andb].
  destruct (result_of (unlock_if_locked _ _ _ _)); reflexivity.
Qed.

(** ** The chunk loops advance *)

Lemma advances_off_buffer_app (b o c : Z) (t1 t2 : list event) :
  forallb off_callers_buffer t1 = true ->
  advances b o c (t1 ++ t2) = advances b o c t2.
Proof.
  induction t1 as [|e t1 IH]; [reflexivity | ].
  cbn [forallb]. intros H. apply andb_prop in H. destruct H as [He Ht].
  destruct e as [ | | | | |d [v|c'] o' n| |reg [v|c'] n data r
                 |reg [v|c'] n data r| | | | | ];
    cbn [app advances]; try (apply IH; exact Ht); discriminate He.
Qed.

Lemma advances_off_buffer (b o c : Z) (t : list event) :
  forallb off_callers_buffer t = true -> advances b o c t = true.
Proof.
  intros H. rewrite <- (app_nil_r t).
  rewrite advances_off_buffer_app by exact H. reflexivity.
Qed.

Lemma retry_trace_advances (d : direction) (val : list Z) (reg c' L : Z)
  (deadline : Z) (n : nat) (tr : list event) (o : outcome Z) :
  retry_trace (is_attempt d val reg (Val c') L) deadline L n tr o ->
  forall b o' c rest,
    (o = Done L /\
     advances b o' c (tr ++ rest) = advances (b + L) (o' + L) (c - L) rest) \/
    ((o = OutOfFuel \/ o = Done (- ETIMEDOUT)) /\
     advances b o' c (tr ++ rest) = advances b o' c rest).
Proof.
  assert (Hstep : forall t e r b o' c rest,
            is_attempt d val reg (Val c') L e r ->
            advances b o' c (EvJiffies t :: e :: rest) =
            if r =? 0 then advances (b + L) (o' + L) (c - L) rest
            else advances b o' c rest).
  { intros t e r b o' c rest He.
    destruct d; cbn in He; [destruct He as [data ->] | subst e];
      reflexivity. }
  induction 1 as [ |n t e He|n t e r tr o He Hr Ht Hrt IH|n t e r He Hr Ht];
    intros b o' c rest; cbn [app].
  - right. split; [left; reflexivity | reflexivity].
  - left. split; [reflexivity | ]. rewrite (Hstep t e 0) by exact He.
    reflexivity.
  - rewrite (Hstep t e r) by exact He. replace (r =? 0) with false by lia.
    change (advances b o' c (EvUsleepRange 1000 1500 :: tr ++ rest))
      with (advances b o' c (tr ++ rest)).
    apply IH.
  - right. split; [right; reflexivity | ].
    rewrite (Hstep t e r) by exact He. replace (r =? 0) with false by lia.
    reflexivity.
Qed.

Lemma at24_regmap_write_tmp_off_buffer (fuel : nat) (mmc_mailbox : at24_data)
  (val : list Z) (v off count : Z) (w : World) :
  forallb off_callers_buffer
    (trace_of (at24_regmap_write fuel mmc_mailbox val (Tmp v) off count w))
  = true.
Proof.
  destruct (at24_adjust_write_count mmc_mailbox off count) as [L|] eqn:HL.
  - destruct (at24_regmap_write_run fuel mmc_mailbox val (Tmp v) off count L
                w HL) as (tr & -> & Hrt).
    cbn [forallb off_callers_buffer on_callers_buffer negb andb].
    eapply retry_trace_forallb; [ | | | exact Hrt]; try reflexivity.
    intros e r ->. reflexivity.
  - rewrite at24_regmap_write_fault by exact HL. reflexivity.
Qed.

Lemma at24_read_loop_advances (fuel n : nat) (mmc_mailbox : at24_data)
  (buf off count : Z) (w : World) (rest : list event) :
  0 < mmc_mailbox_io_limit ->
  0 <= off -> 0 <= count -> off + count < 4294967296 ->
  forallb off_callers_buffer rest = true ->
  advances buf off count
    (trace_of (at24_read_loop fuel n mmc_mailbox buf off count w) ++ rest)
  = true.
Proof.
  intros Hl. revert buf off count w.
  induction n as [|n IH]; intros buf off count w H1 H2 H3 Hrest;
    cbn [at24_read_loop]; destruct (count =? 0) eqn:E0;
    try (apply advances_off_buffer; exact Hrest).
  apply Z.eqb_neq in E0.
  pose proof (read_plan_bounds mmc_mailbox off count Hl ltac:(lia)) as Hp.
  rewrite trace_bind, <- app_assoc.
  destruct (at24_regmap_read_run fuel mmc_mailbox [] (Val buf) off count w)
    as (tr & Htr & Hrt).
  rewrite Htr. cbn [app advances]. rewrite !Z.eqb_refl. cbn [andb].
  set (L := at24_adjust_read_count mmc_mailbox off count) in *.
  match goal with
  | |- advances _ _ _ (tr ++ ?k) = true =>
      destruct (retry_trace_advances _ _ _ _ _ _ _ _ _ Hrt buf off count k)
        as [[Ho ->] | [[Ho | Ho] ->]]
  end; rewrite Ho.
  - destruct (s32 L <? 0) eqn:Es.
    + apply advances_off_buffer. exact Hrest.
    + rewrite (s32_nonneg_id L) by lia.
      rewrite (u32_small (off + L)), (u64_small (count - L)) by lia.
      apply IH; try lia. exact Hrest.
  - apply advances_off_buffer. exact Hrest.
  - rewrite s32_timeout_negative. apply advances_off_buffer. exact Hrest.
Qed.

Lemma at24_write_loop_advances (fuel n : nat) (mmc_mailbox : at24_data)
  (val : list Z) (buf off count : Z) (w : World) (rest : list event) :
  0 < page_size mmc_mailbox ->
  0 < write_max mmc_mailbox < 4294967296 ->
  0 <= off -> 0 <= count ->
  off + count + page_size mmc_mailbox <= 4294967296 ->
  forallb off_callers_buffer rest = true ->
  advances buf off count
    (trace_of (at24_write_loop fuel n mmc_mailbox val buf off count w) ++ rest)
  = true.
Proof.
  intros Hps Hwm. revert buf off count w.
  induction n as [|n IH]; intros buf off count w H1 H2 H3 Hrest;
    cbn [at24_write_loop]; destruct (count =? 0) eqn:E0;
    try (apply advances_off_buffer; exact Hrest).
  apply Z.eqb_neq in E0.
  destruct (adjust_write_count_plan mmc_mailbox off count ltac:(lia)
              ltac:(lia) ltac:(lia) Hps Hwm) as (L & HL & Hp1 & _ & Hp2 & _).
  rewrite trace_bind, <- app_assoc.
  destruct (at24_regmap_write_run fuel mmc_mailbox val (Val buf) off count L w
              HL) as (tr & Htr & Hrt).
  rewrite Htr. cbn [app advances]. rewrite !Z.eqb_refl. cbn [andb].
  match goal with
  | |- advances _ _ _ (tr ++ ?k) = true =>
      destruct (retry_trace_advances _ _ _ _ _ _ _ _ _ Hrt buf off count k)
        as [[Ho ->] | [[Ho | Ho] ->]]
  end; rewrite Ho.
  - destruct (s32 L <? 0) eqn:Es.
    + apply advances_off_buffer. exact Hrest.
    + rewrite (s32_nonneg_id L) by lia.
      rewrite (u32_small (off + L)), (u64_small (count - L)) by lia.
      apply IH; try lia. exact Hrest.
  - apply advances_off_buffer. exact Hrest.
  - rewrite s32_timeout_negative. apply advances_off_buffer. exact Hrest.
Qed.

Lemma transaction_advances (off0 count0 : Z) (fuel : nat)
  (mmc_mailbox : at24_data) (count : Z) (loop : M loop_exit) (w : World) :
  (forall w' rest,
     forallb off_callers_buffer rest = true ->
     advances 0 off0 count0 (trace_of (loop w') ++ rest) = true) ->
  advances 0 off0 count0
    (trace_of
       (bind mutex_lock (fun _ =>
        bind (lock_if_multiple fuel mmc_mailbox count) (fun locked =>
        bind loop (fun e =>
          match e with
          | LoopReturn r' => ret r'
          | LoopDone =>
              bind (unlock_if_locked fuel mmc_mailbox locked) (fun _ =>
              bind mutex_unlock (fun _ =>
              bind do_pm_runtime_put (fun _ => ret 0)))
          end))) w)) = true.
Proof.
  intros Hloop.
  assert (Hlock : forall w',
            forallb off_callers_buffer
              (trace_of (lock_if_multiple fuel mmc_mailbox count w')) = true).
  { intros w'. unfold lock_if_multiple. destruct (count <=? 1);
      [reflexivity | ].
    rewrite trace_bind, forallb_app, at24_regmap_write_tmp_off_buffer.
    destruct (result_of _); reflexivity. }
  assert (Hunlock : forall locked w',
            forallb off_callers_buffer
              (trace_of (unlock_if_locked fuel mmc_mailbox locked w')) = true).
  { intros locked w'. unfold unlock_if_locked. destruct (negb locked);
      [reflexivity | ].
    rewrite trace_bind, forallb_app, at24_regmap_write_tmp_off_buffer.
    destruct (result_of _); reflexivity. }
  rewrite trace_bind.
  cbn [mutex_lock emit result_of trace_of world_of fst snd app advances].
  rewrite trace_bind, advances_off_buffer_app by apply Hlock.
  destruct (result_of (lock_if_multiple fuel mmc_mailbox count w))
    as [locked| |]; try reflexivity.
  rewrite trace_bind. apply Hloop.
  destruct (result_of (loop _)) as [[|r']| |]; try reflexivity.
  rewrite trace_bind, forallb_app, Hunlock. cbn [andb].
  destruct (result_of (unlock_if_locked _ _ _ _)); reflexivity.
Qed.

(** C9, as amended.  For an instance with [page_size > 0],
    [write_max > 0] and a non-zero I/O limit, and a request with
    [off + count <= byte_len]: the chunk loop starts with buffer position
    0, offset [off] and remaining count [count]; every call of a transfer
    routine on the caller's buffer is made with the current three; and
    every successful raw transfer of [n] bytes moves the buffer position
    and the offset forward by [n] and takes [n] off the remaining count
    ([advances]).  So at every such call the offset plus the remaining
    count equals [off + count] and the buffer position equals the distance
    of the offset from [off], and every raw transfer on the caller's
    buffer is non-empty and lies inside [off, off + count)
    ([chunk_in_range]).  The events are what happened on the kernel.  For
    [at24_read] this holds as it stands, for [at24_write] when
    [byte_len + page_size <= 2^32].  It holds for every prefix of a run,
    finished or not. *)
Theorem chunks_stay_in_validated_range (fuel : nat)
  (mmc_mailbox : at24_data) (off : Z) (val : list Z) (count : Z)
  (w : World) :
  0 < mmc_mailbox_io_limit ->
  0 < page_size mmc_mailbox ->
  0 < write_max mmc_mailbox < 4294967296 ->
  byte_len mmc_mailbox < 4294967296 ->
  0 <= off ->
  0 <= count ->
  off + count <= byte_len mmc_mailbox ->
  let rd := at24_read fuel mmc_mailbox off count w in
  let wr := at24_write fuel mmc_mailbox off val count w in
  (advances 0 off count (trace_of rd) = true /\
   forallb (chunk_in_range off count) (trace_of rd) = true /\
   performed rd w) /\
  (byte_len mmc_mailbox + page_size mmc_mailbox <= 4294967296 ->
   advances 0 off count (trace_of wr) = true /\
   forallb (chunk_in_range off count) (trace_of wr) = true /\
   performed wr w).
Proof.
  intros Hl Hps Hwm Hlen Hoff Hcount Hreq rd wr. subst rd wr. split.
  - split; [ | split; [ | apply at24_read_performed]].
    + unfold at24_read. destruct (count =? 0); [reflexivity | ].
      destruct (u64 (off + count) >? byte_len mmc_mailbox); [reflexivity | ].
      rewrite trace_bind. unfold do_pm_runtime_get_sync.
      destruct (pm_runtime_get_sync w) as [r w1].
      cbn [result_of trace_of world_of fst snd app advances].
      destruct (r <? 0); [reflexivity | ].
      apply transaction_advances. intros w' rest Hrest.
      apply at24_read_loop_advances; try lia. exact Hrest.
    + unfold at24_read. destruct (count =? 0); [reflexivity | ].
      destruct (u64 (off + count) >? byte_len mmc_mailbox); [reflexivity | ].
      rewrite trace_bind, forallb_app. unfold do_pm_runtime_get_sync.
      destruct (pm_runtime_get_sync w) as [r w1].
      cbn [result_of trace_of world_of fst snd forallb chunk_in_range andb].
      destruct (r <? 0); [reflexivity | ].
      apply transaction_in_range. intros w'.
      apply at24_read_loop_in_range; lia.
  - intros Hpage.
    split; [ | split; [ | apply at24_write_performed]].
    + unfold at24_write. destruct (count =? 0); [reflexivity | ].
      destruct (u64 (off + count) >? byte_len mmc_mailbox); [reflexivity | ].
      rewrite trace_bind. unfold do_pm_runtime_get_sync.
      destruct (pm_runtime_get_sync w) as [r w1].
      cbn [result_of trace_of world_of fst snd app advances].
      destruct (r <? 0); [reflexivity | ].
      apply transaction_advances. intros w' rest Hrest.
      apply at24_write_loop_advances; try lia. exact Hrest.
    + unfold at24_write. destruct (count =? 0); [reflexivity | ].
      destruct (u64 (off + count) >? byte_len mmc_mailbox); [reflexivity | ].
      rewrite trace_bind, forallb_app. unfold do_pm_runtime_get_sync.
      destruct (pm_runtime_get_sync w) as [r w1].
      cbn [result_of trace_of world_of fst snd forallb chunk_in_range andb].
      destruct (r <? 0); [reflexivity | ].
      apply transaction_in_range. intros w'.
      apply at24_write_loop_in_range; lia.
Qed.

(** C8, as amended.  With a registered instance the power-off handshake
    makes exactly one raw write of [MB_FPGA_STATUS_SHDN_FINISHED] to
    [MB_FPGA_STATUS_OFFS], outside the retrying routine (no deadline, no
    sample, no sleep) and whatever its result, then delays for 1000 ms,
    then raises the warning of [WARN_ON(1)] and returns to its caller. *)
Theorem poweroff_handshake_trace (inst : at24_data) (w : World) :
  let x := mmc_mailbox_do_poweroff (Some inst) w in
  result_of x = Done tt /\
  exists r,
    trace_of x =
      [EvDevInfo;
       EvBulkWrite MB_FPGA_STATUS_OFFS (Tmp MB_FPGA_STATUS_SHDN_FINISHED) 1
         [MB_FPGA_STATUS_SHDN_FINISHED] r;
       EvMdelay 1000;
       EvWarnOn].
Proof.
  unfold mmc_mailbox_do_poweroff, bind, emit, bulk_write, do_mdelay.
  change (load [] (Tmp MB_FPGA_STATUS_SHDN_FINISHED) 1)
    with [MB_FPGA_STATUS_SHDN_FINISHED].
  destruct (regmap_bulk_write MB_FPGA_STATUS_OFFS
              [MB_FPGA_STATUS_SHDN_FINISHED] 1 w) as [r w1].
  cbn. split; [reflexivity | ]. exists r. reflexivity.
Qed.

(** ** Enough fuel: the driver returns when the clock advances *)

Section Liveness.

(** An unbounded count of timer ticks behind the wrapping tick counter.
    One attempt together with its backoff sleep takes at least one tick
    and fewer than 2^62 ticks, and the timeout is below 2^62 ticks. *)
Variable ticks : World -> Z.

Hypothesis jiffies_ticks : forall w, jiffies w = u64 (ticks w).

Hypothesis read_attempt_ticks : forall reg n w,
  0 < ticks (usleep_range 1000 1500 (snd (regmap_bulk_read reg n w)))
      - ticks w < 4611686018427387904.

Hypothesis write_attempt_ticks : forall reg data n w,
  0 < ticks (usleep_range 1000 1500 (snd (regmap_bulk_write reg data n w)))
      - ticks w < 4611686018427387904.

Hypothesis timeout_ticks :
  0 <= msecs_to_jiffies at24_write_timeout < 4611686018427387904.

Lemma u64_plus_l (a b : Z) : u64 (u64 a + b) = u64 (a + b).
Proof. unfold u64. Z.div_mod_to_equations. lia. Qed.

Lemma time_before_ticks (a b : Z) :
  -9223372036854775808 <= a - b < 9223372036854775808 ->
  time_before (u64 a) (u64 b) = (a <? b).
Proof.
  intros H. unfold time_before, s64, u64.
  destruct (a <? b) eqn:E;
    [apply Z.ltb_lt in E; apply Z.ltb_lt
    | apply Z.ltb_ge in E; apply Z.ltb_ge];
    Z.div_mod_to_equations; lia.
Qed.

Lemma returns_done {A : Type} (a : A) : returns (Done a).
Proof. exists a. reflexivity. Qed.

Lemma at24_regmap_read_loop_terminates (fuel : nat) (D : Z) (buf : bufptr)
  (offset count : Z) (w : World) :
  -4611686018427387904 <= ticks w - D < 4611686018427387904 ->
  0 < Z.of_nat fuel ->
  D - ticks w < Z.of_nat fuel ->
  returns (result_of (at24_regmap_read_loop fuel (u64 D) buf offset count w)).
Proof.
  revert w. induction fuel as [|fuel IH]; intros w Hr H1 H2; [lia | ].
  cbn [at24_regmap_read_loop].
  unfold bind, read_jiffies, bulk_read, do_usleep_range, ret.
  pose proof (read_attempt_ticks offset count w) as Ht.
  destruct (regmap_bulk_read offset count w) as [[r data] w1].
  cbn [snd] in Ht.
  destruct (r =? 0); [apply returns_done | ].
  rewrite jiffies_ticks, time_before_ticks by lia.
  destruct (ticks w <? D) eqn:E; [ | apply returns_done].
  apply Z.ltb_lt in E.
  specialize (IH (usleep_range 1000 1500 w1)).
  destruct (at24_regmap_read_loop fuel (u64 D) buf offset count
              (usleep_range 1000 1500 w1)) as [[o w2] t2].
  cbn in *. apply IH; lia.
Qed.

Lemma at24_regmap_write_loop_terminates (fuel : nat) (D : Z)
  (val : list Z) (buf : bufptr) (offset count : Z) (w : World) :
  -4611686018427387904 <= ticks w - D < 4611686018427387904 ->
  0 < Z.of_nat fuel ->
  D - ticks w < Z.of_nat fuel ->
  returns
    (result_of (at24_regmap_write_loop fuel (u64 D) val buf offset count w)).
Proof.
  revert w. induction fuel as [|fuel IH]; intros w Hr H1 H2; [lia | ].
  cbn [at24_regmap_write_loop].
  unfold bind, read_jiffies, bulk_write, do_usleep_range, ret.
  pose proof (write_attempt_ticks offset (load val buf count) count w) as Ht.
  destruct (regmap_bulk_write offset (load val buf count) count w) as [r w1].
  cbn [snd] in Ht.
  destruct (r =? 0); [apply returns_done | ].
  rewrite jiffies_ticks, time_before_ticks by lia.
  destruct (ticks w <? D) eqn:E; [ | apply returns_done].
  apply Z.ltb_lt in E.
  specialize (IH (usleep_range 1000 1500 w1)).
  destruct (at24_regmap_write_loop fuel (u64 D) val buf offset count
              (usleep_range 1000 1500 w1)) as [[o w2] t2].
  cbn in *. apply IH; lia.
Qed.

Lemma at24_regmap_read_terminates (fuel : nat) (mmc_mailbox : at24_data)
  (buf : bufptr) (offset count : Z) (w : World) :
  msecs_to_jiffies at24_write_timeout < Z.of_nat fuel ->
  returns (result_of (at24_regmap_read fuel mmc_mailbox buf offset count w)).
Proof.
  intros Hf.
  assert (H : returns (result_of
                (at24_regmap_read_loop fuel
                   (u64 (ticks w + msecs_to_jiffies at24_write_timeout))
                   buf offset
                   (at24_adjust_read_count mmc_mailbox offset count) w))).
  { pose proof timeout_ticks as Ht.
    apply at24_regmap_read_loop_terminates; lia. }
  unfold at24_regmap_read, bind, emit, read_jiffies.
  rewrite jiffies_ticks, u64_plus_l.
  destruct (at24_regmap_read_loop fuel _ buf offset _ w) as [[o w2] t2].
  exact H.
Qed.

Lemma at24_regmap_write_terminates (fuel : nat) (mmc_mailbox : at24_data)
  (val : list Z) (buf : bufptr) (offset count : Z) (w : World) :
  msecs_to_jiffies at24_write_timeout < Z.of_nat fuel ->
  page_size mmc_mailbox <> 0 ->
  returns
    (result_of (at24_regmap_write fuel mmc_mailbox val buf offset count w)).
Proof.
  intros Hf Hps.
  destruct (proj2 (at24_adjust_write_count_defined mmc_mailbox offset count)
              Hps) as [L HL].
  assert (H : returns (result_of
                (at24_regmap_write_loop fuel
                   (u64 (ticks w + msecs_to_jiffies at24_write_timeout))
                   val buf offset L w))).
  { pose proof timeout_ticks as Ht.
    apply at24_regmap_write_loop_terminates; lia. }
  unfold at24_regmap_write. rewrite HL. unfold bind, emit, read_jiffies.
  rewrite jiffies_ticks, u64_plus_l.
  destruct (at24_regmap_write_loop fuel _ val buf offset _ w) as [[o w2] t2].
  exact H.
Qed.

Lemma at24_read_loop_terminates (fuel n : nat) (mmc_mailbox : at24_data)
  (buf off count : Z) (w : World) :
  msecs_to_jiffies at24_write_timeout < Z.of_nat fuel ->
  0 < mmc_mailbox_io_limit ->
  0 <= off -> 0 <= count -> off + count < 4294967296 ->
  count <= Z.of_nat n ->
  returns (result_of (at24_read_loop fuel n mmc_mailbox buf off count w)).
Proof.
  intros Hf Hl. revert buf off count w.
  induction n as [|n IH]; intros buf off count w H1 H2 H3 H4;
    cbn [at24_read_loop]; destruct (count =? 0) eqn:E0;
    try apply returns_done; apply Z.eqb_neq in E0; [lia | ].
  rewrite result_bind.
  pose proof (at24_regmap_read_terminates fuel mmc_mailbox (Val buf) off
                count w Hf) as [x Hterm].
  pose proof (read_plan_bounds mmc_mailbox off count Hl ltac:(lia)) as Hp.
  destruct (at24_regmap_read_run fuel mmc_mailbox [] (Val buf) off count w)
    as (tr & _ & Hrt).
  destruct (retry_trace_result _ _ _ _ _ _ Hrt) as [Ho | [Ho | Ho]];
    rewrite Ho in *.
  - discriminate.
  - set (L := at24_adjust_read_count mmc_mailbox off count) in *.
    destruct (s32 L <? 0) eqn:Es; [apply returns_done | ].
    rewrite (s32_nonneg_id L) by lia.
    rewrite (u32_small (off + L)), (u64_small (count - L)) by lia.
    apply IH; lia.
  - rewrite s32_timeout_negative. apply returns_done.
Qed.

Lemma at24_write_loop_terminates (fuel n : nat) (mmc_mailbox : at24_data)
  (val : list Z) (buf off count : Z) (w : World) :
  msecs_to_jiffies at24_write_timeout < Z.of_nat fuel ->
  0 < page_size mmc_mailbox ->
  0 < write_max mmc_mailbox < 4294967296 ->
  0 <= off -> 0 <= count ->
  off + count + page_size mmc_mailbox <= 4294967296 ->
  count <= Z.of_nat n ->
  returns
    (result_of (at24_write_loop fuel n mmc_mailbox val buf off count w)).
Proof.
  intros Hf Hps Hwm. revert buf off count w.
  induction n as [|n IH]; intros buf off count w H1 H2 H3 H4;
    cbn [at24_write_loop]; destruct (count =? 0) eqn:E0;
    try apply returns_done; apply Z.eqb_neq in E0; [lia | ].
  rewrite result_bind.
  assert (Hps' : page_size mmc_mailbox <> 0) by lia.
  pose proof (at24_regmap_write_terminates fuel mmc_mailbox val (Val buf) off
                count w Hf Hps') as [x Hterm].
  destruct (adjust_write_count_plan mmc_mailbox off count ltac:(lia)
              ltac:(lia) ltac:(lia) Hps Hwm) as (L & HL & Hp1 & _ & Hp2 & _).
  destruct (at24_regmap_write_run fuel mmc_mailbox val (Val buf) off count L w
              HL) as (tr & _ & Hrt).
  destruct (retry_trace_result _ _ _ _ _ _ Hrt) as [Ho | [Ho | Ho]];
    rewrite Ho in *.
  - discriminate.
  - destruct (s32 L <? 0) eqn:Es; [apply returns_done | ].
    rewrite (s32_nonneg_id L) by lia.
    rewrite (u32_small (off + L)), (u64_small (count - L)) by lia.
    apply IH; lia.
  - rewrite s32_timeout_negative. apply returns_done.
Qed.

Lemma transaction_terminates (fuel : nat) (mmc_mailbox : at24_data)
  (count : Z) (loop : M loop_exit) (w : World) :
  msecs_to_jiffies at24_write_timeout < Z.of_nat fuel ->
  page_size mmc_mailbox <> 0 ->
  (forall w', returns (result_of (loop w'))) ->
  returns (result_of
    (bind mutex_lock (fun _ =>
     bind (lock_if_multiple fuel mmc_mailbox count) (fun locked =>
     bind loop (fun e =>
       match e with
       | LoopReturn r' => ret r'
       | LoopDone =>
           bind (unlock_if_locked fuel mmc_mailbox locked) (fun _ =>
           bind mutex_unlock (fun _ =>
           bind do_pm_runtime_put (fun _ => ret 0)))
       end))) w)).
Proof.
  intros Hf Hps Hloop.
  rewrite result_bind.
  cbn [mutex_lock emit result_of trace_of world_of fst snd].
  rewrite result_bind.
  assert (Hlock : returns (result_of (lock_if_multiple fuel mmc_mailbox count
                                        w))).
  { unfold lock_if_multiple. destruct (count <=? 1); [apply returns_done | ].
    rewrite result_bind.
    destruct (at24_regmap_write_terminates fuel mmc_mailbox []
                (Tmp MB_LOCK_FLAG) MB_LOCK_OFFS 1 w Hf Hps) as [x ->].
    apply returns_done. }
  destruct Hlock as [locked ->].
  rewrite result_bind.
  destruct (Hloop (world_of (lock_if_multiple fuel mmc_mailbox count w)))
    as [[|r'] ->]; [ | apply returns_done].
  rewrite result_bind.
  assert (Hunlock : forall w',
            returns (result_of (unlock_if_locked fuel mmc_mailbox locked w'))).
  { intros w'. unfold unlock_if_locked.
    destruct (negb locked); [apply returns_done | ].
    rewrite result_bind.
    destruct (at24_regmap_write_terminates fuel mmc_mailbox []
                (Tmp 0) MB_LOCK_OFFS 1 w' Hf Hps) as [x ->].
    apply returns_done. }
  destruct (Hunlock (world_of (loop (world_of
              (lock_if_multiple fuel mmc_mailbox count w))))) as [[] ->].
  apply returns_done.
Qed.

(** With fuel beyond the timeout in ticks and beyond the byte count, both
    entry points return on every request: the fuel of the embedding only
    runs out where the clock would stand still. *)
Lemma entry_points_return (fuel : nat) (mmc_mailbox : at24_data)
  (off : Z) (val : list Z) (count : Z) (w : World) :
  msecs_to_jiffies at24_write_timeout < Z.of_nat fuel ->
  count <= Z.of_nat fuel ->
  0 < mmc_mailbox_io_limit ->
  0 < page_size mmc_mailbox ->
  0 < write_max mmc_mailbox < 4294967296 ->
  byte_len mmc_mailbox + page_size mmc_mailbox <= 4294967296 ->
  0 <= off -> 0 <= count ->
  off + count < 18446744073709551616 ->
  returns (result_of (at24_read fuel mmc_mailbox off count w)) /\
  returns (result_of (at24_write fuel mmc_mailbox off val count w)).
Proof.
  intros Hf Hn Hl Hps Hwm Hlen Hoff Hcount Hsum.
  assert (Hps' : page_size mmc_mailbox <> 0) by lia.
  assert (Hu : u64 (off + count) = off + count) by (apply u64_small; lia).
  split.
  - unfold at24_read. destruct (count =? 0); [apply returns_done | ].
    destruct (u64 (off + count) >? byte_len mmc_mailbox) eqn:Eb;
      [apply returns_done | ].
    rewrite result_bind. unfold do_pm_runtime_get_sync.
    destruct (pm_runtime_get_sync w) as [r w1].
    cbn [result_of trace_of world_of fst snd].
    destruct (r <? 0); [apply returns_done | ].
    apply transaction_terminates; [exact Hf | exact Hps' | ]. intros w'.
    apply at24_read_loop_terminates; lia.
  - unfold at24_write. destruct (count =? 0); [apply returns_done | ].
    destruct (u64 (off + count) >? byte_len mmc_mailbox) eqn:Eb;
      [apply returns_done | ].
    rewrite result_bind. unfold do_pm_runtime_get_sync.
    destruct (pm_runtime_get_sync w) as [r w1].
    cbn [result_of trace_of world_of fst snd].
    destruct (r <? 0); [apply returns_done | ].
    apply transaction_terminates; [exact Hf | exact Hps' | ]. intros w'.
    apply at24_write_loop_terminates; lia.
Qed.

End Liveness.

End Proofs.

(** * Runs on the simulated bus *)

(** C1.  On the simulated bus where the lock-set write succeeds and every
    later transfer fails, [at24_read] and [at24_write] of two bytes return
    [-ETIMEDOUT] after releasing the mutex and the runtime-PM reference,
    but the only calls of the transfer routines are the lock-set write and
    the failed data chunk: no lock-clear write is made, so the page-lock
    flag stays set. *)
Theorem failed_transfer_leaves_page_lock_set :
  let rd := Sim.read 40 Sim.mailbox 0 2 Sim.failing_after_one in
  let wr := Sim.write 40 Sim.mailbox 0 [7; 8] 2 Sim.failing_after_one in
  result_of rd = Done (- ETIMEDOUT) /\
  calls (trace_of rd) = [lock_set; EvCall Read (Val 0) 0 2] /\
  firstn 2 (rev (trace_of rd)) = [EvPmPut; EvMutexUnlock] /\
  result_of wr = Done (- ETIMEDOUT) /\
  calls (trace_of wr) = [lock_set; EvCall Write (Val 0) 0 2] /\
  firstn 2 (rev (trace_of wr)) = [EvPmPut; EvMutexUnlock].
Proof. vm_compute. repeat split. Qed.


(** C4, as stated, fails in two ways: a read of zero bytes at an offset
    beyond the region succeeds, and a count so large that the [size_t] sum
    wraps passes the bounds check and reaches the bus. *)
Lemma out_of_range_not_always_rejected :
  (byte_len Sim.mailbox < 4000 + 0 /\
   Sim.read 5 Sim.mailbox 4000 0 Sim.healthy = (Done 0, Sim.healthy, [])) /\
  (byte_len Sim.mailbox < 1 + 18446744073709551615 /\
   result_of (Sim.read 1 Sim.mailbox 1 18446744073709551615 Sim.healthy)
     <> Done (- EINVAL) /\
   transport_calls
     (trace_of (Sim.read 1 Sim.mailbox 1 18446744073709551615 Sim.healthy))
     <> []).
Proof.
  split; split.
  - simpl; lia.
  - reflexivity.
  - simpl; lia.
  - split; vm_compute; intros H; discriminate H.
Qed.

Lemma out_of_range_rejected_witness :
  0 <= 4000 /\ 0 < 2 /\ 4000 + 2 < 18446744073709551616 /\
  byte_len Sim.mailbox < 4000 + 2 /\
  Sim.read 5 Sim.mailbox 4000 2 Sim.healthy
    = (Done (- EINVAL), Sim.healthy, []) /\
  Sim.write 5 Sim.mailbox 4000 [7; 8] 2 Sim.healthy
    = (Done (- EINVAL), Sim.healthy, []).
Proof.
  split; [lia | split; [lia | split; [lia | split; [simpl; lia | ]]]].
  apply (@out_of_range_rejected Sim.sim Sim.kernel Sim.params 5 Sim.mailbox
           4000 [7; 8] 2 Sim.healthy); simpl; lia.
Defined.

Lemma retrying_transfer_discipline_witness :
  0 <= 3 /\
  0 <= @mmc_mailbox_io_limit Sim.params /\
  0 <= write_max Sim.mailbox /\
  0 < page_size Sim.mailbox /\
  (follows_retry_discipline Read [7; 8; 9] (Val 0) 10 3
     (@at24_adjust_read_count Sim.params Sim.mailbox 10 3)
     (@jiffies Sim.sim Sim.kernel Sim.flaky)
     (u64 (@jiffies Sim.sim Sim.kernel Sim.flaky
           + @msecs_to_jiffies Sim.sim Sim.kernel
               (@at24_write_timeout Sim.params)))
     5
     (result_of (Sim.regmap_read 5 Sim.mailbox (Val 0) 10 3 Sim.flaky))
     (trace_of (Sim.regmap_read 5 Sim.mailbox (Val 0) 10 3 Sim.flaky)) /\
   @performed Sim.sim Sim.kernel Z
     (Sim.regmap_read 5 Sim.mailbox (Val 0) 10 3 Sim.flaky) Sim.flaky) /\
  exists planned,
    at24_adjust_write_count Sim.mailbox 10 3 = Some planned /\
    follows_retry_discipline Write [7; 8; 9] (Val 0) 10 3 planned
      (@jiffies Sim.sim Sim.kernel Sim.flaky)
      (u64 (@jiffies Sim.sim Sim.kernel Sim.flaky
            + @msecs_to_jiffies Sim.sim Sim.kernel
                (@at24_write_timeout Sim.params)))
      5
      (result_of (Sim.regmap_write 5 Sim.mailbox [7; 8; 9] (Val 0) 10 3
                    Sim.flaky))
      (trace_of (Sim.regmap_write 5 Sim.mailbox [7; 8; 9] (Val 0) 10 3
                   Sim.flaky)) /\
    @performed Sim.sim Sim.kernel Z
      (Sim.regmap_write 5 Sim.mailbox [7; 8; 9] (Val 0) 10 3 Sim.flaky)
      Sim.flaky.
Proof.
  assert (H1 : 0 <= 3) by lia.
  assert (H2 : 0 <= @mmc_mailbox_io_limit Sim.params) by (simpl; lia).
  assert (H3 : 0 <= write_max Sim.mailbox) by (simpl; lia).
  assert (H4 : 0 < page_size Sim.mailbox) by (simpl; lia).
  split; [exact H1 | split; [exact H2 | split; [exact H3 | ]]].
  split; [exact H4 | ].
  destruct (@retrying_transfer_discipline Sim.sim Sim.kernel Sim.params 5
              Sim.mailbox [7; 8; 9] (Val 0) 10 3 Sim.flaky H1 H2 H3)
    as [Hrd Hwr].
  split; [exact Hrd | exact (Hwr H4)].
Defined.

(** C9, as stated, fails for an instance whose size reaches into the last
    page of the 32-bit offset space: the request for 2 bytes at offset
    [2^32 - 16] passes the bounds check and is sent as a transfer of 16
    bytes. *)
Lemma wide_instance_chunk_leaves_request :
  4294967280 + 2 <= byte_len Sim.wide /\
  result_of (Sim.write 0 Sim.wide 4294967280 [1; 2] 2 Sim.healthy)
    <> Done (- EINVAL) /\
  In (EvBulkWrite 4294967280 (Val 0) 16 [1; 2] 0)
    (trace_of (Sim.write 1 Sim.wide 4294967280 [1; 2] 2 Sim.healthy)) /\
  forallb (chunk_in_range 4294967280 2)
    (trace_of (Sim.write 1 Sim.wide 4294967280 [1; 2] 2 Sim.healthy))
  = false.
Proof.
  split; [simpl; lia | split; [ | split]].
  - vm_compute. intros H; discriminate H.
  - vm_compute. tauto.
  - vm_compute. reflexivity.
Qed.

Lemma chunks_stay_in_validated_range_witness :
  0 < @mmc_mailbox_io_limit Sim.params /\
  0 < page_size Sim.mailbox /\
  0 < write_max Sim.mailbox < 4294967296 /\
  byte_len Sim.mailbox < 4294967296 /\
  0 <= 10 /\ 0 <= 300 /\ 10 + 300 <= byte_len Sim.mailbox /\
  byte_len Sim.mailbox + page_size Sim.mailbox <= 4294967296 /\
  (advances 0 10 300
     (trace_of (Sim.read 40 Sim.mailbox 10 300 Sim.flaky)) = true /\
   forallb (chunk_in_range 10 300)
     (trace_of (Sim.read 40 Sim.mailbox 10 300 Sim.flaky)) = true /\
   @performed Sim.sim Sim.kernel Z
     (Sim.read 40 Sim.mailbox 10 300 Sim.flaky) Sim.flaky) /\
  (advances 0 10 300
     (trace_of (Sim.write 40 Sim.mailbox 10 (repeat 85 300%nat) 300
                  Sim.flaky)) = true /\
   forallb (chunk_in_range 10 300)
     (trace_of (Sim.write 40 Sim.mailbox 10 (repeat 85 300%nat) 300
                  Sim.flaky)) = true /\
   @performed Sim.sim Sim.kernel Z
     (Sim.write 40 Sim.mailbox 10 (repeat 85 300%nat) 300 Sim.flaky)
     Sim.flaky).
Proof.
  assert (H1 : 0 < @mmc_mailbox_io_limit Sim.params) by (simpl; lia).
  assert (H2 : 0 < page_size Sim.mailbox) by (simpl; lia).
  assert (H3 : 0 < write_max Sim.mailbox < 4294967296) by (simpl; lia).
  assert (H4 : byte_len Sim.mailbox < 4294967296) by (simpl; lia).
  assert (H5 : 0 <= 10) by lia.
  assert (H6 : 0 <= 300) by lia.
  assert (H7 : 10 + 300 <= byte_len Sim.mailbox) by (simpl; lia).
  assert (H8 : byte_len Sim.mailbox + page_size Sim.mailbox <= 4294967296)
    by (simpl; lia).
  split; [exact H1 | split; [exact H2 | split; [exact H3 | ]]].
  split; [exact H4 | split; [exact H5 | split; [exact H6 | ]]].
  split; [exact H7 | split; [exact H8 | ]].
  destruct (@chunks_stay_in_validated_range Sim.sim Sim.kernel Sim.params 40
              Sim.mailbox 10 (repeat 85 300%nat) 300 Sim.flaky
              H1 H2 H3 H4 H5 H6 H7) as [Hrd Hwr].
  split; [exact Hrd | exact (Hwr H8)].
Defined.

(** C8, as stated, fails: with a registered instance the handshake comes
    back to its caller, the warning being the last thing it does. *)
Lemma poweroff_returns_to_caller :
  returns (result_of (Sim.poweroff (Some Sim.mailbox) Sim.healthy)) /\
  last (trace_of (Sim.poweroff (Some Sim.mailbox) Sim.healthy)) EvDevErr
    = EvWarnOn.
Proof. split; [exists tt | ]; reflexivity. Qed.

(** ** Sample runs *)

(** The split of a 12-byte write at offset 10 with 16-byte pages: six
    bytes up to the page boundary, then six bytes, between the two control
    writes. *)
Example write_splits_at_page_boundary :
  transport_calls
    (trace_of (Sim.write 40 Sim.mailbox 10
                 [1; 2; 3; 4; 5; 6; 7; 8; 9; 10; 11; 12] 12 Sim.healthy)) =
  [EvBulkWrite 2047 (Tmp 1) 1 [1] 0;
   EvBulkWrite 10 (Val 0) 6 [1; 2; 3; 4; 5; 6] 0;
   EvBulkWrite 16 (Val 6) 6 [7; 8; 9; 10; 11; 12] 0;
   EvBulkWrite 2047 (Tmp 0) 1 [0] 0].
Proof. reflexivity. Qed.

(** With a timeout of zero the transfer is still tried once. *)
Example zero_timeout_still_attempts :
  @at24_regmap_read Sim.sim Sim.kernel Sim.impatient 5 Sim.mailbox (Val 0)
    0 4 (Sim.mk_sim 1000 [-5; -5] 0) =
  (Done (- ETIMEDOUT), Sim.mk_sim 1001 [-5] 0,
   [EvCall Read (Val 0) 0 4; EvJiffies 1000; EvJiffies 1000;
    EvBulkRead 0 (Val 0) 4 [] (-5); EvUsleepRange 1000 1500]).
Proof. reflexivity. Qed.

(** A transfer that fails twice and then succeeds is retried and returns
    the chunk length. *)
Example flaky_transfer_succeeds :
  result_of (Sim.regmap_write 5 Sim.mailbox [7; 8; 9] (Val 0) 10 3 Sim.flaky)
    = Done 3 /\
  length (transport_calls
            (trace_of (Sim.regmap_write 5 Sim.mailbox [7; 8; 9] (Val 0) 10 3
                         Sim.flaky))) = 3%nat.
Proof. split; reflexivity. Qed.

(** The simulated bus meets the assumptions under which the entry points
    return. *)
Lemma simulated_entry_points_return (fuel : nat) (off : Z) (val : list Z)
  (count : Z) (w : Sim.sim) :
  25 < Z.of_nat fuel ->
  count <= Z.of_nat fuel ->
  0 <= off -> 0 <= count ->
  off + count < 18446744073709551616 ->
  returns (result_of (Sim.read fuel Sim.mailbox off count w)) /\
  returns (result_of (Sim.write fuel Sim.mailbox off val count w)).
Proof.
  intros Hf Hn Hoff Hcount Hsum.
  apply (@entry_points_return Sim.sim Sim.kernel Sim.params Sim.clock);
    simpl; intros; try reflexivity; lia.
Qed.

(** * More of the driver *)

(** ** Successful transfers of a retry loop *)

Lemma retry_trace_data_successes (att : event -> Z -> Prop)
  (deadline len : Z) (n : nat) (tr : list event) (o : outcome Z) :
  (forall e r, att e r -> is_data_success e = (r =? 0)) ->
  retry_trace att deadline len n tr o ->
  (data_successes tr = [] /\ (o = OutOfFuel \/ o = Done (- ETIMEDOUT))) \/
  (exists e, att e 0 /\ data_successes tr = [e] /\ o = Done len).
Proof.
  intros Hatt. unfold data_successes.
  induction 1; cbn [filter is_data_success].
  - left. auto.
  - right. exists e. rewrite (Hatt e 0) by assumption. cbn. auto.
  - rewrite (Hatt e r) by assumption.
    replace (r =? 0) with false by lia. exact IHretry_trace.
  - left. rewrite (Hatt e r) by assumption.
    replace (r =? 0) with false by lia. auto.
Qed.

Lemma retry_trace_filter_nil (g : event -> bool) (att : event -> Z -> Prop)
  (deadline len : Z) (n : nat) (tr : list event) (o : outcome Z) :
  (forall e r, att e r -> g e = false) ->
  (forall t, g (EvJiffies t) = false) ->
  g (EvUsleepRange 1000 1500) = false ->
  retry_trace att deadline len n tr o ->
  filter g tr = [].
Proof.
  intros Hatt Hj Hs. induction 1; cbn [filter].
  - reflexivity.
  - rewrite Hj, (Hatt e 0) by assumption. reflexivity.
  - rewrite Hj, (Hatt e r), Hs by assumption. assumption.
  - rewrite Hj, (Hatt e r), Hs by assumption. reflexivity.
Qed.

Lemma is_attempt_val_data_success (d : direction) (val : list Z)
  (reg c count : Z) (e : event) (r : Z) :
  is_attempt d val reg (Val c) count e r -> is_data_success e = (r =? 0).
Proof. destruct d; cbn; [intros [data ->] | intros ->]; reflexivity. Qed.

Lemma is_attempt_tmp_data_success (d : direction) (val : list Z)
  (reg v count : Z) (e : event) (r : Z) :
  is_attempt d val reg (Tmp v) count e r -> is_data_success e = false.
Proof. destruct d; cbn; [intros [data ->] | intros ->]; reflexivity. Qed.

Lemma is_attempt_bus_event (d : direction) (val : list Z) (reg : Z)
  (buf : bufptr) (count : Z) (e : event) (r : Z) :
  is_attempt d val reg buf count e r -> is_bus_event e = true.
Proof. destruct d; cbn; [intros [data ->] | intros ->]; reflexivity. Qed.

Lemma s32_timeout : s32 (- ETIMEDOUT) = - ETIMEDOUT.
Proof. reflexivity. Qed.

Section Transactions.

Context {World : Type} {K : Kernel World} {P : ModuleParams}.

Lemma data_successes_app (a b : list event) :
  data_successes (a ++ b) = data_successes a ++ data_successes b.
Proof. apply filter_app. Qed.

Lemma at24_regmap_read_successes (fuel : nat) (mmc_mailbox : at24_data)
  (c off count : Z) (w : World) :
  let x := at24_regmap_read fuel mmc_mailbox (Val c) off count w in
  let L := at24_adjust_read_count mmc_mailbox off count in
  (data_successes (trace_of x) = [] /\
   (result_of x = OutOfFuel \/ result_of x = Done (- ETIMEDOUT))) \/
  (exists data,
     data_successes (trace_of x) = [EvBulkRead off (Val c) L data 0] /\
     result_of x = Done L).
Proof.
  intros x L. subst x L.
  destruct (at24_regmap_read_run fuel mmc_mailbox [] (Val c) off count w)
    as (tr & -> & Hrt).
  change (data_successes (EvCall Read (Val c) off count
                            :: EvJiffies (jiffies w) :: tr))
    with (data_successes tr).
  destruct (retry_trace_data_successes _ _ _ _ _ _
              (is_attempt_val_data_success _ _ _ _ _) Hrt)
    as [H | (e & [data ->] & Hs & Ho)].
  - left. exact H.
  - right. exists data. split; assumption.
Qed.

Lemma at24_regmap_write_successes (fuel : nat) (mmc_mailbox : at24_data)
  (val : list Z) (c off count L : Z) (w : World) :
  at24_adjust_write_count mmc_mailbox off count = Some L ->
  let x := at24_regmap_write fuel mmc_mailbox val (Val c) off count w in
  (data_successes (trace_of x) = [] /\
   (result_of x = OutOfFuel \/ result_of x = Done (- ETIMEDOUT))) \/
  (data_successes (trace_of x)
     = [EvBulkWrite off (Val c) L (load val (Val c) L) 0] /\
   result_of x = Done L).
Proof.
  intros HL x. subst x.
  destruct (at24_regmap_write_run fuel mmc_mailbox val (Val c) off count L w
              HL) as (tr & -> & Hrt).
  change (data_successes (EvCall Write (Val c) off count
                            :: EvJiffies (jiffies w) :: tr))
    with (data_successes tr).
  destruct (retry_trace_data_successes _ _ _ _ _ _
              (is_attempt_val_data_success _ _ _ _ _) Hrt)
    as [H | (e & -> & Hs & Ho)].
  - left. exact H.
  - right. split; assumption.
Qed.

Lemma at24_regmap_write_tmp_successes (fuel : nat) (mmc_mailbox : at24_data)
  (val : list Z) (v off count : Z) (w : World) :
  data_successes
    (trace_of (at24_regmap_write fuel mmc_mailbox val (Tmp v) off count w))
  = [].
Proof.
  destruct (at24_adjust_write_count mmc_mailbox off count) as [L|] eqn:HL.
  - destruct (at24_regmap_write_run fuel mmc_mailbox val (Tmp v) off count L
                w HL) as (tr & -> & Hrt).
    change (data_successes tr = []). unfold data_successes.
    eapply retry_trace_filter_nil; [ | | | exact Hrt]; try reflexivity.
    intros e r. apply is_attempt_tmp_data_success.
  - rewrite at24_regmap_write_fault by exact HL. reflexivity.
Qed.

(** ** What a chunk loop has transferred when it stops *)

Lemma at24_read_loop_covered (fuel n : nat) (mmc_mailbox : at24_data)
  (buf off count : Z) (w : World) :
  0 < mmc_mailbox_io_limit ->
  0 <= off -> 0 <= count -> off + count < 2147483648 ->
  let x := at24_read_loop fuel n mmc_mailbox buf off count w in
  exists e,
    covered Read off buf (data_successes (trace_of x)) = Some e /\
    off <= e <= off + count /\
    (result_of x = Done LoopDone -> e = off + count) /\
    (forall r, result_of x = Done (LoopReturn r) ->
       r = - ETIMEDOUT /\ e < off + count).
Proof.
  intros Hl. revert buf off count w.
  induction n as [|n IH]; intros buf off count w H1 H2 H3;
    cbn [at24_read_loop]; destruct (count =? 0) eqn:E0.
  - apply Z.eqb_eq in E0. exists off. cbn.
    repeat split; try lia; intros; discriminate.
  - apply Z.eqb_neq in E0. exists off. cbn.
    repeat split; try lia; intros; discriminate.
  - apply Z.eqb_eq in E0. exists off. cbn.
    repeat split; try lia; intros; discriminate.
  - apply Z.eqb_neq in E0.
    rewrite trace_bind, result_bind, data_successes_app.
    pose proof (read_plan_bounds mmc_mailbox off count Hl ltac:(lia)) as Hp.
    destruct (at24_regmap_read_successes fuel mmc_mailbox buf off count w)
      as [[Hs [Ho | Ho]] | (data & Hs & Ho)]; rewrite Hs, Ho.
    + exists off. cbn. repeat split; try lia; intros; discriminate.
    + exists off. rewrite s32_timeout. cbn.
      split; [reflexivity | split; [lia | split; [intros; discriminate | ]]].
      intros r Hr. injection Hr as <-. split; [reflexivity | lia].
    + set (L := at24_adjust_read_count mmc_mailbox off count) in *.
      rewrite (s32_small L) by lia.
      replace (L <? 0) with false by lia.
      rewrite (u32_small (off + L)), (u64_small (count - L)) by lia.
      destruct (IH (buf + L) (off + L) (count - L)
                  (world_of (at24_regmap_read fuel mmc_mailbox (Val buf) off
                               count w))
                  ltac:(lia) ltac:(lia) ltac:(lia))
        as (e & Hcov & Hrange & Hdone & Hret).
      exists e. cbn [app covered].
      rewrite !Z.eqb_refl. replace (0 <? L) with true by lia. cbn [andb].
      split; [exact Hcov | split; [lia | split]].
      * intros Hd. rewrite (Hdone Hd). lia.
      * intros r Hr. destruct (Hret r Hr). split; [assumption | lia].
Qed.

Lemma at24_write_loop_covered (fuel n : nat) (mmc_mailbox : at24_data)
  (val : list Z) (buf off count : Z) (w : World) :
  0 < page_size mmc_mailbox ->
  0 < write_max mmc_mailbox < 4294967296 ->
  0 <= off -> 0 <= count -> off + count < 2147483648 ->
  off + count + page_size mmc_mailbox <= 4294967296 ->
  let x := at24_write_loop fuel n mmc_mailbox val buf off count w in
  exists e,
    covered Write off buf (data_successes (trace_of x)) = Some e /\
    off <= e <= off + count /\
    (result_of x = Done LoopDone -> e = off + count) /\
    (forall r, result_of x = Done (LoopReturn r) ->
       r = - ETIMEDOUT /\ e < off + count).
Proof.
  intros Hps Hwm. revert buf off count w.
  induction n as [|n IH]; intros buf off count w H1 H2 H3 H4;
    cbn [at24_write_loop]; destruct (count =? 0) eqn:E0.
  - apply Z.eqb_eq in E0. exists off. cbn.
    repeat split; try lia; intros; discriminate.
  - apply Z.eqb_neq in E0. exists off. cbn.
    repeat split; try lia; intros; discriminate.
  - apply Z.eqb_eq in E0. exists off. cbn.
    repeat split; try lia; intros; discriminate.
  - apply Z.eqb_neq in E0.
    rewrite trace_bind, result_bind, data_successes_app.
    destruct (adjust_write_count_plan mmc_mailbox off count ltac:(lia)
                ltac:(lia) ltac:(lia) Hps Hwm)
      as (L & HL & Hp1 & _ & Hp2 & _).
    destruct (at24_regmap_write_successes fuel mmc_mailbox val buf off count L
                w HL)
      as [[Hs [Ho | Ho]] | (Hs & Ho)]; rewrite Hs, Ho.
    + exists off. cbn. repeat split; try lia; intros; discriminate.
    + exists off. rewrite s32_timeout. cbn.
      split; [reflexivity | split; [lia | split; [intros; discriminate | ]]].
      intros r Hr. injection Hr as <-. split; [reflexivity | lia].
    + rewrite (s32_small L) by lia.
      replace (L <? 0) with false by lia.
      rewrite (u32_small (off + L)), (u64_small (count - L)) by lia.
      destruct (IH (buf + L) (off + L) (count - L)
                  (world_of (at24_regmap_write fuel mmc_mailbox val (Val buf)
                               off count w))
                  ltac:(lia) ltac:(lia) ltac:(lia) ltac:(lia))
        as (e & Hcov & Hrange & Hdone & Hret).
      exists e. cbn [app covered].
      rewrite !Z.eqb_refl. replace (0 <? L) with true by lia. cbn [andb].
      split; [exact Hcov | split; [lia | split]].
      * intros Hd. rewrite (Hdone Hd). lia.
      * intros r Hr. destruct (Hret r Hr). split; [assumption | lia].
Qed.

(** ** The frame around a chunk loop *)

Lemma lock_if_multiple_successes (fuel : nat) (mmc_mailbox : at24_data)
  (count : Z) (w : World) :
  data_successes (trace_of (lock_if_multiple fuel mmc_mailbox count w)) = [].
Proof.
  unfold lock_if_multiple. destruct (count <=? 1); [reflexivity | ].
  rewrite trace_bind, data_successes_app, at24_regmap_write_tmp_successes.
  destruct (result_of _); reflexivity.
Qed.

Lemma unlock_if_locked_successes (fuel : nat) (mmc_mailbox : at24_data)
  (locked : bool) (w : World) :
  data_successes (trace_of (unlock_if_locked fuel mmc_mailbox locked w)) = [].
Proof.
  unfold unlock_if_locked. destruct (negb locked); [reflexivity | ].
  rewrite trace_bind, data_successes_app, at24_regmap_write_tmp_successes.
  destruct (result_of _); reflexivity.
Qed.

Lemma transaction_outcome (fuel : nat) (mmc_mailbox : at24_data)
  (count : Z) (loop : M loop_exit) (w : World) :
  let x :=
    bind mutex_lock (fun _ =>
    bind (lock_if_multiple fuel mmc_mailbox count) (fun locked =>
    bind loop (fun e =>
      match e with
      | LoopReturn r' => ret r'
      | LoopDone =>
          bind (unlock_if_locked fuel mmc_mailbox locked) (fun _ =>
          bind mutex_unlock (fun _ =>
          bind do_pm_runtime_put (fun _ => ret 0)))
      end))) w in
  ((forall r, result_of x <> Done r) /\ data_successes (trace_of x) = []) \/
  (exists w',
     data_successes (trace_of x) = data_successes (trace_of (loop w')) /\
     match result_of (loop w') with
     | Done LoopDone =>
         result_of x = Done 0 \/ (forall r, result_of x <> Done r)
     | Done (LoopReturn r) => result_of x = Done r
     | _ => forall r, result_of x <> Done r
     end).
Proof.
  intros x. subst x.
  rewrite trace_bind, result_bind.
  cbn [mutex_lock emit result_of trace_of world_of fst snd].
  rewrite trace_bind, result_bind.
  change (data_successes ([EvMutexLock] ++ ?t)) with (data_successes t).
  rewrite data_successes_app, lock_if_multiple_successes. cbn [app].
  destruct (result_of (lock_if_multiple fuel mmc_mailbox count w))
    as [locked| |];
    [ | left; split; [discriminate | reflexivity]
      | left; split; [discriminate | reflexivity]].
  right. exists (world_of (lock_if_multiple fuel mmc_mailbox count w)).
  rewrite trace_bind, result_bind, data_successes_app.
  destruct (result_of (loop _)) as [[|r']| |].
  - rewrite trace_bind, result_bind, data_successes_app,
      unlock_if_locked_successes.
    destruct (result_of (unlock_if_locked _ _ _ _)) as [[]| |]; cbn.
    + rewrite app_nil_r. split; [reflexivity | left; reflexivity].
    + rewrite app_nil_r. split; [reflexivity | right; discriminate].
    + rewrite app_nil_r. split; [reflexivity | right; discriminate].
  - cbn. rewrite app_nil_r. split; reflexivity.
  - cbn. rewrite app_nil_r. split; [reflexivity | discriminate].
  - cbn. rewrite app_nil_r. split; [reflexivity | discriminate].
Qed.

Lemma at24_read_outcome (fuel : nat) (mmc_mailbox : at24_data)
  (off count : Z) (w : World) :
  0 < mmc_mailbox_io_limit ->
  (off + count <= byte_len mmc_mailbox -> off + count < 2147483648) ->
  0 <= off -> 0 < count ->
  off + count < 18446744073709551616 ->
  let x := at24_read fuel mmc_mailbox off count w in
  exists e,
    covered Read off 0 (data_successes (trace_of x)) = Some e /\
    off <= e <= off + count /\
    (forall r, result_of x = Done r ->
       (r = 0 /\ e = off + count) \/
       (e < off + count /\
        (r = - EINVAL \/ r = - ETIMEDOUT \/
         (r < 0 /\ r = fst (pm_runtime_get_sync w))))).
Proof.
  intros Hl Hlen Hoff Hcount Hsum x. subst x. unfold at24_read.
  replace (count =? 0) with false by lia.
  rewrite (u64_small (off + count)) by lia.
  destruct (off + count >? byte_len mmc_mailbox) eqn:Eb.
  - exists off. cbn. split; [reflexivity | split; [lia | ]].
    intros r Hr. injection Hr as <-. right. split; [lia | auto].
  - assert (Hsmall : off + count < 2147483648) by (apply Hlen; lia).
    rewrite trace_bind, result_bind. unfold do_pm_runtime_get_sync.
    destruct (pm_runtime_get_sync w) as [r0 w1].
    cbn [result_of trace_of world_of fst snd].
    change (data_successes ([EvPmGetSync r0] ++ ?t)) with (data_successes t).
    destruct (r0 <? 0) eqn:Epm.
    + exists off. cbn. split; [reflexivity | split; [lia | ]].
      intros r Hr. injection Hr as <-. right. split; [lia | ].
      right. right. split; [lia | reflexivity].
    + destruct (transaction_outcome fuel mmc_mailbox count
                  (at24_read_loop fuel fuel mmc_mailbox 0 off count) w1)
        as [[Ho Hs] | (w' & Hs & Ho)].
      * rewrite Hs. exists off. cbn.
        split; [reflexivity | split; [lia | ]]. intros r Hr.
        exfalso. exact (Ho r Hr).
      * rewrite Hs.
        destruct (at24_read_loop_covered fuel fuel mmc_mailbox 0 off count w'
                    Hl Hoff ltac:(lia) ltac:(lia))
          as (e & Hcov & Hrange & Hdone & Hret).
        exists e. split; [exact Hcov | split; [exact Hrange | ]].
        intros r Hr.
        destruct (result_of (at24_read_loop fuel fuel mmc_mailbox 0 off
                               count w')) as [[|r']| |].
        -- left. destruct Ho as [Ho | Ho];
             [rewrite Ho in Hr; injection Hr as <-
             | exfalso; exact (Ho r Hr)].
           split; [reflexivity | apply Hdone; reflexivity].
        -- rewrite Ho in Hr. injection Hr as <-.
           destruct (Hret r' eq_refl) as [-> Hlt]. right. auto.
        -- exfalso. exact (Ho r Hr).
        -- exfalso. exact (Ho r Hr).
Qed.

Lemma at24_write_outcome (fuel : nat) (mmc_mailbox : at24_data)
  (off : Z) (val : list Z) (count : Z) (w : World) :
  0 < page_size mmc_mailbox < 65536 ->
  0 < write_max mmc_mailbox < 4294967296 ->
  (off + count <= byte_len mmc_mailbox -> off + count < 2147483648) ->
  0 <= off -> 0 < count ->
  off + count < 18446744073709551616 ->
  let x := at24_write fuel mmc_mailbox off val count w in
  exists e,
    covered Write off 0 (data_successes (trace_of x)) = Some e /\
    off <= e <= off + count /\
    (forall r, result_of x = Done r ->
       (r = 0 /\ e = off + count) \/
       (e < off + count /\
        (r = - EINVAL \/ r = - ETIMEDOUT \/
         (r < 0 /\ r = fst (pm_runtime_get_sync w))))).
Proof.
  intros Hps Hwm Hlen Hoff Hcount Hsum x. subst x. unfold at24_write.
  replace (count =? 0) with false by lia.
  rewrite (u64_small (off + count)) by lia.
  destruct (off + count >? byte_len mmc_mailbox) eqn:Eb.
  - exists off. cbn. split; [reflexivity | split; [lia | ]].
    intros r Hr. injection Hr as <-. right. split; [lia | auto].
  - assert (Hsmall : off + count < 2147483648) by (apply Hlen; lia).
    rewrite trace_bind, result_bind. unfold do_pm_runtime_get_sync.
    destruct (pm_runtime_get_sync w) as [r0 w1].
    cbn [result_of trace_of world_of fst snd].
    change (data_successes ([EvPmGetSync r0] ++ ?t)) with (data_successes t).
    destruct (r0 <? 0) eqn:Epm.
    + exists off. cbn. split; [reflexivity | split; [lia | ]].
      intros r Hr. injection Hr as <-. right. split; [lia | ].
      right. right. split; [lia | reflexivity].
    + destruct (transaction_outcome fuel mmc_mailbox count
                  (at24_write_loop fuel fuel mmc_mailbox val 0 off count) w1)
        as [[Ho Hs] | (w' & Hs & Ho)].
      * rewrite Hs. exists off. cbn.
        split; [reflexivity | split; [lia | ]]. intros r Hr.
        exfalso. exact (Ho r Hr).
      * rewrite Hs.
        destruct (at24_write_loop_covered fuel fuel mmc_mailbox val 0 off
                    count w' ltac:(lia) Hwm Hoff ltac:(lia) ltac:(lia)
                    ltac:(lia))
          as (e & Hcov & Hrange & Hdone & Hret).
        exists e. split; [exact Hcov | split; [exact Hrange | ]].
        intros r Hr.
        destruct (result_of (at24_write_loop fuel fuel mmc_mailbox val 0 off
                               count w')) as [[|r']| |].
        -- left. destruct Ho as [Ho | Ho];
             [rewrite Ho in Hr; injection Hr as <-
             | exfalso; exact (Ho r Hr)].
           split; [reflexivity | apply Hdone; reflexivity].
        -- rewrite Ho in Hr. injection Hr as <-.
           destruct (Hret r' eq_refl) as [-> Hlt]. right. auto.
        -- exfalso. exact (Ho r Hr).
        -- exfalso. exact (Ho r Hr).
Qed.

(** X1.  For an instance of the usual sizes and a non-empty request, the
    successful raw transfers of [at24_read] and of [at24_write] on the
    caller's buffer are non-empty, follow each other without gap or
    overlap on the device and in the buffer, start at [off] and stay
    inside the request; a finished call returns 0 exactly when they cover
    the whole request.  Failures of the two control writes do not show in
    the result. *)
Theorem completed_transfer_covers_request (fuel : nat)
  (mmc_mailbox : at24_data) (off : Z) (val : list Z) (count : Z)
  (w : World) :
  0 < mmc_mailbox_io_limit ->
  0 < page_size mmc_mailbox < 65536 ->
  0 < write_max mmc_mailbox < 4294967296 ->
  byte_len mmc_mailbox < 2147483648 ->
  0 <= off -> 0 < count ->
  off + count < 18446744073709551616 ->
  covers_request Read off count
    (result_of (at24_read fuel mmc_mailbox off count w))
    (trace_of (at24_read fuel mmc_mailbox off count w)) /\
  covers_request Write off count
    (result_of (at24_write fuel mmc_mailbox off val count w))
    (trace_of (at24_write fuel mmc_mailbox off val count w)).
Proof.
  intros Hl Hps Hwm Hlen Hoff Hcount Hsum. unfold covers_request. split.
  - destruct (at24_read_outcome fuel mmc_mailbox off count w Hl
                ltac:(lia) Hoff Hcount Hsum) as (e & Hcov & Hrange & Hres).
    exists e. split; [exact Hcov | split; [exact Hrange | ]].
    intros r Hr. unfold EINVAL, ETIMEDOUT in Hres.
    destruct (Hres r Hr) as [[-> ->] | [Hlt Hcase]]; split; intros; lia.
  - destruct (at24_write_outcome fuel mmc_mailbox off val count w Hps Hwm
                ltac:(lia) Hoff Hcount Hsum) as (e & Hcov & Hrange & Hres).
    exists e. split; [exact Hcov | split; [exact Hrange | ]].
    intros r Hr. unfold EINVAL, ETIMEDOUT in Hres.
    destruct (Hres r Hr) as [[-> ->] | [Hlt Hcase]]; split; intros; lia.
Qed.

(** X2.  For an instance of the usual sizes, a finished call of
    [at24_read] or [at24_write] returns 0, [-EINVAL], [-ETIMEDOUT] or the
    negative result of the failed runtime-PM resume, and nothing else; in
    particular never a positive byte count. *)
Theorem entry_point_results (fuel : nat) (mmc_mailbox : at24_data)
  (off : Z) (val : list Z) (count : Z) (w : World) (r : Z) :
  0 < mmc_mailbox_io_limit ->
  0 < page_size mmc_mailbox < 65536 ->
  0 < write_max mmc_mailbox < 4294967296 ->
  byte_len mmc_mailbox < 2147483648 ->
  0 <= off -> 0 <= count ->
  off + count < 18446744073709551616 ->
  result_of (at24_read fuel mmc_mailbox off count w) = Done r \/
  result_of (at24_write fuel mmc_mailbox off val count w) = Done r ->
  r = 0 \/ r = - EINVAL \/ r = - ETIMEDOUT \/
  (r < 0 /\ r = fst (pm_runtime_get_sync w)).
Proof.
  intros Hl Hps Hwm Hlen Hoff Hcount Hsum Hres.
  destruct (Z.eq_dec count 0) as [-> | Hne].
  - destruct Hres as [Hr | Hr]; cbn in Hr; injection Hr as <-; auto.
  - destruct Hres as [Hr | Hr].
    + destruct (at24_read_outcome fuel mmc_mailbox off count w Hl
                  ltac:(lia) Hoff ltac:(lia) Hsum) as (e & _ & _ & Hres).
      destruct (Hres r Hr) as [[-> _] | [_ Hcase]]; tauto.
    + destruct (at24_write_outcome fuel mmc_mailbox off val count w Hps Hwm
                  ltac:(lia) Hoff ltac:(lia) Hsum) as (e & _ & _ & Hres).
      destruct (Hres r Hr) as [[-> _] | [_ Hcase]]; tauto.
Qed.

(** ** The critical section *)

Lemma at24_regmap_read_bus (fuel : nat) (mmc_mailbox : at24_data)
  (buf : bufptr) (off count : Z) (w : World) :
  forallb is_bus_event
    (trace_of (at24_regmap_read fuel mmc_mailbox buf off count w)) = true.
Proof.
  destruct (at24_regmap_read_run fuel mmc_mailbox [] buf off count w)
    as (tr & -> & Hrt).
  cbn [forallb is_bus_event andb].
  eapply retry_trace_forallb; [ | | | exact Hrt]; try reflexivity.
  intros e r. apply is_attempt_bus_event.
Qed.

Lemma at24_regmap_write_bus (fuel : nat) (mmc_mailbox : at24_data)
  (val : list Z) (buf : bufptr) (off count : Z) (w : World) :
  forallb is_bus_event
    (trace_of (at24_regmap_write fuel mmc_mailbox val buf off count w))
  = true.
Proof.
  apply at24_regmap_write_forallb; reflexivity.
Qed.

Lemma at24_read_loop_section (fuel n : nat) (mmc_mailbox : at24_data)
  (buf off count : Z) (w : World) :
  let x := at24_read_loop fuel n mmc_mailbox buf off count w in
  match result_of x with
  | Done LoopDone => forallb is_bus_event (trace_of x) = true
  | Done (LoopReturn _) =>
      exists body,
        trace_of x = body ++ [EvMutexUnlock; EvPmPut] /\
        forallb is_bus_event body = true
  | _ => True
  end.
Proof.
  revert buf off count w.
  induction n as [|n IH]; intros buf off count w; cbn [at24_read_loop];
    destruct (count =? 0); try exact I; try reflexivity.
  cbv zeta. rewrite trace_bind, result_bind.
  pose proof (at24_regmap_read_bus fuel mmc_mailbox (Val buf) off count w)
    as Hbus.
  destruct (result_of (at24_regmap_read fuel mmc_mailbox (Val buf) off count w))
    as [r| |]; [ | exact I | exact I].
  destruct (s32 r <? 0).
  - cbn. exists (trace_of (at24_regmap_read fuel mmc_mailbox (Val buf) off
                             count w)).
    split; [reflexivity | exact Hbus].
  - specialize (IH (buf + s32 r) (u32 (off + s32 r)) (u64 (count - s32 r))
                  (world_of (at24_regmap_read fuel mmc_mailbox (Val buf) off
                               count w))).
    cbv zeta in IH.
    destruct (result_of (at24_read_loop fuel n mmc_mailbox _ _ _ _))
      as [[|r']| |]; [ | | exact I | exact I].
    + rewrite forallb_app, Hbus, IH. reflexivity.
    + destruct IH as (body & -> & Hbody).
      exists (trace_of (at24_regmap_read fuel mmc_mailbox (Val buf) off
                          count w) ++ body).
      split; [apply app_assoc | ].
      rewrite forallb_app, Hbus, Hbody. reflexivity.
Qed.

Lemma at24_write_loop_section (fuel n : nat) (mmc_mailbox : at24_data)
  (val : list Z) (buf off count : Z) (w : World) :
  let x := at24_write_loop fuel n mmc_mailbox val buf off count w in
  match result_of x with
  | Done LoopDone => forallb is_bus_event (trace_of x) = true
  | Done (LoopReturn _) =>
      exists body,
        trace_of x = body ++ [EvMutexUnlock; EvPmPut] /\
        forallb is_bus_event body = true
  | _ => True
  end.
Proof.
  revert buf off count w.
  induction n as [|n IH]; intros buf off count w; cbn [at24_write_loop];
    destruct (count =? 0); try exact I; try reflexivity.
  cbv zeta. rewrite trace_bind, result_bind.
  pose proof (at24_regmap_write_bus fuel mmc_mailbox val (Val buf) off count w)
    as Hbus.
  destruct (result_of (at24_regmap_write fuel mmc_mailbox val (Val buf) off
                         count w)) as [r| |]; [ | exact I | exact I].
  destruct (s32 r <? 0).
  - cbn. exists (trace_of (at24_regmap_write fuel mmc_mailbox val (Val buf)
                             off count w)).
    split; [reflexivity | exact Hbus].
  - specialize (IH (buf + s32 r) (u32 (off + s32 r)) (u64 (count - s32 r))
                  (world_of (at24_regmap_write fuel mmc_mailbox val (Val buf)
                               off count w))).
    cbv zeta in IH.
    destruct (result_of (at24_write_loop fuel n mmc_mailbox val _ _ _ _))
      as [[|r']| |]; [ | | exact I | exact I].
    + rewrite forallb_app, Hbus, IH. reflexivity.
    + destruct IH as (body & -> & Hbody).
      exists (trace_of (at24_regmap_write fuel mmc_mailbox val (Val buf) off
                          count w) ++ body).
      split; [apply app_assoc | ].
      rewrite forallb_app, Hbus, Hbody. reflexivity.
Qed.

Lemma lock_if_multiple_bus (fuel : nat) (mmc_mailbox : at24_data)
  (count : Z) (w : World) :
  forallb is_bus_event
    (trace_of (lock_if_multiple fuel mmc_mailbox count w)) = true.
Proof.
  unfold lock_if_multiple. destruct (count <=? 1); [reflexivity | ].
  rewrite trace_bind, forallb_app, at24_regmap_write_bus.
  destruct (result_of _); reflexivity.
Qed.

Lemma unlock_if_locked_bus (fuel : nat) (mmc_mailbox : at24_data)
  (locked : bool) (w : World) :
  forallb is_bus_event
    (trace_of (unlock_if_locked fuel mmc_mailbox locked w)) = true.
Proof.
  unfold unlock_if_locked. destruct (negb locked); [reflexivity | ].
  rewrite trace_bind, forallb_app, at24_regmap_write_bus.
  destruct (result_of _); reflexivity.
Qed.

Lemma transaction_section (fuel : nat) (mmc_mailbox : at24_data)
  (count : Z) (loop : M loop_exit) (w : World) :
  (forall w',
     match result_of (loop w') with
     | Done LoopDone => forallb is_bus_event (trace_of (loop w')) = true
     | Done (LoopReturn _) =>
         exists body,
           trace_of (loop w') = body ++ [EvMutexUnlock; EvPmPut] /\
           forallb is_bus_event body = true
     | _ => True
     end) ->
  let x :=
    bind mutex_lock (fun _ =>
    bind (lock_if_multiple fuel mmc_mailbox count) (fun locked =>
    bind loop (fun e =>
      match e with
      | LoopReturn r' => ret r'
      | LoopDone =>
          bind (unlock_if_locked fuel mmc_mailbox locked) (fun _ =>
          bind mutex_unlock (fun _ =>
          bind do_pm_runtime_put (fun _ => ret 0)))
      end))) w in
  forall r, result_of x = Done r ->
  exists body,
    trace_of x = EvMutexLock :: body ++ [EvMutexUnlock; EvPmPut] /\
    forallb is_bus_event body = true.
Proof.
  intros Hloop x. subst x.
  rewrite trace_bind, result_bind.
  cbn [mutex_lock emit result_of trace_of world_of fst snd].
  rewrite trace_bind, result_bind.
  pose proof (lock_if_multiple_bus fuel mmc_mailbox count w) as Hlock.
  destruct (result_of (lock_if_multiple fuel mmc_mailbox count w))
    as [locked| |]; [ | intros r Hr; discriminate | intros r Hr; discriminate].
  rewrite trace_bind, result_bind.
  specialize (Hloop (world_of (lock_if_multiple fuel mmc_mailbox count w))).
  destruct (result_of (loop _)) as [[|r']| |];
    [ | | intros r Hr; discriminate | intros r Hr; discriminate].
  - rewrite trace_bind, result_bind.
    pose proof (unlock_if_locked_bus fuel mmc_mailbox locked
                  (world_of (loop (world_of
                     (lock_if_multiple fuel mmc_mailbox count w)))))
      as Hunlock.
    destruct (result_of (unlock_if_locked _ _ _ _)) as [[]| |];
      [ | intros r Hr; discriminate | intros r Hr; discriminate].
    intros r _. cbn.
    eexists. split.
    + rewrite !app_assoc. reflexivity.
    + rewrite !forallb_app, Hlock, Hloop, Hunlock. reflexivity.
  - intros r _. destruct Hloop as (body & -> & Hbody). cbn.
    exists (trace_of (lock_if_multiple fuel mmc_mailbox count w) ++ body).
    split.
    + rewrite app_nil_r, !app_assoc. reflexivity.
    + rewrite forallb_app, Hlock, Hbody. reflexivity.
Qed.

(** X3.  Whatever the instance, the request and the bus, the events of a
    finished call of [at24_read] or [at24_write] have one of three shapes:
    none at all; a failed runtime-PM resume followed by
    [pm_runtime_put_noidle]; or a resume, [mutex_lock], bus events only,
    [mutex_unlock] and [pm_runtime_put].  So every bus access happens
    with the mutex held, and the mutex and the runtime-PM reference are
    released on every return path. *)
Theorem bus_access_inside_critical_section (fuel : nat)
  (mmc_mailbox : at24_data) (off : Z) (val : list Z) (count : Z)
  (w : World) (r : Z) :
  (result_of (at24_read fuel mmc_mailbox off count w) = Done r ->
   critical_section r (trace_of (at24_read fuel mmc_mailbox off count w))) /\
  (result_of (at24_write fuel mmc_mailbox off val count w) = Done r ->
   critical_section r
     (trace_of (at24_write fuel mmc_mailbox off val count w))).
Proof.
  unfold critical_section. split.
  - unfold at24_read. destruct (count =? 0); [left; reflexivity | ].
    destruct (u64 (off + count) >? byte_len mmc_mailbox);
      [left; reflexivity | ].
    rewrite trace_bind, result_bind. unfold do_pm_runtime_get_sync.
    destruct (pm_runtime_get_sync w) as [r0 w1].
    cbn [result_of trace_of world_of fst snd].
    destruct (r0 <? 0) eqn:Epm.
    + cbn. intros Hr. injection Hr as <-. right. left.
      exists r0. split; [lia | split; reflexivity].
    + intros Hr. right. right.
      destruct (transaction_section fuel mmc_mailbox count
                  (at24_read_loop fuel fuel mmc_mailbox 0 off count) w1
                  (fun w' => at24_read_loop_section fuel fuel mmc_mailbox 0
                               off count w') r Hr) as (body & Htr & Hbody).
      exists r0, body. rewrite Htr.
      split; [lia | split; [reflexivity | exact Hbody]].
  - unfold at24_write. destruct (count =? 0); [left; reflexivity | ].
    destruct (u64 (off + count) >? byte_len mmc_mailbox);
      [left; reflexivity | ].
    rewrite trace_bind, result_bind. unfold do_pm_runtime_get_sync.
    destruct (pm_runtime_get_sync w) as [r0 w1].
    cbn [result_of trace_of world_of fst snd].
    destruct (r0 <? 0) eqn:Epm.
    + cbn. intros Hr. injection Hr as <-. right. left.
      exists r0. split; [lia | split; reflexivity].
    + intros Hr. right. right.
      destruct (transaction_section fuel mmc_mailbox count
                  (at24_write_loop fuel fuel mmc_mailbox val 0 off count) w1
                  (fun w' => at24_write_loop_section fuel fuel mmc_mailbox val
                               0 off count w') r Hr) as (body & Htr & Hbody).
      exists r0, body. rewrite Htr.
      split; [lia | split; [reflexivity | exact Hbody]].
Qed.

(** ** Size limits of the raw transfers *)

Lemma at24_regmap_read_within_limits (fuel : nat) (mmc_mailbox : at24_data)
  (buf : bufptr) (off count : Z) (w : World) :
  forallb (chunk_within_limits mmc_mailbox mmc_mailbox_io_limit)
    (trace_of (at24_regmap_read fuel mmc_mailbox buf off count w)) = true.
Proof.
  destruct (at24_regmap_read_run fuel mmc_mailbox [] buf off count w)
    as (tr & -> & Hrt).
  cbn [forallb chunk_within_limits andb].
  eapply retry_trace_forallb; [ | | | exact Hrt]; try reflexivity.
  intros e r [data ->]. destruct buf; [reflexivity | ].
  cbn. unfold at24_adjust_read_count.
  destruct (count >? mmc_mailbox_io_limit) eqn:E; lia.
Qed.

Lemma at24_regmap_write_tmp_within_limits (fuel : nat)
  (mmc_mailbox : at24_data) (val : list Z) (v off count : Z) (w : World) :
  forallb (chunk_within_limits mmc_mailbox mmc_mailbox_io_limit)
    (trace_of (at24_regmap_write fuel mmc_mailbox val (Tmp v) off count w))
  = true.
Proof.
  apply at24_regmap_write_forallb; reflexivity.
Qed.

Lemma at24_regmap_write_within_limits (fuel : nat) (mmc_mailbox : at24_data)
  (val : list Z) (c off count : Z) (w : World) :
  0 < page_size mmc_mailbox ->
  0 < write_max mmc_mailbox < 4294967296 ->
  0 <= off -> off + page_size mmc_mailbox < 4294967296 -> 0 < count ->
  forallb (chunk_within_limits mmc_mailbox mmc_mailbox_io_limit)
    (trace_of (at24_regmap_write fuel mmc_mailbox val (Val c) off count w))
  = true.
Proof.
  intros Hps Hwm Hoff Hwrap Hcount.
  destruct (adjust_write_count_plan mmc_mailbox off count Hoff Hwrap Hcount
              Hps Hwm) as (L & HL & Hp1 & _ & Hp2 & Hp3).
  apply at24_regmap_write_forallb; try reflexivity.
  intros L' r HL'. rewrite HL in HL'. injection HL' as <-.
  cbn. apply andb_true_intro. split; lia.
Qed.

Lemma at24_read_loop_within_limits (fuel n : nat) (mmc_mailbox : at24_data)
  (buf off count : Z) (w : World) :
  forallb (chunk_within_limits mmc_mailbox mmc_mailbox_io_limit)
    (trace_of (at24_read_loop fuel n mmc_mailbox buf off count w)) = true.
Proof.
  revert buf off count w.
  induction n as [|n IH]; intros buf off count w; cbn [at24_read_loop];
    destruct (count =? 0); try reflexivity.
  rewrite trace_bind, forallb_app, at24_regmap_read_within_limits.
  cbn [andb]. destruct (result_of _) as [r| |]; [ | reflexivity | reflexivity].
  destruct (s32 r <? 0); [reflexivity | apply IH].
Qed.

Lemma at24_write_loop_within_limits (fuel n : nat) (mmc_mailbox : at24_data)
  (val : list Z) (buf off count : Z) (w : World) :
  0 < page_size mmc_mailbox ->
  0 < write_max mmc_mailbox < 4294967296 ->
  0 <= off -> 0 <= count ->
  off + count + page_size mmc_mailbox <= 4294967296 ->
  forallb (chunk_within_limits mmc_mailbox mmc_mailbox_io_limit)
    (trace_of (at24_write_loop fuel n mmc_mailbox val buf off count w)) = true.
Proof.
  intros Hps Hwm. revert buf off count w.
  induction n as [|n IH]; intros buf off count w H1 H2 H3;
    cbn [at24_write_loop]; destruct (count =? 0) eqn:E0; try reflexivity.
  apply Z.eqb_neq in E0.
  rewrite trace_bind, forallb_app.
  rewrite at24_regmap_write_within_limits by lia. cbn [andb].
  destruct (adjust_write_count_plan mmc_mailbox off count ltac:(lia)
              ltac:(lia) ltac:(lia) Hps Hwm) as (L & HL & Hp1 & _ & Hp2 & _).
  destruct (at24_regmap_write_run fuel mmc_mailbox val (Val buf) off count L w
              HL) as (tr & _ & Hrt).
  destruct (retry_trace_result _ _ _ _ _ _ Hrt) as [Ho | [Ho | Ho]];
    rewrite Ho.
  - reflexivity.
  - destruct (s32 L <? 0) eqn:Es; [reflexivity | ].
    rewrite (s32_nonneg_id L) by lia.
    rewrite (u32_small (off + L)), (u64_small (count - L)) by lia.
    apply IH; lia.
  - rewrite s32_timeout_negative. reflexivity.
Qed.

Lemma transaction_within_limits (fuel : nat) (mmc_mailbox : at24_data)
  (count : Z) (loop : M loop_exit) (w : World) :
  (forall w',
     forallb (chunk_within_limits mmc_mailbox mmc_mailbox_io_limit)
       (trace_of (loop w')) = true) ->
  forallb (chunk_within_limits mmc_mailbox mmc_mailbox_io_limit)
    (trace_of
       (bind mutex_lock (fun _ =>
        bind (lock_if_multiple fuel mmc_mailbox count) (fun locked =>
        bind loop (fun e =>
          match e with
          | LoopReturn r' => ret r'
          | LoopDone =>
              bind (unlock_if_locked fuel mmc_mailbox locked) (fun _ =>
              bind mutex_unlock (fun _ =>
              bind do_pm_runtime_put (fun _ => ret 0)))
          end))) w)) = true.
Proof.
  intros Hloop.
  assert (Hlock : forall w',
            forallb (chunk_within_limits mmc_mailbox mmc_mailbox_io_limit)
              (trace_of (lock_if_multiple fuel mmc_mailbox count w')) = true).
  { intros w'. unfold lock_if_multiple. destruct (count <=? 1);
      [reflexivity | ].
    rewrite trace_bind, forallb_app, at24_regmap_write_tmp_within_limits.
    destruct (result_of _); reflexivity. }
  assert (Hunlock : forall locked w',
            forallb (chunk_within_limits mmc_mailbox mmc_mailbox_io_limit)
              (trace_of (unlock_if_locked fuel mmc_mailbox locked w')) = true).
  { intros locked w'. unfold unlock_if_locked. destruct (negb locked);
      [reflexivity | ].
    rewrite trace_bind, forallb_app, at24_regmap_write_tmp_within_limits.
    destruct (result_of _); reflexivity. }
  rewrite trace_bind.
  cbn [mutex_lock emit result_of trace_of world_of fst snd app forallb
       chunk_within_limits andb].
  rewrite trace_bind, forallb_app, Hlock. cbn [andb].
  destruct (result_of (lock_if_multiple fuel mmc_mailbox count w))
    as [locked| |]; [ | reflexivity | reflexivity].
  rewrite trace_bind, forallb_app, Hloop. cbn [andb].
  destruct (result_of (loop _)) as [[|r']| |]; try reflexivity.
  rewrite trace_bind, forallb_app, Hunlock. cbn [andb].
  destruct (result_of (unlock_if_locked _ _ _ _)); reflexivity.
Qed.

(** X4.  For an instance with [page_size > 0], [write_max > 0] and
    [byte_len + page_size <= 2^32], every raw read that [at24_read] makes
    on the caller's buffer is at most [io_limit] bytes long, and every raw
    write that [at24_write] makes on the caller's buffer is at most
    [write_max] bytes long and lies on a single page. *)
Theorem transfers_within_size_limits (fuel : nat)
  (mmc_mailbox : at24_data) (off : Z) (val : list Z) (count : Z)
  (w : World) :
  0 < page_size mmc_mailbox ->
  0 < write_max mmc_mailbox < 4294967296 ->
  byte_len mmc_mailbox + page_size mmc_mailbox <= 4294967296 ->
  0 <= off -> 0 <= count ->
  off + count < 18446744073709551616 ->
  forallb (chunk_within_limits mmc_mailbox mmc_mailbox_io_limit)
    (trace_of (at24_read fuel mmc_mailbox off count w)) = true /\
  forallb (chunk_within_limits mmc_mailbox mmc_mailbox_io_limit)
    (trace_of (at24_write fuel mmc_mailbox off val count w)) = true.
Proof.
  intros Hps Hwm Hlen Hoff Hcount Hsum. split.
  - unfold at24_read. destruct (count =? 0); [reflexivity | ].
    destruct (u64 (off + count) >? byte_len mmc_mailbox); [reflexivity | ].
    rewrite trace_bind, forallb_app. unfold do_pm_runtime_get_sync.
    destruct (pm_runtime_get_sync w) as [r w1].
    cbn [result_of trace_of world_of fst snd forallb chunk_within_limits
         andb].
    destruct (r <? 0); [reflexivity | ].
    apply transaction_within_limits. intros w'.
    apply at24_read_loop_within_limits.
  - unfold at24_write. destruct (count =? 0); [reflexivity | ].
    rewrite (u64_small (off + count)) by lia.
    destruct (off + count >? byte_len mmc_mailbox) eqn:Eb; [reflexivity | ].
    rewrite trace_bind, forallb_app. unfold do_pm_runtime_get_sync.
    destruct (pm_runtime_get_sync w) as [r w1].
    cbn [result_of trace_of world_of fst snd forallb chunk_within_limits
         andb].
    destruct (r <? 0); [reflexivity | ].
    apply transaction_within_limits. intros w'.
    apply at24_write_loop_within_limits; lia.
Qed.

End Transactions.

(** ** The write planner, exactly *)

(** X5.  When the 32-bit round-up cannot wrap, the write planner returns
    exactly the smallest of the requested count, [write_max] and the
    distance to the next page boundary: a request that fits is sent whole,
    and a chunk is never shorter than it has to be. *)
Theorem at24_adjust_write_count_exact (mmc_mailbox : at24_data)
  (offset count : Z) :
  0 <= offset ->
  offset + page_size mmc_mailbox < 4294967296 ->
  0 <= count ->
  0 < page_size mmc_mailbox ->
  0 <= write_max mmc_mailbox < 4294967296 ->
  at24_adjust_write_count mmc_mailbox offset count =
  Some (Z.min (Z.min count (write_max mmc_mailbox))
          (round_up (offset + 1) (page_size mmc_mailbox) - offset)).
Proof.
  intros Hoff Hwrap Hcount Hps Hwm. unfold at24_adjust_write_count.
  rewrite roundup_no_wrap by lia. f_equal.
  pose proof (round_up_bounds offset (page_size mmc_mailbox) Hps) as Hb.
  set (np := round_up (offset + 1) (page_size mmc_mailbox)) in *.
  set (c := if count >? write_max mmc_mailbox
            then write_max mmc_mailbox else count).
  assert (Hc : c = Z.min count (write_max mmc_mailbox)).
  { unfold c. destruct (count >? write_max mmc_mailbox) eqn:E; lia. }
  rewrite (u64_small (offset + c)) by lia.
  destruct (offset + c >? np) eqn:E.
  - rewrite (u32_small (np - offset)) by lia. lia.
  - lia.
Qed.

Lemma at24_adjust_write_count_exact_witness :
  0 <= 10 /\ 10 + page_size Sim.mailbox < 4294967296 /\ 0 <= 12 /\
  0 < page_size Sim.mailbox /\ 0 <= write_max Sim.mailbox < 4294967296 /\
  at24_adjust_write_count Sim.mailbox 10 12 =
  Some (Z.min (Z.min 12 (write_max Sim.mailbox))
          (round_up (10 + 1) (page_size Sim.mailbox) - 10)).
Proof.
  split; [lia | split; [simpl; lia | split; [lia | ]]].
  split; [simpl; lia | split; [simpl; lia | ]].
  apply (at24_adjust_write_count_exact Sim.mailbox 10 12); simpl; lia.
Defined.

(** ** Wrapping tick counts *)

Lemma u64_add_wrapped (a b : Z) : u64 (u64 a + b) = u64 (a + b).
Proof. unfold u64. Z.div_mod_to_equations. lia. Qed.

Lemma time_before_wrapped (a b : Z) :
  -9223372036854775808 <= a - b < 9223372036854775808 ->
  time_before (u64 a) (u64 b) = (a <? b).
Proof.
  intros H. unfold time_before, s64, u64.
  destruct (a <? b) eqn:E;
    [apply Z.ltb_lt in E; apply Z.ltb_lt
    | apply Z.ltb_ge in E; apply Z.ltb_ge];
    Z.div_mod_to_equations; lia.
Qed.

(** ** The retry budget *)

Section Budget.

Context {World : Type} {K : Kernel World} {P : ModuleParams}.

(** The clock assumptions of the liveness lemmas: an unbounded count of
    ticks behind the wrapping counter, at least one tick and fewer than
    2^62 ticks per attempt with its backoff sleep, and a timeout below
    2^62 ticks. *)
Variable ticks : World -> Z.

Hypothesis jiffies_ticks : forall w, jiffies w = u64 (ticks w).

Hypothesis read_attempt_ticks : forall reg n w,
  0 < ticks (usleep_range 1000 1500 (snd (regmap_bulk_read reg n w)))
      - ticks w < 4611686018427387904.

Hypothesis write_attempt_ticks : forall reg data n w,
  0 < ticks (usleep_range 1000 1500 (snd (regmap_bulk_write reg data n w)))
      - ticks w < 4611686018427387904.

Hypothesis timeout_ticks :
  0 <= msecs_to_jiffies at24_write_timeout < 4611686018427387904.

Lemma at24_regmap_read_loop_budget (fuel : nat) (D : Z) (buf : bufptr)
  (offset count : Z) (w : World) :
  -4611686018427387904 <= ticks w - D < 4611686018427387904 ->
  Z.of_nat (length (transport_calls
     (trace_of (at24_regmap_read_loop fuel (u64 D) buf offset count w))))
  <= Z.max 1 (D - ticks w + 1).
Proof.
  revert w. induction fuel as [|fuel IH]; intros w Hr; [cbn; lia | ].
  cbn [at24_regmap_read_loop].
  unfold bind, read_jiffies, bulk_read, do_usleep_range, ret.
  pose proof (read_attempt_ticks offset count w) as Ht.
  destruct (regmap_bulk_read offset count w) as [[r data] w1].
  cbn [snd] in Ht.
  destruct (r =? 0); [cbn; lia | ].
  rewrite jiffies_ticks, time_before_wrapped by lia.
  destruct (ticks w <? D) eqn:E; [ | cbn; lia].
  apply Z.ltb_lt in E.
  assert (Hr' : -4611686018427387904
                 <= ticks (usleep_range 1000 1500 w1) - D
                 < 4611686018427387904) by lia.
  specialize (IH (usleep_range 1000 1500 w1) Hr').
  destruct (at24_regmap_read_loop fuel (u64 D) buf offset count
              (usleep_range 1000 1500 w1)) as [[o w2] t2].
  cbn in *. lia.
Qed.

Lemma at24_regmap_write_loop_budget (fuel : nat) (D : Z) (val : list Z)
  (buf : bufptr) (offset count : Z) (w : World) :
  -4611686018427387904 <= ticks w - D < 4611686018427387904 ->
  Z.of_nat (length (transport_calls
     (trace_of (at24_regmap_write_loop fuel (u64 D) val buf offset count w))))
  <= Z.max 1 (D - ticks w + 1).
Proof.
  revert w. induction fuel as [|fuel IH]; intros w Hr; [cbn; lia | ].
  cbn [at24_regmap_write_loop].
  unfold bind, read_jiffies, bulk_write, do_usleep_range, ret.
  pose proof (write_attempt_ticks offset (load val buf count) count w) as Ht.
  destruct (regmap_bulk_write offset (load val buf count) count w) as [r w1].
  cbn [snd] in Ht.
  destruct (r =? 0); [cbn; lia | ].
  rewrite jiffies_ticks, time_before_wrapped by lia.
  destruct (ticks w <? D) eqn:E; [ | cbn; lia].
  apply Z.ltb_lt in E.
  assert (Hr' : -4611686018427387904
                 <= ticks (usleep_range 1000 1500 w1) - D
                 < 4611686018427387904) by lia.
  specialize (IH (usleep_range 1000 1500 w1) Hr').
  destruct (at24_regmap_write_loop fuel (u64 D) val buf offset count
              (usleep_range 1000 1500 w1)) as [[o w2] t2].
  cbn in *. lia.
Qed.

(** X6.  When every attempt with its backoff sleep takes at least one
    tick, one call of a retrying transfer routine makes at most
    [msecs_to_jiffies(write_timeout) + 1] raw transfers, however long the
    run is allowed to go on. *)
Theorem attempts_within_budget (fuel : nat) (mmc_mailbox : at24_data)
  (val : list Z) (buf : bufptr) (offset count : Z) (w : World) :
  Z.of_nat (length (transport_calls
     (trace_of (at24_regmap_read fuel mmc_mailbox buf offset count w))))
  <= msecs_to_jiffies at24_write_timeout + 1 /\
  Z.of_nat (length (transport_calls
     (trace_of (at24_regmap_write fuel mmc_mailbox val buf offset count w))))
  <= msecs_to_jiffies at24_write_timeout + 1.
Proof.
  pose proof timeout_ticks as Hd.
  assert (Hr : -4611686018427387904
               <= ticks w - (ticks w + msecs_to_jiffies at24_write_timeout)
               < 4611686018427387904) by lia.
  split.
  - pose proof (at24_regmap_read_loop_budget fuel
                  (ticks w + msecs_to_jiffies at24_write_timeout) buf offset
                  (at24_adjust_read_count mmc_mailbox offset count) w Hr)
      as H.
    unfold at24_regmap_read, bind, emit, read_jiffies.
    rewrite jiffies_ticks, u64_add_wrapped.
    destruct (at24_regmap_read_loop fuel _ buf offset _ w) as [[o w2] t2].
    cbn in *. lia.
  - unfold at24_regmap_write.
    destruct (at24_adjust_write_count mmc_mailbox offset count) as [L|];
      [ | cbn; lia].
    pose proof (at24_regmap_write_loop_budget fuel
                  (ticks w + msecs_to_jiffies at24_write_timeout) val buf
                  offset L w Hr) as H.
    unfold bind, emit, read_jiffies.
    rewrite jiffies_ticks, u64_add_wrapped.
    destruct (at24_regmap_write_loop fuel _ val buf offset _ w)
      as [[o w2] t2].
    cbn in *. lia.
Qed.

(** X15.  Under the clock assumptions both entry points return on every
    request, given fuel beyond the timeout in ticks and beyond the byte
    count: every retry loop ends when the deadline passes and every
    chunk loop moves forward, so the fuel of the embedding only runs out
    where the clock would stand still. *)
Theorem entry_points_finish (fuel : nat) (mmc_mailbox : at24_data)
  (off : Z) (val : list Z) (count : Z) (w : World) :
  msecs_to_jiffies at24_write_timeout < Z.of_nat fuel ->
  count <= Z.of_nat fuel ->
  0 < mmc_mailbox_io_limit ->
  0 < page_size mmc_mailbox ->
  0 < write_max mmc_mailbox < 4294967296 ->
  byte_len mmc_mailbox + page_size mmc_mailbox <= 4294967296 ->
  0 <= off -> 0 <= count ->
  off + count < 18446744073709551616 ->
  returns (result_of (at24_read fuel mmc_mailbox off count w)) /\
  returns (result_of (at24_write fuel mmc_mailbox off val count w)).
Proof.
  apply (entry_points_return ticks jiffies_ticks read_attempt_ticks
           write_attempt_ticks timeout_ticks).
Qed.

(** A bus on which no transfer ever succeeds. *)
Hypothesis dead_read : forall reg n w,
  fst (fst (regmap_bulk_read reg n w)) <> 0.

Hypothesis dead_write : forall reg data n w,
  fst (regmap_bulk_write reg data n w) <> 0.

Lemma at24_regmap_read_loop_dead (fuel : nat) (timeout : Z) (buf : bufptr)
  (offset count : Z) (w : World) :
  existsb is_success
    (trace_of (at24_regmap_read_loop fuel timeout buf offset count w))
  = false.
Proof.
  revert w. induction fuel as [|fuel IH]; intros w; [reflexivity | ].
  cbn [at24_regmap_read_loop].
  unfold bind, read_jiffies, bulk_read, do_usleep_range, ret.
  pose proof (dead_read offset count w) as Hd.
  destruct (regmap_bulk_read offset count w) as [[r data] w1].
  cbn [fst] in Hd. replace (r =? 0) with false by lia.
  destruct (time_before (jiffies w) timeout).
  - specialize (IH (usleep_range 1000 1500 w1)).
    destruct (at24_regmap_read_loop fuel timeout buf offset count
                (usleep_range 1000 1500 w1)) as [[o w2] t2].
    cbn in *. replace (r =? 0) with false by lia. exact IH.
  - cbn. replace (r =? 0) with false by lia. reflexivity.
Qed.

Lemma at24_regmap_write_loop_dead (fuel : nat) (timeout : Z) (val : list Z)
  (buf : bufptr) (offset count : Z) (w : World) :
  existsb is_success
    (trace_of (at24_regmap_write_loop fuel timeout val buf offset count w))
  = false.
Proof.
  revert w. induction fuel as [|fuel IH]; intros w; [reflexivity | ].
  cbn [at24_regmap_write_loop].
  unfold bind, read_jiffies, bulk_write, do_usleep_range, ret.
  pose proof (dead_write offset (load val buf count) count w) as Hd.
  destruct (regmap_bulk_write offset (load val buf count) count w) as [r w1].
  cbn [fst] in Hd. replace (r =? 0) with false by lia.
  destruct (time_before (jiffies w) timeout).
  - specialize (IH (usleep_range 1000 1500 w1)).
    destruct (at24_regmap_write_loop fuel timeout val buf offset count
                (usleep_range 1000 1500 w1)) as [[o w2] t2].
    cbn in *. replace (r =? 0) with false by lia. exact IH.
  - cbn. replace (r =? 0) with false by lia. reflexivity.
Qed.

Lemma at24_regmap_read_dead (fuel : nat) (mmc_mailbox : at24_data)
  (buf : bufptr) (offset count : Z) (w : World) :
  msecs_to_jiffies at24_write_timeout < Z.of_nat fuel ->
  result_of (at24_regmap_read fuel mmc_mailbox buf offset count w)
  = Done (- ETIMEDOUT).
Proof.
  intros Hf.
  pose proof (at24_regmap_read_terminates ticks jiffies_ticks
                read_attempt_ticks timeout_ticks fuel mmc_mailbox buf offset
                count w Hf) as Hterm.
  pose proof (at24_regmap_read_loop_trace fuel
                (u64 (jiffies w + msecs_to_jiffies at24_write_timeout)) []
                buf offset (at24_adjust_read_count mmc_mailbox offset count) w)
    as Hrt.
  pose proof (at24_regmap_read_loop_dead fuel
                (u64 (jiffies w + msecs_to_jiffies at24_write_timeout))
                buf offset (at24_adjust_read_count mmc_mailbox offset count) w)
    as Hdead.
  unfold at24_regmap_read, bind, emit, read_jiffies in *.
  destruct (at24_regmap_read_loop fuel _ buf offset _ w) as [[o w2] t2].
  cbn in *. destruct Hterm as [x ->].
  destruct (retry_trace_success _ _ _ _ _ _
              (is_attempt_success _ _ _ _ _) Hrt x eq_refl)
    as [[Hs _] | [_ ->]]; [congruence | reflexivity].
Qed.

Lemma at24_regmap_write_dead (fuel : nat) (mmc_mailbox : at24_data)
  (val : list Z) (buf : bufptr) (offset count : Z) (w : World) :
  msecs_to_jiffies at24_write_timeout < Z.of_nat fuel ->
  page_size mmc_mailbox <> 0 ->
  result_of (at24_regmap_write fuel mmc_mailbox val buf offset count w)
  = Done (- ETIMEDOUT).
Proof.
  intros Hf Hps.
  pose proof (at24_regmap_write_terminates ticks jiffies_ticks
                write_attempt_ticks timeout_ticks fuel mmc_mailbox val buf
                offset count w Hf Hps) as Hterm.
  destruct (proj2 (at24_adjust_write_count_defined mmc_mailbox offset count)
              Hps) as [L HL].
  pose proof (at24_regmap_write_loop_trace fuel
                (u64 (jiffies w + msecs_to_jiffies at24_write_timeout)) val
                buf offset L w) as Hrt.
  pose proof (at24_regmap_write_loop_dead fuel
                (u64 (jiffies w + msecs_to_jiffies at24_write_timeout)) val
                buf offset L w) as Hdead.
  unfold at24_regmap_write in *. rewrite HL in *.
  unfold bind, emit, read_jiffies in *.
  destruct (at24_regmap_write_loop fuel _ val buf offset _ w)
    as [[o w2] t2].
  cbn in *. destruct Hterm as [x ->].
  destruct (retry_trace_success _ _ _ _ _ _
              (is_attempt_success _ _ _ _ _) Hrt x eq_refl)
    as [[Hs _] | [_ ->]]; [congruence | reflexivity].
Qed.

Lemma lock_if_multiple_dead (fuel : nat) (mmc_mailbox : at24_data)
  (count : Z) (w : World) :
  msecs_to_jiffies at24_write_timeout < Z.of_nat fuel ->
  page_size mmc_mailbox <> 0 ->
  result_of (lock_if_multiple fuel mmc_mailbox count w)
  = Done (negb (count <=? 1)).
Proof.
  intros Hf Hps. unfold lock_if_multiple.
  destruct (count <=? 1); [reflexivity | ].
  rewrite result_bind, at24_regmap_write_dead by assumption. reflexivity.
Qed.

Lemma at24_read_loop_dead (fuel n : nat) (mmc_mailbox : at24_data)
  (buf off count : Z) (w : World) :
  msecs_to_jiffies at24_write_timeout < Z.of_nat fuel ->
  count <> 0 ->
  result_of (at24_read_loop fuel (S n) mmc_mailbox buf off count w)
  = Done (LoopReturn (- ETIMEDOUT)).
Proof.
  intros Hf Hc. cbn [at24_read_loop].
  replace (count =? 0) with false by lia.
  rewrite result_bind, at24_regmap_read_dead by exact Hf.
  rewrite s32_timeout_negative. reflexivity.
Qed.

Lemma at24_write_loop_dead (fuel n : nat) (mmc_mailbox : at24_data)
  (val : list Z) (buf off count : Z) (w : World) :
  msecs_to_jiffies at24_write_timeout < Z.of_nat fuel ->
  page_size mmc_mailbox <> 0 ->
  count <> 0 ->
  result_of (at24_write_loop fuel (S n) mmc_mailbox val buf off count w)
  = Done (LoopReturn (- ETIMEDOUT)).
Proof.
  intros Hf Hps Hc. cbn [at24_write_loop].
  replace (count =? 0) with false by lia.
  rewrite result_bind, at24_regmap_write_dead by assumption.
  rewrite s32_timeout_negative. reflexivity.
Qed.

(** X7.  On a bus where no transfer ever succeeds and the clock advances,
    for an instance with [page_size > 0], a non-empty request that passes
    the bounds check and the runtime-PM resume ends with [-ETIMEDOUT] from
    both entry points, given fuel beyond the timeout in ticks: the call
    does not hang, and the failed lock-set write does not change the
    result. *)
Theorem dead_bus_times_out (fuel : nat) (mmc_mailbox : at24_data)
  (off : Z) (val : list Z) (count : Z) (w : World) :
  msecs_to_jiffies at24_write_timeout < Z.of_nat fuel ->
  0 < page_size mmc_mailbox ->
  count <> 0 ->
  u64 (off + count) <= byte_len mmc_mailbox ->
  0 <= fst (pm_runtime_get_sync w) ->
  result_of (at24_read fuel mmc_mailbox off count w) = Done (- ETIMEDOUT) /\
  result_of (at24_write fuel mmc_mailbox off val count w)
    = Done (- ETIMEDOUT).
Proof.
  intros Hf Hps Hc Hb Hpm.
  assert (Hps' : page_size mmc_mailbox <> 0) by lia.
  pose proof timeout_ticks as Hd.
  destruct fuel as [|n]; [cbn in Hf; lia | ].
  split.
  - unfold at24_read.
    replace (count =? 0) with false by lia.
    replace (u64 (off + count) >? byte_len mmc_mailbox) with false by lia.
    rewrite result_bind. unfold do_pm_runtime_get_sync.
    destruct (pm_runtime_get_sync w) as [r0 w1].
    cbn [result_of trace_of world_of fst snd] in *.
    replace (r0 <? 0) with false by lia.
    rewrite result_bind.
    cbn [mutex_lock emit result_of trace_of world_of fst snd].
    rewrite result_bind, lock_if_multiple_dead by assumption.
    rewrite result_bind, at24_read_loop_dead by assumption.
    reflexivity.
  - unfold at24_write.
    replace (count =? 0) with false by lia.
    replace (u64 (off + count) >? byte_len mmc_mailbox) with false by lia.
    rewrite result_bind. unfold do_pm_runtime_get_sync.
    destruct (pm_runtime_get_sync w) as [r0 w1].
    cbn [result_of trace_of world_of fst snd] in *.
    replace (r0 <? 0) with false by lia.
    rewrite result_bind.
    cbn [mutex_lock emit result_of trace_of world_of fst snd].
    rewrite result_bind, lock_if_multiple_dead by assumption.
    rewrite result_bind, at24_write_loop_dead by assumption.
    reflexivity.
Qed.

End Budget.

(** ** Initialisation, probing and removal *)

Lemma rounddown_pow_of_two_spec (n : Z) :
  0 < n ->
  rounddown_pow_of_two n = 2 ^ Z.log2 n /\
  2 ^ Z.log2 n <= n < 2 * 2 ^ Z.log2 n.
Proof.
  intros Hn. unfold rounddown_pow_of_two.
  pose proof (Z.log2_nonneg n) as Hk.
  rewrite Z.shiftl_1_l.
  destruct (Z.log2_spec n Hn) as [Hlo Hhi].
  rewrite Z.pow_succ_r in Hhi by exact Hk. auto.
Qed.

Section LifecycleProofs.

Context {World : Type} {K : Kernel World} {F : Platform World}
  {P : ModuleParams}.

(** X8.  Module initialisation refuses an I/O limit of zero with
    [-EINVAL] without registering the driver; any other limit is replaced
    by the largest power of two that does not exceed it, the write timeout
    is kept, and the result is that of [i2c_add_driver]. *)
Theorem mmc_mailbox_init_rounds_io_limit (w : World) :
  0 <= mmc_mailbox_io_limit < 4294967296 ->
  (mmc_mailbox_io_limit = 0 ->
   mmc_mailbox_init w = (Done (- EINVAL, P), w, [])) /\
  (mmc_mailbox_io_limit <> 0 ->
   mmc_mailbox_init w
     = (Done (fst (i2c_add_driver w),
              Build_ModuleParams (2 ^ Z.log2 mmc_mailbox_io_limit)
                at24_write_timeout),
        snd (i2c_add_driver w), []) /\
   0 < 2 ^ Z.log2 mmc_mailbox_io_limit <= mmc_mailbox_io_limit /\
   mmc_mailbox_io_limit < 2 * 2 ^ Z.log2 mmc_mailbox_io_limit).
Proof.
  intros Hty. unfold mmc_mailbox_init. split.
  - intros ->. reflexivity.
  - intros Hne. replace (mmc_mailbox_io_limit =? 0) with false by lia.
    assert (Hpos : 0 < mmc_mailbox_io_limit) by lia.
    destruct (rounddown_pow_of_two_spec mmc_mailbox_io_limit Hpos)
      as [Heq Hb].
    pose proof (Z.pow_pos_nonneg 2 (Z.log2 mmc_mailbox_io_limit)
                  eq_refl (Z.log2_nonneg _)) as Hp.
    rewrite Heq, u32_small by lia.
    unfold bind, call, ret.
    destruct (i2c_add_driver w) as [r w1]. cbn [fst snd app].
    split; [reflexivity | lia].
Qed.


Lemma bind_pure {A B : Type} (m : M A) (k : A -> M B) (w w1 : World)
  (a : A) :
  m w = (Done a, w1, []) -> bind m k w = k a w1.
Proof.
  intros H. unfold bind. rewrite H.
  destruct (k a w1) as [[o w2] t2]. reflexivity.
Qed.

Lemma bind_query {A B : Type} (f : World -> A) (k : A -> M B) (w : World) :
  bind (query f) k w = k (f w) w.
Proof. apply bind_pure. reflexivity. Qed.

Lemma bind_call {A B : Type} (f : World -> A * World) (k : A -> M B)
  (w : World) :
  bind (call f) k w = k (fst (f w)) (snd (f w)).
Proof. apply bind_pure. unfold call. destruct (f w). reflexivity. Qed.

Lemma bind_step {B : Type} (f : World -> World) (k : unit -> M B)
  (w : World) :
  bind (step f) k w = k tt (f w).
Proof. apply bind_pure. reflexivity. Qed.

Lemma at24_get_chip_data_run (w : World) :
  at24_get_chip_data w =
  (Done match (if of_match w then of_device_get_match_data w
               else if i2c_match_id w
                    then Some at24_data_dmmc_stamp_mailbox else None) with
        | None => inl (- ENODEV)
        | Some c => inr c
        end, w, []).
Proof.
  unfold at24_get_chip_data. rewrite !bind_query.
  destruct (of_match w).
  - rewrite bind_query. destruct (of_device_get_match_data w); reflexivity.
  - destruct (i2c_match_id w); reflexivity.
Qed.

Lemma probe_run (fuel : nat) (g : globals) (w : World) :
  let x := mmc_mailbox_probe fuel g w in
  let fn_i2c := i2c_check_functionality I2C_FUNC_I2C w in
  let fn_block := i2c_check_functionality I2C_FUNC_SMBUS_WRITE_I2C_BLOCK w in
  let ps :=
    if negb fn_i2c && negb fn_block then 1
    else match device_property_read_u32 Pagesize w with
         | Some v => v
         | None => 16
         end in
  let wm := Z.min (u32 ps) (u32 mmc_mailbox_io_limit) in
  (exists r,
     r < 0 /\ result_of x = Done (r, g, None) /\
     (trace_of x = [] \/ trace_of x = [EvDevErr])) \/
  (exists m w1,
     ps <> 0 /\
     page_size m = u16 ps /\
     write_max m =
       (if negb fn_i2c && (wm >? I2C_SMBUS_BLOCK_MAX)
        then I2C_SMBUS_BLOCK_MAX else wm) /\
     (forall v, device_property_read_u32 Size w = Some v -> byte_len m = v) /\
     (device_property_read_u32 Size w = None -> of_match w = false ->
      byte_len m = chip_byte_len at24_data_dmmc_stamp_mailbox) /\
     match result_of (at24_read fuel m 0 1 w1) with
     | OutOfFuel =>
         result_of x = OutOfFuel /\
         trace_of x = trace_of (at24_read fuel m 0 1 w1)
     | Fault =>
         result_of x = Fault /\
         trace_of x = trace_of (at24_read fuel m 0 1 w1)
     | Done err =>
         if err =? 0 then
           result_of x =
             Done (0,
                   match pm_power_off g with
                   | NoHook => mk_globals MailboxHook (Some m)
                   | _ => g
                   end, Some m) /\
           exists tail,
             trace_of x
               = trace_of (at24_read fuel m 0 1 w1) ++ EvDevInfo :: tail /\
             (tail = [] \/ tail = [EvDevErr])
         else
           result_of x = Done (- ENODEV, g, Some m) /\
           trace_of x = trace_of (at24_read fuel m 0 1 w1)
     end).
Proof.
  cbv zeta. unfold mmc_mailbox_probe.
  rewrite !bind_query, (bind_pure _ _ _ _ _ (at24_get_chip_data_run w)).
  destruct (if of_match w then of_device_get_match_data w
            else if i2c_match_id w
                 then Some at24_data_dmmc_stamp_mailbox else None)
    as [cdata|] eqn:Ecd.
  2: { left. exists (- ENODEV). cbn. unfold ENODEV. repeat split; auto; lia. }
  rewrite !bind_query.
  set (ps := if negb (i2c_check_functionality I2C_FUNC_I2C w) &&
                negb (i2c_check_functionality
                        I2C_FUNC_SMBUS_WRITE_I2C_BLOCK w)
             then 1
             else match device_property_read_u32 Pagesize w with
                  | Some v => v
                  | None => 16
                  end).
  destruct (ps =? 0) eqn:Eps.
  { left. exists (- EINVAL). cbn. unfold EINVAL. repeat split; auto; lia. }
  apply Z.eqb_neq in Eps.
  rewrite bind_call.
  destruct (devm_regmap_init_i2c w) as [r1 w1]. cbn [fst snd].
  destruct (r1 <? 0) eqn:Er1.
  { left. exists r1. cbn. repeat split; auto; lia. }
  rewrite bind_call.
  destruct (devm_kzalloc w1) as [ok w2]. cbn [fst snd].
  destruct ok; cbn [negb].
  2: { left. exists (- ENOMEM). cbn. unfold ENOMEM. repeat split; auto; lia. }
  rewrite bind_call.
  destruct (devm_nvmem_register _ w2) as [r2 w3]. cbn [fst snd].
  destruct (r2 <? 0) eqn:Er2.
  { left. exists r2. cbn. repeat split; auto; lia. }
  rewrite !bind_step.
  right.
  match goal with
  | |- context [bind (at24_read fuel ?m 0 1) _ ?w'] => exists m, w'
  end.
  split; [exact Eps | ].
  split; [reflexivity | ].
  split; [reflexivity | ].
  split; [intros v Hv; cbn; rewrite Hv; reflexivity | ].
  split.
  { intros Hsz Hof. cbn. rewrite Hsz. rewrite Hof in Ecd.
    destruct (i2c_match_id w); [ | discriminate].
    injection Ecd as <-. reflexivity. }
  rewrite trace_bind, result_bind.
  destruct (result_of (at24_read fuel _ 0 1 _)) as [err| |].
  - rewrite bind_step.
    destruct (err =? 0); cbn [negb].
    + destruct (pm_power_off g); cbn.
      * split; [reflexivity | ]. exists []. auto.
      * split; [reflexivity | ]. exists [EvDevErr]. auto.
      * split; [reflexivity | ]. exists [EvDevErr]. auto.
    + rewrite bind_step. cbn. rewrite app_nil_r. split; reflexivity.
  - rewrite app_nil_r. split; reflexivity.
  - rewrite app_nil_r. split; reflexivity.
Qed.

(** X9.  When the page-size property, if present, is below 65536 and the
    I/O limit is positive, the instance a probe hands to the I2C core has
    [0 < page_size], [0 < write_max <= page_size] and
    [write_max <= io_limit]; without plain I2C functionality [write_max]
    is at most [I2C_SMBUS_BLOCK_MAX]; and a size property, if present, is
    taken as [byte_len]. *)
Theorem probed_instance_is_well_formed (fuel : nat) (g g' : globals)
  (w : World) (r : Z) (m : at24_data) :
  0 < mmc_mailbox_io_limit < 4294967296 ->
  (forall v, device_property_read_u32 Pagesize w = Some v -> 0 <= v < 65536) ->
  result_of (mmc_mailbox_probe fuel g w) = Done (r, g', Some m) ->
  0 < page_size m < 65536 /\
  0 < write_max m <= page_size m /\
  write_max m <= mmc_mailbox_io_limit /\
  (i2c_check_functionality I2C_FUNC_I2C w = false ->
   write_max m <= I2C_SMBUS_BLOCK_MAX) /\
  (forall v, device_property_read_u32 Size w = Some v -> byte_len m = v).
Proof.
  intros Hl Hprop Hres.
  destruct (probe_run fuel g w) as [(r0 & _ & Hr0 & _) | Hrun].
  { rewrite Hr0 in Hres. discriminate. }
  destruct Hrun as (m0 & w1 & Hps & Hpage & Hwm & Hsize & _ & Hy).
  assert (Hm : m0 = m).
  { destruct (result_of (at24_read fuel m0 0 1 w1)) as [err| |].
    - destruct (err =? 0); destruct Hy as [Hy _]; rewrite Hy in Hres;
        congruence.
    - destruct Hy as [Hy _]. rewrite Hy in Hres. discriminate.
    - destruct Hy as [Hy _]. rewrite Hy in Hres. discriminate. }
  subst m0. clear Hy.
  set (ps := if negb (i2c_check_functionality I2C_FUNC_I2C w) &&
                negb (i2c_check_functionality
                        I2C_FUNC_SMBUS_WRITE_I2C_BLOCK w)
             then 1
             else match device_property_read_u32 Pagesize w with
                  | Some v => v
                  | None => 16
                  end) in *.
  assert (Hrange : 0 < ps < 65536).
  { unfold ps in *.
    destruct (negb _ && negb _); [lia | ].
    destruct (device_property_read_u32 Pagesize w) as [v|];
      [specialize (Hprop v eq_refl) | ]; lia. }
  assert (Hu16 : u16 ps = ps) by (unfold u16; apply Z.mod_small; lia).
  rewrite (u32_small ps), (u32_small mmc_mailbox_io_limit) in Hwm by lia.
  rewrite Hpage, Hwm, Hu16. unfold I2C_SMBUS_BLOCK_MAX.
  split; [lia | ].
  destruct (i2c_check_functionality I2C_FUNC_I2C w); cbn [negb andb].
  - split; [lia | split; [lia | split; [intros; discriminate | exact Hsize]]].
  - destruct (Z.min ps mmc_mailbox_io_limit >? 32) eqn:E;
      (split; [lia | split; [lia | split; [intros; lia | exact Hsize]]]).
Qed.

Lemma test_read_loop_events (fuel n : nat) (mmc_mailbox : at24_data)
  (w : World) :
  0 < mmc_mailbox_io_limit ->
  forallb probe_event_ok
    (trace_of (at24_read_loop fuel n mmc_mailbox 0 0 1 w)) = true.
Proof.
  intros Hl. destruct n as [|n]; [reflexivity | ].
  cbn [at24_read_loop]. change (1 =? 0) with false. cbv iota.
  rewrite trace_bind, forallb_app.
  assert (Hp : at24_adjust_read_count mmc_mailbox 0 1 = 1).
  { unfold at24_adjust_read_count.
    destruct (1 >? mmc_mailbox_io_limit) eqn:E; lia. }
  destruct (at24_regmap_read_run fuel mmc_mailbox [] (Val 0) 0 1 w)
    as (tr & Htr & Hrt).
  rewrite Hp in Hrt. rewrite Htr.
  assert (Hok : forallb probe_event_ok tr = true).
  { eapply retry_trace_forallb; [ | | | exact Hrt]; try reflexivity.
    intros e r [data ->]. reflexivity. }
  cbn [forallb probe_event_ok]. rewrite Hok. cbn [andb Z.eqb].
  destruct (retry_trace_result _ _ _ _ _ _ Hrt) as [Ho | [Ho | Ho]];
    rewrite Ho.
  - reflexivity.
  - change (s32 1 <? 0) with false. cbv iota.
    change (u64 (1 - s32 1)) with 0.
    destruct n; reflexivity.
  - rewrite s32_timeout_negative. reflexivity.
Qed.

Lemma test_read_events (fuel : nat) (mmc_mailbox : at24_data) (w : World) :
  0 < mmc_mailbox_io_limit ->
  forallb probe_event_ok (trace_of (at24_read fuel mmc_mailbox 0 1 w)) = true.
Proof.
  intros Hl. unfold at24_read. change (1 =? 0) with false. cbv iota.
  destruct (u64 (0 + 1) >? byte_len mmc_mailbox); [reflexivity | ].
  rewrite trace_bind, forallb_app. unfold do_pm_runtime_get_sync.
  destruct (pm_runtime_get_sync w) as [r w1].
  cbn [result_of trace_of world_of fst snd forallb probe_event_ok andb].
  destruct (r <? 0); [reflexivity | ].
  rewrite trace_bind.
  cbn [mutex_lock emit result_of trace_of world_of fst snd app forallb
       probe_event_ok andb].
  unfold lock_if_multiple. change (1 <=? 1) with true. cbv iota.
  rewrite trace_bind.
  cbn [ret result_of trace_of world_of fst snd app].
  rewrite trace_bind, forallb_app, test_read_loop_events by exact Hl.
  cbn [andb].
  destruct (result_of (at24_read_loop _ _ _ _ _ _ _)) as [[|r']| |];
    reflexivity.
Qed.

(** X10.  With a positive I/O limit, whatever the platform answers, the
    only thing a probe does on the bus is to read one byte at offset 0:
    it makes no raw write, takes no page lock, and every call of a
    transfer routine and every raw transfer is that one-byte read. *)
Theorem probe_only_reads_first_byte (fuel : nat) (g : globals) (w : World) :
  0 < mmc_mailbox_io_limit ->
  forallb probe_event_ok (trace_of (mmc_mailbox_probe fuel g w)) = true.
Proof.
  intros Hl.
  destruct (probe_run fuel g w) as [(r0 & _ & _ & [-> | ->]) | Hrun];
    try reflexivity.
  destruct Hrun as (m & w1 & _ & _ & _ & _ & _ & Hy).
  pose proof (test_read_events fuel m w1 Hl) as Hok.
  destruct (result_of (at24_read fuel m 0 1 w1)) as [err| |].
  - destruct (err =? 0).
    + destruct Hy as [_ (tail & -> & [-> | ->])];
        rewrite forallb_app, Hok; reflexivity.
    + destruct Hy as [_ ->]. exact Hok.
  - destruct Hy as [_ ->]. exact Hok.
  - destruct Hy as [_ ->]. exact Hok.
Qed.

Lemma probe_globals (fuel : nat) (g g' : globals)
  (w : World) (r : Z) (om : option at24_data) :
  result_of (mmc_mailbox_probe fuel g w) = Done (r, g', om) ->
  (r = 0 -> pm_power_off g = NoHook ->
   exists m, om = Some m /\ g' = mk_globals MailboxHook (Some m)) /\
  (r <> 0 \/ pm_power_off g <> NoHook -> g' = g).
Proof.
  intros Hres.
  destruct (probe_run fuel g w) as [(r0 & Hneg & Hr0 & _) | Hrun].
  { rewrite Hr0 in Hres. injection Hres as <- <- <-.
    split; [intros; lia | reflexivity]. }
  destruct Hrun as (m & w1 & _ & _ & _ & _ & _ & Hy).
  destruct (result_of (at24_read fuel m 0 1 w1)) as [err| |].
  - destruct (err =? 0).
    + destruct Hy as [Hy _]. rewrite Hy in Hres.
      injection Hres as <- <- <-. split.
      * intros _ Hfree. rewrite Hfree. exists m. auto.
      * intros [Hne | Hne]; [contradiction | ].
        destruct (pm_power_off g); [contradiction | | ]; reflexivity.
    + destruct Hy as [Hy _]. rewrite Hy in Hres.
      injection Hres as <- <- <-. unfold ENODEV.
      split; [intros; lia | reflexivity].
  - destruct Hy as [Hy _]. rewrite Hy in Hres. discriminate.
  - destruct Hy as [Hy _]. rewrite Hy in Hres. discriminate.
Qed.

(** X11.  A finished probe installs the power-off hook, together with its
    instance, exactly when it returns 0 and no hook was installed before;
    in every other case, a failed probe or a hook already present, this
    driver's or another, the two globals are left as they were. *)
Theorem probe_registers_only_a_free_hook (fuel : nat) (g g' : globals)
  (w : World) (r : Z) (om : option at24_data) :
  result_of (mmc_mailbox_probe fuel g w) = Done (r, g', om) ->
  (r = 0 -> pm_power_off g = NoHook ->
   exists m, om = Some m /\ g' = mk_globals MailboxHook (Some m)) /\
  (r <> 0 \/ pm_power_off g <> NoHook -> g' = g).
Proof. apply probe_globals. Qed.

Lemma mmc_mailbox_remove_run (g : globals) (w : World) :
  mmc_mailbox_remove g w =
  (Done match pm_power_off g with
        | MailboxHook => mk_globals NoHook (mmc_mb_pwroff_inst g)
        | _ => g
        end,
   pm_runtime_set_suspended (pm_runtime_disable w), []).
Proof.
  unfold mmc_mailbox_remove. rewrite !bind_step.
  destruct (pm_power_off g); reflexivity.
Qed.

(** X12.  Probing and removing keep the rule that the globals never name
    this driver's hook without an instance for it; so when
    [mmc_mailbox_do_poweroff] runs as the installed hook it finds its
    instance and writes the shutdown flag. *)
Theorem hook_always_has_instance (fuel : nat) (g g' : globals)
  (w : World) (r : Z) (om : option at24_data) :
  hook_has_instance g ->
  (result_of (mmc_mailbox_probe fuel g w) = Done (r, g', om) ->
   hook_has_instance g') /\
  (result_of (mmc_mailbox_remove g w) = Done g' -> hook_has_instance g') /\
  (pm_power_off g = MailboxHook ->
   exists e,
     trace_of (mmc_mailbox_do_poweroff (mmc_mb_pwroff_inst g) w) =
       [EvDevInfo;
        EvBulkWrite MB_FPGA_STATUS_OFFS (Tmp MB_FPGA_STATUS_SHDN_FINISHED) 1
          [MB_FPGA_STATUS_SHDN_FINISHED] e;
        EvMdelay 1000; EvWarnOn]).
Proof.
  intros Hinv. split; [ | split].
  - intros Hres.
    destruct (probe_globals fuel g g' w r om Hres)
      as [Hreg Hkeep].
    destruct (Z.eq_dec r 0) as [Hr | Hr].
    + destruct (pm_power_off g) eqn:Eh.
      * destruct (Hreg Hr eq_refl) as (m & _ & ->).
        intros _. discriminate.
      * rewrite Hkeep by (right; discriminate). exact Hinv.
      * rewrite Hkeep by (right; discriminate). exact Hinv.
    + rewrite Hkeep by (left; exact Hr). exact Hinv.
  - rewrite mmc_mailbox_remove_run. cbn. intros Hres.
    injection Hres as <-. unfold hook_has_instance in *.
    destruct (pm_power_off g) eqn:Eh; cbn; intros H; congruence.
  - intros Hh. destruct (mmc_mb_pwroff_inst g) as [inst|] eqn:Ei.
    + unfold mmc_mailbox_do_poweroff, bind, emit, bulk_write, do_mdelay.
      change (load [] (Tmp MB_FPGA_STATUS_SHDN_FINISHED) 1)
        with [MB_FPGA_STATUS_SHDN_FINISHED].
      destruct (regmap_bulk_write MB_FPGA_STATUS_OFFS
                  [MB_FPGA_STATUS_SHDN_FINISHED] 1 w) as [e w1].
      exists e. reflexivity.
    + exfalso. exact (Hinv Hh Ei).
Qed.

(** X13.  After a probe that registered its hook on free globals, a
    removal makes the hook null again without any bus traffic, and leaves
    the instance recorded for the handshake in place: it still is the
    probed one. *)
Theorem remove_uninstalls_the_hook (fuel : nat) (g g' g'' : globals)
  (w w' : World) (om : option at24_data) :
  pm_power_off g = NoHook ->
  result_of (mmc_mailbox_probe fuel g w) = Done (0, g', om) ->
  result_of (mmc_mailbox_remove g' w') = Done g'' ->
  pm_power_off g'' = NoHook /\
  mmc_mb_pwroff_inst g'' = om /\
  om <> None /\
  trace_of (mmc_mailbox_remove g' w') = [].
Proof.
  intros Hfree Hprobe Hrem.
  destruct (probe_globals fuel g g' w 0 om Hprobe)
    as [Hreg _].
  destruct (Hreg eq_refl Hfree) as (m & -> & ->).
  rewrite mmc_mailbox_remove_run in *. cbn in *.
  injection Hrem as <-. cbn. repeat split. discriminate.
Qed.

Lemma test_read_success (fuel : nat) (mmc_mailbox : at24_data) (w : World) :
  0 < mmc_mailbox_io_limit ->
  result_of (at24_read fuel mmc_mailbox 0 1 w) = Done 0 ->
  data_successes (trace_of (at24_read fuel mmc_mailbox 0 1 w)) <> [].
Proof.
  intros Hl Hres Hnil.
  destruct (at24_read_outcome fuel mmc_mailbox 0 1 w Hl ltac:(lia)
              ltac:(lia) ltac:(lia) ltac:(lia)) as (e & Hcov & _ & Hr).
  rewrite Hnil in Hcov. cbn in Hcov. injection Hcov as <-.
  destruct (Hr 0 Hres) as [[_ He] | [_ [He | [He | [He _]]]]];
    unfold EINVAL, ETIMEDOUT in *; lia.
Qed.

(** X14.  A finished probe that got as far as its test read returns 0 or
    [-ENODEV], whatever error the read reported; it returns 0 only if a
    raw read of the test byte succeeded; and a probe that stopped before
    the test read returns a negative error. *)
Theorem probe_succeeds_only_after_test_read (fuel : nat) (g g' : globals)
  (w : World) (r : Z) (om : option at24_data) :
  0 < mmc_mailbox_io_limit ->
  result_of (mmc_mailbox_probe fuel g w) = Done (r, g', om) ->
  (om = None -> r < 0) /\
  (om <> None -> r = 0 \/ r = - ENODEV) /\
  (r = 0 ->
   om <> None /\
   data_successes (trace_of (mmc_mailbox_probe fuel g w)) <> []).
Proof.
  intros Hl Hres.
  destruct (probe_run fuel g w) as [(r0 & Hneg & Hr0 & _) | Hrun].
  { rewrite Hr0 in Hres. injection Hres as <- <- <-.
    split; [intros; lia | split; [intros H; contradiction | intros; lia]]. }
  destruct Hrun as (m & w1 & _ & _ & _ & _ & _ & Hy).
  pose proof (test_read_success fuel m w1 Hl) as Hok.
  destruct (result_of (at24_read fuel m 0 1 w1)) as [err| |].
  - destruct (err =? 0) eqn:Eerr.
    + apply Z.eqb_eq in Eerr. subst err.
      destruct Hy as [Hy (tail & Htr & _)]. rewrite Hy in Hres.
      injection Hres as <- <- <-.
      split; [intros; discriminate | split; [auto | ]].
      intros _. split; [discriminate | ].
      rewrite Htr, data_successes_app. intros Hnil.
      apply app_eq_nil in Hnil. destruct Hnil as [Hnil _].
      exact (Hok eq_refl Hnil).
    + destruct Hy as [Hy _]. rewrite Hy in Hres.
      injection Hres as <- <- <-. unfold ENODEV.
      split; [intros; discriminate | split; [auto | intros; lia]].
  - destruct Hy as [Hy _]. rewrite Hy in Hres. discriminate.
  - destruct Hy as [Hy _]. rewrite Hy in Hres. discriminate.
Qed.

End LifecycleProofs.

(** ** The added properties on the simulated bus *)

Lemma completed_transfer_covers_request_witness :
  0 < @mmc_mailbox_io_limit Sim.params /\
  0 < page_size Sim.mailbox < 65536 /\
  0 < write_max Sim.mailbox < 4294967296 /\
  byte_len Sim.mailbox < 2147483648 /\
  0 <= 10 /\ 0 < 300 /\ 10 + 300 < 18446744073709551616 /\
  covers_request Read 10 300
    (result_of (Sim.read 40 Sim.mailbox 10 300 Sim.flaky))
    (trace_of (Sim.read 40 Sim.mailbox 10 300 Sim.flaky)) /\
  covers_request Write 10 300
    (result_of (Sim.write 40 Sim.mailbox 10 (repeat 85 300%nat) 300
                  Sim.failing_after_one))
    (trace_of (Sim.write 40 Sim.mailbox 10 (repeat 85 300%nat) 300
                 Sim.failing_after_one)).
Proof.
  assert (H1 : 0 < @mmc_mailbox_io_limit Sim.params) by (simpl; lia).
  assert (H2 : 0 < page_size Sim.mailbox < 65536) by (simpl; lia).
  assert (H3 : 0 < write_max Sim.mailbox < 4294967296) by (simpl; lia).
  assert (H4 : byte_len Sim.mailbox < 2147483648) by (simpl; lia).
  assert (H5 : 0 <= 10) by lia.
  assert (H6 : 0 < 300) by lia.
  assert (H7 : 10 + 300 < 18446744073709551616) by lia.
  split; [exact H1 | split; [exact H2 | split; [exact H3 | ]]].
  split; [exact H4 | split; [exact H5 | split; [exact H6 | ]]].
  split; [exact H7 | ].
  split.
  - exact (proj1 (@completed_transfer_covers_request Sim.sim Sim.kernel
                    Sim.params 40 Sim.mailbox 10 [] 300 Sim.flaky
                    H1 H2 H3 H4 H5 H6 H7)).
  - exact (proj2 (@completed_transfer_covers_request Sim.sim Sim.kernel
                    Sim.params 40 Sim.mailbox 10 (repeat 85 300%nat) 300
                    Sim.failing_after_one H1 H2 H3 H4 H5 H6 H7)).
Defined.

Lemma entry_point_results_witness :
  0 < @mmc_mailbox_io_limit Sim.params /\
  0 < page_size Sim.mailbox < 65536 /\
  0 < write_max Sim.mailbox < 4294967296 /\
  byte_len Sim.mailbox < 2147483648 /\
  0 <= 10 /\ 0 <= 20 /\ 10 + 20 < 18446744073709551616 /\
  (result_of (Sim.read 40 Sim.mailbox 10 20 Sim.failing_after_one)
     = Done (- ETIMEDOUT) \/
   result_of (Sim.write 40 Sim.mailbox 10 (repeat 85 20%nat) 20
                Sim.failing_after_one) = Done (- ETIMEDOUT)) /\
  (- ETIMEDOUT = 0 \/ - ETIMEDOUT = - EINVAL \/ - ETIMEDOUT = - ETIMEDOUT \/
   (- ETIMEDOUT < 0 /\
    - ETIMEDOUT = fst (@pm_runtime_get_sync _ Sim.kernel
                         Sim.failing_after_one))).
Proof.
  assert (H1 : 0 < @mmc_mailbox_io_limit Sim.params) by (simpl; lia).
  assert (H2 : 0 < page_size Sim.mailbox < 65536) by (simpl; lia).
  assert (H3 : 0 < write_max Sim.mailbox < 4294967296) by (simpl; lia).
  assert (H4 : byte_len Sim.mailbox < 2147483648) by (simpl; lia).
  assert (H5 : 0 <= 10) by lia.
  assert (H6 : 0 <= 20) by lia.
  assert (H7 : 10 + 20 < 18446744073709551616) by lia.
  assert (H8 : result_of (Sim.read 40 Sim.mailbox 10 20 Sim.failing_after_one)
                 = Done (- ETIMEDOUT) \/
               result_of (Sim.write 40 Sim.mailbox 10 (repeat 85 20%nat) 20
                            Sim.failing_after_one) = Done (- ETIMEDOUT))
    by (left; vm_compute; reflexivity).
  split; [exact H1 | split; [exact H2 | split; [exact H3 | ]]].
  split; [exact H4 | split; [exact H5 | split; [exact H6 | ]]].
  split; [exact H7 | split; [exact H8 | ]].
  exact (@entry_point_results Sim.sim Sim.kernel Sim.params 40 Sim.mailbox
           10 (repeat 85 20%nat) 20 Sim.failing_after_one (- ETIMEDOUT)
           H1 H2 H3 H4 H5 H6 H7 H8).
Defined.

Lemma bus_access_inside_critical_section_witness :
  result_of (Sim.write 40 Sim.mailbox 10 (repeat 85 20%nat) 20 Sim.flaky)
    = Done 0 /\
  critical_section 0
    (trace_of (Sim.write 40 Sim.mailbox 10 (repeat 85 20%nat) 20 Sim.flaky)).
Proof.
  assert (H1 : result_of (Sim.write 40 Sim.mailbox 10 (repeat 85 20%nat) 20
                            Sim.flaky) = Done 0)
    by (vm_compute; reflexivity).
  split; [exact H1 | ].
  exact (proj2 (@bus_access_inside_critical_section Sim.sim Sim.kernel
                  Sim.params 40 Sim.mailbox 10 (repeat 85 20%nat) 20
                  Sim.flaky 0) H1).
Defined.

Lemma transfers_within_size_limits_witness :
  0 < page_size Sim.mailbox /\
  0 < write_max Sim.mailbox < 4294967296 /\
  byte_len Sim.mailbox + page_size Sim.mailbox <= 4294967296 /\
  0 <= 10 /\ 0 <= 300 /\ 10 + 300 < 18446744073709551616 /\
  forallb (chunk_within_limits Sim.mailbox (@mmc_mailbox_io_limit Sim.params))
    (trace_of (Sim.read 40 Sim.mailbox 10 300 Sim.flaky)) = true /\
  forallb (chunk_within_limits Sim.mailbox (@mmc_mailbox_io_limit Sim.params))
    (trace_of (Sim.write 40 Sim.mailbox 10 (repeat 85 300%nat) 300
                 Sim.flaky)) = true.
Proof.
  assert (H1 : 0 < page_size Sim.mailbox) by (simpl; lia).
  assert (H2 : 0 < write_max Sim.mailbox < 4294967296) by (simpl; lia).
  assert (H3 : byte_len Sim.mailbox + page_size Sim.mailbox <= 4294967296)
    by (simpl; lia).
  assert (H4 : 0 <= 10) by lia.
  assert (H5 : 0 <= 300) by lia.
  assert (H6 : 10 + 300 < 18446744073709551616) by lia.
  split; [exact H1 | split; [exact H2 | split; [exact H3 | ]]].
  split; [exact H4 | split; [exact H5 | split; [exact H6 | ]]].
  exact (@transfers_within_size_limits Sim.sim Sim.kernel Sim.params 40
           Sim.mailbox 10 (repeat 85 300%nat) 300 Sim.flaky
           H1 H2 H3 H4 H5 H6).
Defined.

Lemma attempts_within_budget_witness :
  (forall w, @jiffies _ Sim.kernel w = u64 (Sim.clock w)) /\
  (forall reg n w,
     0 < Sim.clock (@usleep_range _ Sim.kernel 1000 1500
                      (snd (@regmap_bulk_read _ Sim.kernel reg n w)))
         - Sim.clock w < 4611686018427387904) /\
  (forall reg data n w,
     0 < Sim.clock (@usleep_range _ Sim.kernel 1000 1500
                      (snd (@regmap_bulk_write _ Sim.kernel reg data n w)))
         - Sim.clock w < 4611686018427387904) /\
  0 <= @msecs_to_jiffies _ Sim.kernel (@at24_write_timeout Sim.params)
    < 4611686018427387904 /\
  Z.of_nat (length (transport_calls
     (trace_of (Sim.regmap_read 40 Sim.mailbox (Val 0) 10 3
                  (Sim.mk_sim 1000 (repeat (-5) 64) 0)))))
  <= @msecs_to_jiffies _ Sim.kernel (@at24_write_timeout Sim.params) + 1 /\
  Z.of_nat (length (transport_calls
     (trace_of (Sim.regmap_write 40 Sim.mailbox [7; 8; 9] (Val 0) 10 3
                  (Sim.mk_sim 1000 (repeat (-5) 64) 0)))))
  <= @msecs_to_jiffies _ Sim.kernel (@at24_write_timeout Sim.params) + 1.
Proof.
  assert (H1 : forall w, @jiffies _ Sim.kernel w = u64 (Sim.clock w))
    by (intros w; reflexivity).
  assert (H2 : forall reg n w,
     0 < Sim.clock (@usleep_range _ Sim.kernel 1000 1500
                      (snd (@regmap_bulk_read _ Sim.kernel reg n w)))
         - Sim.clock w < 4611686018427387904)
    by (intros reg n w; simpl; lia).
  assert (H3 : forall reg data n w,
     0 < Sim.clock (@usleep_range _ Sim.kernel 1000 1500
                      (snd (@regmap_bulk_write _ Sim.kernel reg data n w)))
         - Sim.clock w < 4611686018427387904)
    by (intros reg data n w; simpl; lia).
  assert (H4 : 0 <= @msecs_to_jiffies _ Sim.kernel
                      (@at24_write_timeout Sim.params)
               < 4611686018427387904) by (simpl; lia).
  split; [exact H1 | split; [exact H2 | split; [exact H3 | ]]].
  split; [exact H4 | ].
  exact (@attempts_within_budget Sim.sim Sim.kernel Sim.params Sim.clock
           H1 H2 H3 H4 40 Sim.mailbox [7; 8; 9] (Val 0) 10 3
           (Sim.mk_sim 1000 (repeat (-5) 64) 0)).
Defined.

Lemma entry_points_finish_witness :
  (forall w, @jiffies _ Sim.kernel w = u64 (Sim.clock w)) /\
  (forall reg n w,
     0 < Sim.clock (@usleep_range _ Sim.kernel 1000 1500
                      (snd (@regmap_bulk_read _ Sim.kernel reg n w)))
         - Sim.clock w < 4611686018427387904) /\
  (forall reg data n w,
     0 < Sim.clock (@usleep_range _ Sim.kernel 1000 1500
                      (snd (@regmap_bulk_write _ Sim.kernel reg data n w)))
         - Sim.clock w < 4611686018427387904) /\
  0 <= @msecs_to_jiffies _ Sim.kernel (@at24_write_timeout Sim.params)
    < 4611686018427387904 /\
  @msecs_to_jiffies _ Sim.kernel (@at24_write_timeout Sim.params)
    < Z.of_nat 40 /\
  20 <= Z.of_nat 40 /\
  0 < @mmc_mailbox_io_limit Sim.params /\
  0 < page_size Sim.mailbox /\
  0 < write_max Sim.mailbox < 4294967296 /\
  byte_len Sim.mailbox + page_size Sim.mailbox <= 4294967296 /\
  0 <= 10 /\ 0 <= 20 /\ 10 + 20 < 18446744073709551616 /\
  returns (result_of (Sim.read 40 Sim.mailbox 10 20 Sim.flaky)) /\
  returns (result_of (Sim.write 40 Sim.mailbox 10 (repeat 85 20%nat) 20
                        Sim.flaky)).
Proof.
  assert (H1 : forall w, @jiffies _ Sim.kernel w = u64 (Sim.clock w))
    by (intros w; reflexivity).
  assert (H2 : forall reg n w,
     0 < Sim.clock (@usleep_range _ Sim.kernel 1000 1500
                      (snd (@regmap_bulk_read _ Sim.kernel reg n w)))
         - Sim.clock w < 4611686018427387904)
    by (intros reg n w; simpl; lia).
  assert (H3 : forall reg data n w,
     0 < Sim.clock (@usleep_range _ Sim.kernel 1000 1500
                      (snd (@regmap_bulk_write _ Sim.kernel reg data n w)))
         - Sim.clock w < 4611686018427387904)
    by (intros reg data n w; simpl; lia).
  assert (H4 : 0 <= @msecs_to_jiffies _ Sim.kernel
                      (@at24_write_timeout Sim.params)
               < 4611686018427387904) by (simpl; lia).
  assert (H5 : @msecs_to_jiffies _ Sim.kernel (@at24_write_timeout Sim.params)
               < Z.of_nat 40) by (simpl; lia).
  assert (H6 : 20 <= Z.of_nat 40) by lia.
  assert (H7 : 0 < @mmc_mailbox_io_limit Sim.params) by (simpl; lia).
  assert (H8 : 0 < page_size Sim.mailbox) by (simpl; lia).
  assert (H9 : 0 < write_max Sim.mailbox < 4294967296) by (simpl; lia).
  assert (H10 : byte_len Sim.mailbox + page_size Sim.mailbox <= 4294967296)
    by (simpl; lia).
  assert (H11 : 0 <= 10) by lia.
  assert (H12 : 0 <= 20) by lia.
  assert (H13 : 10 + 20 < 18446744073709551616) by lia.
  split; [exact H1 | split; [exact H2 | split; [exact H3 | ]]].
  split; [exact H4 | split; [exact H5 | split; [exact H6 | ]]].
  split; [exact H7 | split; [exact H8 | split; [exact H9 | ]]].
  split; [exact H10 | split; [exact H11 | split; [exact H12 | ]]].
  split; [exact H13 | ].
  exact (@entry_points_finish Sim.sim Sim.kernel Sim.params Sim.clock
           H1 H2 H3 H4 40 Sim.mailbox 10 (repeat 85 20%nat) 20 Sim.flaky
           H5 H6 H7 H8 H9 H10 H11 H12 H13).
Defined.

Lemma dead_bus_times_out_witness :
  (forall w, @jiffies _ SimPlatform.dead_kernel w = u64 (Sim.clock w)) /\
  (forall reg n w,
     0 < Sim.clock (@usleep_range _ SimPlatform.dead_kernel 1000 1500
                      (snd (@regmap_bulk_read _ SimPlatform.dead_kernel
                              reg n w)))
         - Sim.clock w < 4611686018427387904) /\
  (forall reg data n w,
     0 < Sim.clock (@usleep_range _ SimPlatform.dead_kernel 1000 1500
                      (snd (@regmap_bulk_write _ SimPlatform.dead_kernel
                              reg data n w)))
         - Sim.clock w < 4611686018427387904) /\
  0 <= @msecs_to_jiffies _ SimPlatform.dead_kernel
         (@at24_write_timeout Sim.params) < 4611686018427387904 /\
  (forall reg n w,
     fst (fst (@regmap_bulk_read _ SimPlatform.dead_kernel reg n w)) <> 0) /\
  (forall reg data n w,
     fst (@regmap_bulk_write _ SimPlatform.dead_kernel reg data n w) <> 0) /\
  @msecs_to_jiffies _ SimPlatform.dead_kernel (@at24_write_timeout Sim.params)
    < Z.of_nat 40 /\
  0 < page_size Sim.mailbox /\
  20 <> 0 /\
  u64 (10 + 20) <= byte_len Sim.mailbox /\
  0 <= fst (@pm_runtime_get_sync _ SimPlatform.dead_kernel Sim.healthy) /\
  result_of (@at24_read _ SimPlatform.dead_kernel Sim.params 40 Sim.mailbox
               10 20 Sim.healthy) = Done (- ETIMEDOUT) /\
  result_of (@at24_write _ SimPlatform.dead_kernel Sim.params 40 Sim.mailbox
               10 (repeat 85 20%nat) 20 Sim.healthy) = Done (- ETIMEDOUT).
Proof.
  assert (H1 : forall w,
             @jiffies _ SimPlatform.dead_kernel w = u64 (Sim.clock w))
    by (intros w; reflexivity).
  assert (H2 : forall reg n w,
     0 < Sim.clock (@usleep_range _ SimPlatform.dead_kernel 1000 1500
                      (snd (@regmap_bulk_read _ SimPlatform.dead_kernel
                              reg n w)))
         - Sim.clock w < 4611686018427387904)
    by (intros reg n w; simpl; lia).
  assert (H3 : forall reg data n w,
     0 < Sim.clock (@usleep_range _ SimPlatform.dead_kernel 1000 1500
                      (snd (@regmap_bulk_write _ SimPlatform.dead_kernel
                              reg data n w)))
         - Sim.clock w < 4611686018427387904)
    by (intros reg data n w; simpl; lia).
  assert (H4 : 0 <= @msecs_to_jiffies _ SimPlatform.dead_kernel
                      (@at24_write_timeout Sim.params)
               < 4611686018427387904) by (simpl; lia).
  assert (H5 : forall reg n w,
     fst (fst (@regmap_bulk_read _ SimPlatform.dead_kernel reg n w)) <> 0)
    by (intros reg n w; simpl; lia).
  assert (H6 : forall reg data n w,
     fst (@regmap_bulk_write _ SimPlatform.dead_kernel reg data n w) <> 0)
    by (intros reg data n w; simpl; lia).
  assert (H7 : @msecs_to_jiffies _ SimPlatform.dead_kernel
                 (@at24_write_timeout Sim.params) < Z.of_nat 40)
    by (simpl; lia).
  assert (Hps : 0 < page_size Sim.mailbox) by (simpl; lia).
  assert (H8 : 20 <> 0) by lia.
  assert (H9 : u64 (10 + 20) <= byte_len Sim.mailbox)
    by (apply Z.leb_le; reflexivity).
  assert (H10 : 0 <= fst (@pm_runtime_get_sync _ SimPlatform.dead_kernel
                            Sim.healthy)) by (simpl; lia).
  split; [exact H1 | split; [exact H2 | split; [exact H3 | ]]].
  split; [exact H4 | split; [exact H5 | split; [exact H6 | ]]].
  split; [exact H7 | split; [exact Hps | split; [exact H8 | ]]].
  split; [exact H9 | split; [exact H10 | ]].
  exact (@dead_bus_times_out Sim.sim SimPlatform.dead_kernel Sim.params
           Sim.clock H1 H2 H3 H4 H5 H6 40 Sim.mailbox 10 (repeat 85 20%nat)
           20 Sim.healthy H7 Hps H8 H9 H10).
Defined.

Lemma mmc_mailbox_init_rounds_io_limit_witness :
  0 <= @mmc_mailbox_io_limit SimPlatform.odd_params < 4294967296 /\
  @mmc_mailbox_io_limit SimPlatform.odd_params <> 0 /\
  @mmc_mailbox_init _ SimPlatform.platform SimPlatform.odd_params Sim.healthy
    = (Done (fst (@i2c_add_driver _ SimPlatform.platform Sim.healthy),
             Build_ModuleParams
               (2 ^ Z.log2 (@mmc_mailbox_io_limit SimPlatform.odd_params))
               (@at24_write_timeout SimPlatform.odd_params)),
       snd (@i2c_add_driver _ SimPlatform.platform Sim.healthy), []) /\
  0 < 2 ^ Z.log2 (@mmc_mailbox_io_limit SimPlatform.odd_params)
    <= @mmc_mailbox_io_limit SimPlatform.odd_params /\
  @mmc_mailbox_io_limit SimPlatform.odd_params
    < 2 * 2 ^ Z.log2 (@mmc_mailbox_io_limit SimPlatform.odd_params).
Proof.
  assert (H1 : 0 <= @mmc_mailbox_io_limit SimPlatform.odd_params
               < 4294967296) by (simpl; lia).
  assert (H2 : @mmc_mailbox_io_limit SimPlatform.odd_params <> 0)
    by (simpl; lia).
  split; [exact H1 | split; [exact H2 | ]].
  exact (proj2 (@mmc_mailbox_init_rounds_io_limit Sim.sim
                  SimPlatform.platform SimPlatform.odd_params Sim.healthy H1)
           H2).
Defined.

Lemma probed_instance_is_well_formed_witness :
  0 < @mmc_mailbox_io_limit Sim.params < 4294967296 /\
  (forall v,
     @device_property_read_u32 _ SimPlatform.smbus_platform Pagesize
       Sim.healthy = Some v -> 0 <= v < 65536) /\
  result_of (@mmc_mailbox_probe _ Sim.kernel SimPlatform.smbus_platform
               Sim.params 40 SimPlatform.unclaimed Sim.healthy)
    = Done (0, mk_globals MailboxHook (Some (mk_at24_data 32 4096 64)),
            Some (mk_at24_data 32 4096 64)) /\
  0 < page_size (mk_at24_data 32 4096 64) < 65536 /\
  0 < write_max (mk_at24_data 32 4096 64)
    <= page_size (mk_at24_data 32 4096 64) /\
  write_max (mk_at24_data 32 4096 64) <= @mmc_mailbox_io_limit Sim.params /\
  (@i2c_check_functionality _ SimPlatform.smbus_platform I2C_FUNC_I2C
     Sim.healthy = false ->
   write_max (mk_at24_data 32 4096 64) <= I2C_SMBUS_BLOCK_MAX) /\
  (forall v,
     @device_property_read_u32 _ SimPlatform.smbus_platform Size Sim.healthy
       = Some v -> byte_len (mk_at24_data 32 4096 64) = v).
Proof.
  assert (H1 : 0 < @mmc_mailbox_io_limit Sim.params < 4294967296)
    by (simpl; lia).
  assert (H2 : forall v,
     @device_property_read_u32 _ SimPlatform.smbus_platform Pagesize
       Sim.healthy = Some v -> 0 <= v < 65536)
    by (intros v Hv; simpl in Hv; injection Hv as <-; lia).
  assert (H3 : result_of (@mmc_mailbox_probe _ Sim.kernel
                 SimPlatform.smbus_platform Sim.params 40
                 SimPlatform.unclaimed Sim.healthy)
    = Done (0, mk_globals MailboxHook (Some (mk_at24_data 32 4096 64)),
            Some (mk_at24_data 32 4096 64)))
    by (vm_compute; reflexivity).
  split; [exact H1 | split; [exact H2 | split; [exact H3 | ]]].
  exact (@probed_instance_is_well_formed Sim.sim Sim.kernel
           SimPlatform.smbus_platform Sim.params 40 SimPlatform.unclaimed
           (mk_globals MailboxHook (Some (mk_at24_data 32 4096 64)))
           Sim.healthy 0 (mk_at24_data 32 4096 64) H1 H2 H3).
Defined.

Lemma probe_only_reads_first_byte_witness :
  0 < @mmc_mailbox_io_limit Sim.params /\
  forallb probe_event_ok
    (trace_of (SimPlatform.probe 40 SimPlatform.unclaimed Sim.flaky)) = true.
Proof.
  assert (H1 : 0 < @mmc_mailbox_io_limit Sim.params) by (simpl; lia).
  split; [exact H1 | ].
  exact (@probe_only_reads_first_byte Sim.sim Sim.kernel SimPlatform.platform
           Sim.params 40 SimPlatform.unclaimed Sim.flaky H1).
Defined.

Lemma probe_registers_only_a_free_hook_witness :
  result_of (SimPlatform.probe 40 SimPlatform.unclaimed Sim.healthy)
    = Done (0, mk_globals MailboxHook (Some Sim.mailbox), Some Sim.mailbox) /\
  pm_power_off SimPlatform.unclaimed = NoHook /\
  exists m, Some Sim.mailbox = Some m /\
            mk_globals MailboxHook (Some Sim.mailbox)
              = mk_globals MailboxHook (Some m).
Proof.
  assert (H1 : result_of (SimPlatform.probe 40 SimPlatform.unclaimed
                            Sim.healthy)
    = Done (0, mk_globals MailboxHook (Some Sim.mailbox), Some Sim.mailbox))
    by (vm_compute; reflexivity).
  assert (H2 : pm_power_off SimPlatform.unclaimed = NoHook) by reflexivity.
  split; [exact H1 | split; [exact H2 | ]].
  exact (proj1 (@probe_registers_only_a_free_hook Sim.sim Sim.kernel
                  SimPlatform.platform Sim.params 40 SimPlatform.unclaimed
                  (mk_globals MailboxHook (Some Sim.mailbox)) Sim.healthy 0
                  (Some Sim.mailbox) H1) eq_refl H2).
Defined.

Lemma hook_always_has_instance_witness :
  hook_has_instance (mk_globals MailboxHook (Some Sim.mailbox)) /\
  result_of (SimPlatform.probe 40
               (mk_globals MailboxHook (Some Sim.mailbox)) Sim.healthy)
    = Done (0, mk_globals MailboxHook (Some Sim.mailbox), Some Sim.mailbox) /\
  hook_has_instance (mk_globals MailboxHook (Some Sim.mailbox)).
Proof.
  assert (H1 : hook_has_instance (mk_globals MailboxHook (Some Sim.mailbox)))
    by (intros _; simpl; discriminate).
  assert (H2 : result_of (SimPlatform.probe 40
               (mk_globals MailboxHook (Some Sim.mailbox)) Sim.healthy)
    = Done (0, mk_globals MailboxHook (Some Sim.mailbox), Some Sim.mailbox))
    by (vm_compute; reflexivity).
  split; [exact H1 | split; [exact H2 | ]].
  exact (proj1 (@hook_always_has_instance Sim.sim Sim.kernel
                  SimPlatform.platform Sim.params 40
                  (mk_globals MailboxHook (Some Sim.mailbox))
                  (mk_globals MailboxHook (Some Sim.mailbox)) Sim.healthy 0
                  (Some Sim.mailbox) H1) H2).
Defined.

Lemma remove_uninstalls_the_hook_witness :
  pm_power_off SimPlatform.unclaimed = NoHook /\
  result_of (SimPlatform.probe 40 SimPlatform.unclaimed Sim.healthy)
    = Done (0, mk_globals MailboxHook (Some Sim.mailbox), Some Sim.mailbox) /\
  result_of (@mmc_mailbox_remove _ SimPlatform.platform
               (mk_globals MailboxHook (Some Sim.mailbox)) Sim.flaky)
    = Done (mk_globals NoHook (Some Sim.mailbox)) /\
  pm_power_off (mk_globals NoHook (Some Sim.mailbox)) = NoHook /\
  mmc_mb_pwroff_inst (mk_globals NoHook (Some Sim.mailbox))
    = Some Sim.mailbox /\
  Some Sim.mailbox <> None /\
  trace_of (@mmc_mailbox_remove _ SimPlatform.platform
              (mk_globals MailboxHook (Some Sim.mailbox)) Sim.flaky) = [].
Proof.
  assert (H1 : pm_power_off SimPlatform.unclaimed = NoHook) by reflexivity.
  assert (H2 : result_of (SimPlatform.probe 40 SimPlatform.unclaimed
                            Sim.healthy)
    = Done (0, mk_globals MailboxHook (Some Sim.mailbox), Some Sim.mailbox))
    by (vm_compute; reflexivity).
  assert (H3 : result_of (@mmc_mailbox_remove _ SimPlatform.platform
               (mk_globals MailboxHook (Some Sim.mailbox)) Sim.flaky)
    = Done (mk_globals NoHook (Some Sim.mailbox))) by reflexivity.
  split; [exact H1 | split; [exact H2 | split; [exact H3 | ]]].
  exact (@remove_uninstalls_the_hook Sim.sim Sim.kernel SimPlatform.platform
           Sim.params 40 SimPlatform.unclaimed
           (mk_globals MailboxHook (Some Sim.mailbox))
           (mk_globals NoHook (Some Sim.mailbox)) Sim.healthy Sim.flaky
           (Some Sim.mailbox) H1 H2 H3).
Defined.

Lemma probe_succeeds_only_after_test_read_witness :
  0 < @mmc_mailbox_io_limit Sim.params /\
  result_of (@mmc_mailbox_probe _ SimPlatform.dead_kernel
               SimPlatform.platform Sim.params 40 SimPlatform.unclaimed
               Sim.healthy)
    = Done (- ENODEV, SimPlatform.unclaimed, Some Sim.mailbox) /\
  (Some Sim.mailbox <> None -> - ENODEV = 0 \/ - ENODEV = - ENODEV).
Proof.
  assert (H1 : 0 < @mmc_mailbox_io_limit Sim.params) by (simpl; lia).
  assert (H2 : result_of (@mmc_mailbox_probe _ SimPlatform.dead_kernel
               SimPlatform.platform Sim.params 40 SimPlatform.unclaimed
               Sim.healthy)
    = Done (- ENODEV, SimPlatform.unclaimed, Some Sim.mailbox))
    by (vm_compute; reflexivity).
  split; [exact H1 | split; [exact H2 | ]].
  exact (proj1 (proj2 (@probe_succeeds_only_after_test_read Sim.sim
                         SimPlatform.dead_kernel SimPlatform.platform
                         Sim.params 40 SimPlatform.unclaimed
                         SimPlatform.unclaimed Sim.healthy (- ENODEV)
                         (Some Sim.mailbox) H1 H2))).
Defined.

(** ** The bytes a write sends *)

Lemma firstn_firstn_skipn {A : Type} (a b : nat) (s : list A) :
  firstn a s ++ firstn b (skipn a s) = firstn (a + b) s.
Proof.
  revert s. induction a as [|a IH]; intros s; [reflexivity | ].
  destruct s as [|x s]; cbn [firstn skipn Nat.add app].
  - destruct b; reflexivity.
  - rewrite IH. reflexivity.
Qed.

Lemma forallb_filter_weaken {A : Type} (f g : A -> bool) (l : list A) :
  forallb f l = true -> forallb f (filter g l) = true.
Proof.
  induction l as [|x l IH]; cbn [forallb filter]; [reflexivity | ].
  intros H. apply andb_prop in H. destruct H as [Hx Hl].
  destruct (g x); cbn [forallb]; [rewrite Hx | ]; auto.
Qed.

Lemma covered_payload (val : list Z) (l : list event) (off c e : Z) :
  0 <= c ->
  forallb (sends_from val) l = true ->
  covered Write off c l = Some e ->
  off <= e /\
  flat_map payload l
    = firstn (Z.to_nat (e - off)) (skipn (Z.to_nat c) val).
Proof.
  revert off c. induction l as [|ev l IH]; intros off c Hc Hs Hcov.
  - cbn in Hcov. injection Hcov as <-. rewrite Z.sub_diag.
    split; [lia | reflexivity].
  - cbn [forallb] in Hs. apply andb_prop in Hs. destruct Hs as [Hev Hl].
    destruct ev as [ | | | | | | |reg [v|c'] count data r
                    |reg [v|c'] count data r| | | | | ];
      cbn [covered] in Hcov; try discriminate Hcov.
    destruct ((reg =? off) && (c' =? c) && (0 <? count)) eqn:E;
      [ | discriminate Hcov].
    apply andb_prop in E. destruct E as [E En].
    apply andb_prop in E. destruct E as [Er Ec].
    apply Z.eqb_eq in Er. apply Z.eqb_eq in Ec. apply Z.ltb_lt in En.
    subst reg c'.
    cbn [sends_from] in Hev.
    destruct (list_eq_dec Z.eq_dec data (load val (Val c) count))
      as [Hd|]; [ | discriminate Hev].
    assert (Hc' : 0 <= c + count) by lia.
    destruct (IH (off + count) (c + count) Hc' Hl Hcov) as [Hle Hrest].
    split; [lia | ].
    cbn [flat_map payload]. rewrite Hrest, Hd. cbn [load].
    replace (Z.to_nat (c + count)) with (Z.to_nat count + Z.to_nat c)%nat
      by lia.
    rewrite <- skipn_skipn, firstn_firstn_skipn.
    f_equal. lia.
Qed.

Section WrittenBytes.

Context {World : Type} {K : Kernel World} {P : ModuleParams}.

Lemma at24_regmap_write_val_sends (fuel : nat) (mmc_mailbox : at24_data)
  (val : list Z) (c off count : Z) (w : World) :
  forallb (sends_from val)
    (trace_of (at24_regmap_write fuel mmc_mailbox val (Val c) off count w))
  = true.
Proof.
  apply at24_regmap_write_forallb; try reflexivity.
  intros L r _. cbn [sends_from].
  destruct (list_eq_dec Z.eq_dec _ _); [reflexivity | contradiction].
Qed.

Lemma at24_regmap_write_tmp_sends (fuel : nat) (mmc_mailbox : at24_data)
  (val val' : list Z) (v off count : Z) (w : World) :
  forallb (sends_from val)
    (trace_of (at24_regmap_write fuel mmc_mailbox val' (Tmp v) off count w))
  = true.
Proof.
  apply at24_regmap_write_forallb; reflexivity.
Qed.

Lemma at24_write_loop_sends (fuel n : nat) (mmc_mailbox : at24_data)
  (val : list Z) (buf off count : Z) (w : World) :
  forallb (sends_from val)
    (trace_of (at24_write_loop fuel n mmc_mailbox val buf off count w)) = true.
Proof.
  revert buf off count w.
  induction n as [|n IH]; intros buf off count w; cbn [at24_write_loop];
    destruct (count =? 0); try reflexivity.
  rewrite trace_bind, forallb_app, at24_regmap_write_val_sends.
  cbn [andb]. destruct (result_of _) as [r| |]; [ | reflexivity | reflexivity].
  destruct (s32 r <? 0); [reflexivity | apply IH].
Qed.

Lemma at24_write_sends (fuel : nat) (mmc_mailbox : at24_data)
  (off : Z) (val : list Z) (count : Z) (w : World) :
  forallb (sends_from val)
    (trace_of (at24_write fuel mmc_mailbox off val count w)) = true.
Proof.
  unfold at24_write. destruct (count =? 0); [reflexivity | ].
  destruct (u64 (off + count) >? byte_len mmc_mailbox); [reflexivity | ].
  rewrite trace_bind, forallb_app. unfold do_pm_runtime_get_sync.
  destruct (pm_runtime_get_sync w) as [r w1].
  cbn [result_of trace_of world_of fst snd forallb sends_from andb].
  destruct (r <? 0); [reflexivity | ].
  rewrite trace_bind.
  cbn [mutex_lock emit result_of trace_of world_of fst snd app forallb
       sends_from andb].
  rewrite trace_bind, forallb_app.
  assert (Hlock : forall w',
            forallb (sends_from val)
              (trace_of (lock_if_multiple fuel mmc_mailbox count w')) = true).
  { intros w'. unfold lock_if_multiple. destruct (count <=? 1);
      [reflexivity | ].
    rewrite trace_bind, forallb_app, at24_regmap_write_tmp_sends.
    destruct (result_of _); reflexivity. }
  rewrite Hlock. cbn [andb].
  destruct (result_of (lock_if_multiple fuel mmc_mailbox count w1))
    as [locked| |]; [ | reflexivity | reflexivity].
  rewrite trace_bind, forallb_app, at24_write_loop_sends. cbn [andb].
  destruct (result_of (at24_write_loop _ _ _ _ _ _ _ _)) as [[|r']| |];
    try reflexivity.
  rewrite trace_bind, forallb_app.
  assert (Hunlock : forall w',
            forallb (sends_from val)
              (trace_of (unlock_if_locked fuel mmc_mailbox locked w'))
            = true).
  { intros w'. unfold unlock_if_locked. destruct (negb locked);
      [reflexivity | ].
    rewrite trace_bind, forallb_app, at24_regmap_write_tmp_sends.
    destruct (result_of _); reflexivity. }
  rewrite Hunlock. cbn [andb].
  destruct (result_of (unlock_if_locked _ _ _ _)); reflexivity.
Qed.

(** X16.  For an instance of the usual sizes and a non-empty request on a
    buffer of at least [count] bytes, the bytes that the successful raw
    writes of [at24_write] send are a prefix of the caller's buffer, in
    order and without repetition; a finished call returns 0 exactly when
    that prefix is the first [count] bytes. *)
Theorem write_sends_prefix_of_buffer (fuel : nat) (mmc_mailbox : at24_data)
  (off : Z) (val : list Z) (count : Z) (w : World) :
  0 < page_size mmc_mailbox < 65536 ->
  0 < write_max mmc_mailbox < 4294967296 ->
  byte_len mmc_mailbox < 2147483648 ->
  0 <= off -> 0 < count ->
  off + count < 18446744073709551616 ->
  count <= Z.of_nat (length val) ->
  exists k,
    0 <= k <= count /\
    bytes_written (trace_of (at24_write fuel mmc_mailbox off val count w))
      = firstn (Z.to_nat k) val /\
    Z.of_nat (length (bytes_written
       (trace_of (at24_write fuel mmc_mailbox off val count w)))) = k /\
    (forall r,
       result_of (at24_write fuel mmc_mailbox off val count w) = Done r ->
       (r = 0 <-> k = count)).
Proof.
  intros Hps Hwm Hlen Hoff Hcount Hsum Hval.
  assert (Hlen' : off + count <= byte_len mmc_mailbox ->
                  off + count < 2147483648) by lia.
  destruct (at24_write_outcome fuel mmc_mailbox off val count w Hps Hwm Hlen'
              Hoff Hcount Hsum) as (e & Hcov & Hrange & Hres).
  pose proof (at24_write_sends fuel mmc_mailbox off val count w) as Hs.
  apply (forallb_filter_weaken _ is_data_success) in Hs.
  assert (H0 : 0 <= 0) by lia.
  destruct (covered_payload val _ off 0 e H0 Hs Hcov) as [_ Hb].
  exists (e - off). unfold bytes_written.
  split; [lia | split; [exact Hb | split]].
  - unfold data_successes in Hb |- *. rewrite Hb. cbn [Z.to_nat skipn].
    rewrite length_firstn. lia.
  - intros r Hr.
    destruct (Hres r Hr) as [[-> He] | [He Hneg]].
    + split; intros; [lia | reflexivity].
    + unfold EINVAL, ETIMEDOUT in Hneg. split; intros; lia.
Qed.

End WrittenBytes.

Lemma write_sends_prefix_of_buffer_witness :
  0 < page_size Sim.mailbox < 65536 /\
  0 < write_max Sim.mailbox < 4294967296 /\
  byte_len Sim.mailbox < 2147483648 /\
  0 <= 10 /\ 0 < 12 /\ 10 + 12 < 18446744073709551616 /\
  12 <= Z.of_nat (length [1; 2; 3; 4; 5; 6; 7; 8; 9; 10; 11; 12]) /\
  exists k,
    0 <= k <= 12 /\
    bytes_written
      (trace_of (Sim.write 40 Sim.mailbox 10
                   [1; 2; 3; 4; 5; 6; 7; 8; 9; 10; 11; 12] 12 Sim.flaky))
      = firstn (Z.to_nat k) [1; 2; 3; 4; 5; 6; 7; 8; 9; 10; 11; 12] /\
    Z.of_nat (length (bytes_written
      (trace_of (Sim.write 40 Sim.mailbox 10
                   [1; 2; 3; 4; 5; 6; 7; 8; 9; 10; 11; 12] 12 Sim.flaky))))
      = k /\
    (forall r,
       result_of (Sim.write 40 Sim.mailbox 10
                    [1; 2; 3; 4; 5; 6; 7; 8; 9; 10; 11; 12] 12 Sim.flaky)
         = Done r ->
       (r = 0 <-> k = 12)).
Proof.
  assert (H1 : 0 < page_size Sim.mailbox < 65536) by (simpl; lia).
  assert (H2 : 0 < write_max Sim.mailbox < 4294967296) by (simpl; lia).
  assert (H3 : byte_len Sim.mailbox < 2147483648) by (simpl; lia).
  assert (H4 : 0 <= 10) by lia.
  assert (H5 : 0 < 12) by lia.
  assert (H6 : 10 + 12 < 18446744073709551616) by lia.
  assert (H7 : 12 <= Z.of_nat
                       (length [1; 2; 3; 4; 5; 6; 7; 8; 9; 10; 11; 12]))
    by (simpl; lia).
  split; [exact H1 | split; [exact H2 | split; [exact H3 | ]]].
  split; [exact H4 | split; [exact H5 | split; [exact H6 | ]]].
  split; [exact H7 | ].
  exact (@write_sends_prefix_of_buffer Sim.sim Sim.kernel Sim.params 40
           Sim.mailbox 10 [1; 2; 3; 4; 5; 6; 7; 8; 9; 10; 11; 12] 12
           Sim.flaky H1 H2 H3 H4 H5 H6 H7).
Defined.

Lemma transfer_attempted_at_least_once_witness :
  let wr1 := Sim.regmap_write 5 Sim.mailbox [7; 8; 9] (Val 0) 10 3 Sim.flaky in
  let wr := Sim.regmap_write 4 Sim.mailbox [7; 8; 9] (Val 0) 10 3 Sim.flaky in
  0 < page_size Sim.mailbox /\
  exists planned_wr,
    at24_adjust_write_count Sim.mailbox 10 3 = Some planned_wr /\
    (exists rest,
       trace_of wr1 =
         EvCall Write (Val 0) 10 3
           :: EvJiffies (@jiffies Sim.sim Sim.kernel Sim.flaky)
           :: EvJiffies (@jiffies Sim.sim Sim.kernel Sim.flaky)
           :: EvBulkWrite 10 (Val 0) planned_wr
                (load [7; 8; 9] (Val 0) planned_wr)
                (fst (@regmap_bulk_write Sim.sim Sim.kernel 10
                        (load [7; 8; 9] (Val 0) planned_wr) planned_wr
                        Sim.flaky))
           :: rest) /\
    @performed Sim.sim Sim.kernel Z wr1 Sim.flaky /\
    @performed Sim.sim Sim.kernel Z wr Sim.flaky /\
    (result_of wr = OutOfFuel \/
     (1 <= length (transport_calls (trace_of wr)))%nat).
Proof.
  assert (H1 : 0 < page_size Sim.mailbox) by (simpl; lia).
  split; [exact H1 | ].
  exact (proj2 (@transfer_attempted_at_least_once Sim.sim Sim.kernel
                  Sim.params 4 Sim.mailbox [7; 8; 9] (Val 0) 10 3
                  Sim.flaky) H1).
Defined.
